(** * Meta-learner model selection (kats/models/metalearner/metalearner_modelselect.py)

    A shallow embedding of [MetaLearnModelSelect] and [RandomDownSampler].

    Conventions of the embedding.
    - A Python call either returns or raises: [result].  Methods run in a
      state-and-failure monad [M S]; the state survives a raise, as the
      attributes of an object and the log do in Python.
    - The libraries the module delegates to (numpy's random generator and
      arithmetic, scikit-learn, ast, TsFeatures) are the fields of the class
      [Collaborators]; what the proofs need from them is stated as explicit
      contracts, never built into the class.
    - pandas Series are lists in positional order (every Series and DataFrame
      of the module is built from a list, so its index is 0..n-1), a
      DataFrame is its column names and its rows.
    - Feature values are IEEE-like [float]s with NaN and infinities; their
      arithmetic is left to the collaborator, and so is the arithmetic of
      [_bootstrap] on probabilities (differences and averages, which numpy
      rounds).  A probability is given by its exact value, a rational, and
      so is [sig_level]; [test_size] is a [float], which may be NaN.
    - Plots and the correlation matrix are left out: they do not touch
      what is proved here. *)

From Stdlib Require Import String Ascii Bool Arith ZArith QArith Lia Permutation Sorted List.
Import ListNotations.
Close Scope Q_scope.
Open Scope string_scope.
Open Scope nat_scope.
Open Scope list_scope.

Set Implicit Arguments.

(** ** Python failures *)

Inductive exn : Type :=
| ValueError (msg : string)
| TypeError (msg : string)
| AttributeError (msg : string)
| KeyError (key : string)
| IndexError (msg : string)
| ZeroDivisionError (msg : string).

Inductive result (A : Type) : Type :=
| Ok (a : A)
| Raise (e : exn).
Arguments Ok {A} a.
Arguments Raise {A} e.

Definition rbind {A B} (r : result A) (k : A -> result B) : result B :=
  match r with Ok a => k a | Raise e => Raise e end.

(** ** Floats *)

Inductive float : Type := NaN | PInf | NInf | Fin (q : Q).

Definition isnan (x : float) : bool :=
  match x with NaN => true | _ => false end.

(** [x == 0] *)
Definition float_is_zero (x : float) : bool :=
  match x with Fin q => Qeq_bool q 0 | _ => false end.

(** [x >= y], false as soon as one side is NaN. *)
Definition float_ge (x y : float) : bool :=
  match x, y with
  | NaN, _ | _, NaN => false
  | PInf, _ => true
  | _, NInf => true
  | NInf, _ => false
  | _, PInf => false
  | Fin a, Fin b => Qle_bool b a
  end.

(** [x <= y] and [x < y], false as soon as one side is NaN. *)
Definition float_le (x y : float) : bool := float_ge y x.
Definition float_lt (x y : float) : bool :=
  negb (isnan x) && negb (isnan y) && negb (float_ge x y).

(** ** numpy arrays of floats, one- or two-dimensional.  A 2-D array is the
    list of its rows. *)

Inductive ndarray : Type :=
| Arr1 (v : list float)
| Arr2 (rows : list (list float)).

(** ** pandas *)

Record DataFrame : Type := { columns : list string; values : list (list float) }.

(** Every row has one cell per column. *)
Definition rectangular (df : DataFrame) : Prop :=
  Forall (fun r => length r = length (columns df)) (values df).

(** A hyper-parameter table: for each candidate model a sequence whose last
    element is the error. *)
Definition hpt_table : Type := list (string * list float).

(** [series.iloc[idx]] for a list of positions. *)
Fixpoint iloc {A} (l : list A) (idx : list nat) : result (list A) :=
  match idx with
  | [] => Ok []
  | i :: idx' =>
      match nth_error l i with
      | None => Raise (IndexError "positional indexers are out-of-bounds")
      | Some a => rbind (iloc l idx') (fun r => Ok (a :: r))
      end
  end.

(** Width of the frame pandas builds from a list of rows: the longest row. *)
Definition data_width (data : list (list float)) : nat := list_max (map (@length float) data).

(** Shorter rows are completed with NaN. *)
Definition pad_rows (data : list (list float)) : list (list float) :=
  map (fun r => r ++ repeat NaN (data_width data - length r)) data.

(** [pd.DataFrame(data, columns=cols)] *)
Definition pd_DataFrame (data : list (list float)) (cols : list string) : result DataFrame :=
  if data_width data =? length cols
  then Ok {| columns := cols; values := pad_rows data |}
  else Raise (ValueError "columns passed do not match the columns of the data").

(** [df = pd.DataFrame(data); df.columns = cols] *)
Definition pd_DataFrame_set_columns (data : list (list float)) (cols : list string)
  : result DataFrame :=
  if data_width data =? length cols
  then Ok {| columns := cols; values := pad_rows data |}
  else Raise (ValueError "Length mismatch between the axis and the new column names").

(** ** scikit-learn estimators, as the selector uses them *)

Record tree : Type := { tree_predict_proba : ndarray -> result (list (list Q)) }.

Record classifier : Type := {
  classes_ : list string;
  predict : ndarray -> result (list string);
  predict_proba : ndarray -> result (list (list Q));
  (** Present on a random forest only; reading it on another estimator is an
      AttributeError. *)
  estimators_ : option (list tree)
}.

(** The estimator [train] instantiates. *)
Inductive estimator : Type :=
| RandomForestClassifier (n_estimators : Z)
| GradientBoostingClassifier
| StandardScaler_SVC
| KNeighborsClassifier (n_neighbors : Z)
| GaussianNB.

(** ** External collaborators *)

Class Collaborators : Type := {
  (** state of numpy's global random generator *)
  G : Type;
  (** [np.random.choice(a, size, replace)] *)
  np_random_choice : G -> list nat -> nat -> bool -> result (list nat) * G;
  (** [train_test_split] on [n] rows: the positions of the training rows
      and of the test rows *)
  train_test_split : G -> nat -> float -> result (list nat * list nat) * G;
  (** [estimator.fit(X, y)] *)
  sk_fit : G -> estimator -> list (list float) -> list string -> result classifier * G;
  (** float arithmetic and reductions *)
  np_sub : float -> float -> float;
  np_div : float -> float -> float;
  np_average : list float -> float;
  np_std : list float -> float;
  np_mean : list float -> float;
  np_median : list float -> float;
  (** [ast.literal_eval] at the two places it is used *)
  literal_eval_hpt : string -> result hpt_table;
  literal_eval_features : string -> result (list (string * float));
  (** time series and their features *)
  TimeSeriesData : Type;
  ts_copy : TimeSeriesData -> TimeSeriesData;
  ts_div_max : TimeSeriesData -> TimeSeriesData;
  TsFeatures_transform : TimeSeriesData -> list (string * float);
  repr_features : list (string * float) -> string
}.

(** Contract of [np.random.choice(a, size, replace=False)]: [size] entries of
    [a] taken at distinct positions. *)
Definition choice_without_replacement `{Collaborators} : Prop :=
  forall g a k, k <= length a ->
    exists l g', np_random_choice g a k false = (Ok l, g')
                 /\ length l = k /\ exists rest, Permutation a (l ++ rest).

(** Contract of [np.random.choice(a, size)]: [size] entries of [a]. *)
Definition choice_with_replacement `{Collaborators} : Prop :=
  forall g a k, a <> [] ->
    exists l g', np_random_choice g a k true = (Ok l, g')
                 /\ length l = k /\ Forall (fun x => In x a) l.

(** ** The monad of methods *)

Definition M (S A : Type) : Type := S -> result A * S.

Definition ret {S A} (a : A) : M S A := fun s => (Ok a, s).
Definition raise {S A} (e : exn) : M S A := fun s => (Raise e, s).
Definition bind {S A B} (c : M S A) (k : A -> M S B) : M S B :=
  fun s => match c s with
           | (Ok a, s') => k a s'
           | (Raise e, s') => (Raise e, s')
           end.
Definition lift_result {S A} (r : result A) : M S A := fun s => (r, s).

Notation "x <- c ;; k" := (bind c (fun x => k))
  (at level 61, c at next level, right associativity).
Notation "' pat <- c ;; k" := (bind c (fun x => match x with pat => k end))
  (at level 61, pat pattern, c at next level, right associativity).
Notation "c ;;; k" := (bind c (fun _ => k))
  (at level 61, right associativity).

(** A [for] loop that threads an accumulator. *)
Fixpoint for_each {S A B} (body : B -> A -> M S B) (acc : B) (l : list A) : M S B :=
  match l with
  | [] => ret acc
  | a :: l' => acc' <- body acc a ;; for_each body acc' l'
  end.

(** ** Insertion-ordered dictionaries with string keys *)

Fixpoint alist_lookup {V} (k : string) (d : list (string * V)) : option V :=
  match d with
  | [] => None
  | (k', v) :: d' => if String.eqb k k' then Some v else alist_lookup k d'
  end.

(** [d[k] = f(d.get(k))]: an existing key keeps its place, a new key goes
    last. *)
Fixpoint alist_update {V} (k : string) (f : option V -> V) (d : list (string * V))
  : list (string * V) :=
  match d with
  | [] => [(k, f None)]
  | (k', v) :: d' =>
      if String.eqb k k' then (k', f (Some v)) :: d'
      else (k', v) :: alist_update k f d'
  end.

(** [collections.Counter(ys)] *)
Definition Counter (ys : list string) : list (string * nat) :=
  fold_left
    (fun d c => alist_update c (fun o => match o with Some n => S n | None => 1 end) d)
    ys [].

(** [enumerate(ys)] *)
Definition enumerate {A} (ys : list A) : list (nat * A) := combine (seq 0 (length ys)) ys.

(** [min] of a sequence of counts *)
Definition py_min (l : list nat) : result nat :=
  match l with
  | [] => Raise (ValueError "min() arg is an empty sequence")
  | x :: l' => Ok (fold_left Nat.min l' x)
  end.

(** ** The world outside the objects *)

Inductive level : Type := ERROR | WARNING | INFO.

Inductive event : Type :=
| Log (lvl : level) (msg : string)
| CallSplit
| CallFit (e : estimator).

Section World.
Context `{Collaborators}.

Record world : Type := {
  heap : list ndarray;      (** the arrays of the caller and of the callee, by address *)
  trace : list event;       (** what was logged and which collaborator was asked *)
  rng : G
}.

Definition logging (lvl : level) (msg : string) : M world unit :=
  fun w => (Ok tt, {| heap := heap w; trace := trace w ++ [Log lvl msg]; rng := rng w |}).

Definition emit (e : event) : M world unit :=
  fun w => (Ok tt, {| heap := heap w; trace := trace w ++ [e]; rng := rng w |}).

Definition random_choice (a : list nat) (size : nat) (replace : bool) : M world (list nat) :=
  fun w => let (r, g) := np_random_choice (rng w) a size replace in
           (r, {| heap := heap w; trace := trace w; rng := g |}).
End World.

(** * RandomDownSampler *)

Module RandomDownSampler.
Section Sampler.
Context `{Collaborators}.

Record t : Type := {
  hpt : list hpt_table;
  dataX : DataFrame;
  dataY : list string;
  col_namesX : list string
}.

Definition __init__ (hpt : list hpt_table) (dataX : DataFrame) (dataY : list string) : t :=
  {| hpt := hpt; dataX := dataX; dataY := dataY; col_namesX := columns dataX |}.

(** [idx_dict]: the positions of every label, labels in order of first
    occurrence. *)
Definition group_indices (ys : list string) : list (string * list nat) :=
  fold_left
    (fun d ic => alist_update (snd ic)
                   (fun o => match o with Some l => l ++ [fst ic] | None => [fst ic] end) d)
    (enumerate ys) [].

(** Body of the loop over [idx_dict]: draw [min_n] positions of the class
    and append their rows to the three output lists. *)
Definition resample_class (self : t) (min_n : nat)
    (acc : list (list float) * list string * list hpt_table)
    (entry : string * list nat)
  : M world (list (list float) * list string * list hpt_table) :=
  let '(resampled_x, resampled_y, resampled_hpt) := acc in
  chosen <- random_choice (snd entry) min_n false ;;
  xs <- lift_result (iloc (values (dataX self)) chosen) ;;
  ys <- lift_result (iloc (dataY self) chosen) ;;
  hs <- lift_result (iloc (hpt self) chosen) ;;
  ret (resampled_x ++ xs, resampled_y ++ ys, resampled_hpt ++ hs).

Definition fit_resample (self : t)
  : M world (list hpt_table * DataFrame * list string) :=
  min_n <- lift_result (py_min (map snd (Counter (dataY self)))) ;;
  let idx_dict := group_indices (dataY self) in
  '(resampled_x, resampled_y, resampled_hpt) <-
    for_each (resample_class self min_n) ([], [], []) idx_dict ;;
  resampled_x <- lift_result (pd_DataFrame_set_columns resampled_x (col_namesX self)) ;;
  ret (resampled_hpt, resampled_x, resampled_y).
End Sampler.
End RandomDownSampler.


(** * numpy and Python helpers used by the selector *)

(** [mapM] in [result], left to right. *)
Fixpoint mapR {A B} (f : A -> result B) (l : list A) : result (list B) :=
  match l with
  | [] => Ok []
  | a :: l' => rbind (f a) (fun b => rbind (mapR f l') (fun bs => Ok (b :: bs)))
  end.

Definition zip_with {A B C} (f : A -> B -> C) (l1 : list A) (l2 : list B) : list C :=
  map (fun p => f (fst p) (snd p)) (combine l1 l2).

(** [len(x)] where [x] may be [None] *)
Definition py_len {A} (x : option (list A)) : result nat :=
  match x with
  | None => Raise (TypeError "object of type 'NoneType' has no len()")
  | Some l => Ok (length l)
  end.

Definition py_max (l : list nat) : result nat :=
  match l with
  | [] => Raise (ValueError "max() arg is an empty sequence")
  | x :: l' => Ok (fold_left Nat.max l' x)
  end.

(** [l[:n]] *)
Definition slice_to {A} (n : Z) (l : list A) : list A :=
  if (0 <=? n)%Z then firstn (Z.to_nat n) l
  else firstn (length l - Z.to_nat (- n)) l.

(** [series.unique()]: the distinct values in order of first appearance. *)
Definition unique (l : list string) : list string := rev (nodup string_dec (rev l)).

(** [np.vstack]: a 1-D array is one row. *)
Definition atleast_2d (a : ndarray) : list (list float) :=
  match a with Arr1 v => [v] | Arr2 rows => rows end.

Definition ncols (rows : list (list float)) : nat :=
  match rows with [] => 0 | r :: _ => length r end.

(** [np.row_stack(arrs)] *)
Definition np_row_stack (arrs : list ndarray) : result ndarray :=
  match map atleast_2d arrs with
  | [] => Raise (ValueError "need at least one array to concatenate")
  | m :: ms =>
      if forallb (fun m' => ncols m' =? ncols m) ms
      then Ok (Arr2 (concat (m :: ms)))
      else Raise (ValueError "all the input array dimensions except for the concatenation axis must match exactly")
  end.

(** Broadcasting of a binary operation along the last axis. *)
Definition broadcast_vec (op : float -> float -> float) (r v : list float)
  : result (list float) :=
  if length r =? length v then Ok (zip_with op r v)
  else match v, r with
       | [b], _ => Ok (map (fun a => op a b) r)
       | _, [a] => Ok (map (fun b => op a b) v)
       | _, _ => Raise (ValueError "operands could not be broadcast together")
       end.

(** [x op v] for an array [x] and a 1-D array [v] *)
Definition np_broadcast (op : float -> float -> float) (x : ndarray) (v : list float)
  : result ndarray :=
  match x with
  | Arr1 r => rbind (broadcast_vec op r v) (fun r' => Ok (Arr1 r'))
  | Arr2 rows => rbind (mapR (fun r => broadcast_vec op r v) rows) (fun rows' => Ok (Arr2 rows'))
  end.

Definition nan_to_zero (x : float) : float := if isnan x then Fin 0 else x.

(** the array after [x[np.isnan(x)] = 0.0] *)
Definition fill_nan (x : ndarray) : ndarray :=
  match x with
  | Arr1 r => Arr1 (map nan_to_zero r)
  | Arr2 rows => Arr2 (map (map nan_to_zero) rows)
  end.

(** [x.reshape([1, -1])] *)
Definition reshape_one_row (x : ndarray) : ndarray :=
  match x with
  | Arr1 r => Arr2 [r]
  | Arr2 rows => Arr2 [concat rows]
  end.

(** A reduction along axis 0 of a table with [c] columns. *)
Definition reduce_axis0 (f : list float -> float) (c : nat) (rows : list (list float))
  : list float :=
  map (fun j => f (map (fun r => nth j r NaN) rows)) (seq 0 c).

(** [DataFrame op v] for a 1-D array [v]: [v] is laid along the columns. *)
Definition df_broadcast (op : float -> float -> float) (df : DataFrame) (v : list float)
  : result DataFrame :=
  if length v =? length (columns df)
  then Ok {| columns := columns df; values := map (fun r => zip_with op r v) (values df) |}
  else Raise (ValueError "Unable to coerce to Series, length must match the columns").

(** [df.fillna(0)] *)
Definition fillna0 (df : DataFrame) : DataFrame :=
  {| columns := columns df; values := map (map nan_to_zero) (values df) |}.

(** [np.argsort(keys)]: the positions of [keys] in ascending order of key,
    equal keys in order of position. *)
Fixpoint insert_by (key : nat -> Q) (i : nat) (l : list nat) : list nat :=
  match l with
  | [] => [i]
  | j :: l' => if Qle_bool (key i) (key j) then i :: l else j :: insert_by key i l'
  end.

Definition argsort (keys : list Q) : list nat :=
  fold_right (insert_by (fun i => nth i keys 0%Q)) [] (seq 0 (length keys)).

(** [a[idx]] with an array of positions *)
Definition take {A} (a : list A) (idx : list nat) : result (list A) :=
  mapR (fun i => match nth_error a i with
                 | Some x => Ok x
                 | None => Raise (IndexError "index is out of bounds")
                 end) idx.

(** [data[:, j]] *)
Definition column {A} (j : nat) (data : list (list A)) : result (list A) :=
  mapR (fun row => match nth_error row j with
                   | Some x => Ok x
                   | None => Raise (IndexError "index is out of bounds for axis 1")
                   end) data.

(** [a.reshape(-1, n)] for [n > 0] *)
Definition reshape_rows {A} (n : nat) (a : list A) : result (list (list A)) :=
  if length a mod n =? 0
  then Ok (map (fun r => firstn n (skipn (r * n) a)) (seq 0 (length a / n)))
  else Raise (ValueError "cannot reshape array").

Definition count_true (l : list bool) : nat := length (filter (fun b => b) l).

(** [np.average] of an array of booleans: the fraction of [True], NaN on an
    empty array. *)
Definition np_average_bool (l : list bool) : float :=
  match l with
  | [] => NaN
  | _ => Fin (inject_Z (Z.of_nat (count_true l)) / inject_Z (Z.of_nat (length l)))%Q
  end.

(** [metrics.accuracy_score(y_true, y_pred)] *)
Definition accuracy_score (y_true y_pred : list string) : result float :=
  if length y_true =? length y_pred
  then Ok (np_average_bool (zip_with String.eqb y_true y_pred))
  else Raise (ValueError "Found input variables with inconsistent numbers of samples").

Fixpoint list_set {A} (i : nat) (x : A) (l : list A) : list A :=
  match l, i with
  | [], _ => []
  | _ :: l', 0 => x :: l'
  | a :: l', S i' => a :: list_set i' x l'
  end.

Section Heap.
Context `{Collaborators}.

(** A new array; its address is returned. *)
Definition alloc (a : ndarray) : M world nat :=
  fun w => (Ok (length (heap w)),
            {| heap := heap w ++ [a]; trace := trace w; rng := rng w |}).

Definition load (r : nat) : M world ndarray :=
  fun w => (Ok (nth r (heap w) (Arr1 [])), w).

(** An assignment into the array at [r]. *)
Definition store (r : nat) (a : ndarray) : M world unit :=
  fun w => (Ok tt, {| heap := list_set r a (heap w); trace := trace w; rng := rng w |}).
End Heap.

Notation "x <~ c ;; k" := (rbind c (fun x => k))
  (at level 61, c at next level, right associativity).

(** * MetaLearnModelSelect *)

Module MetaLearnModelSelect.

(** A value of a record of meta-data, kept as the object or as the text of
    its Python literal. *)
Inductive literal (A : Type) : Type :=
| Text (s : string)
| Obj (a : A).
Arguments Text {A} s.
Arguments Obj {A} a.

(** One dictionary of [metadata]; [None] is an absent key. *)
Record meta_record : Type := {
  hpt_res : option (literal hpt_table);
  features : option (literal (list (string * float)));
  best_model : option string
}.

(** The attributes of a selector built from meta-data. *)
Record t : Type := {
  metadata : list meta_record;
  col_namesX : list string;
  hpt : list hpt_table;
  metadataX : DataFrame;
  metadataY : list string;
  x_mean : list float;
  x_std : list float;
  scale : bool;
  clf : option classifier
}.

Definition set_data (s : t) (h : list hpt_table) (x : DataFrame) (y : list string) : t :=
  {| metadata := metadata s; col_namesX := col_namesX s; hpt := h; metadataX := x;
     metadataY := y; x_mean := x_mean s; x_std := x_std s; scale := scale s; clf := clf s |}.

Definition set_x_mean (s : t) (v : list float) : t :=
  {| metadata := metadata s; col_namesX := col_namesX s; hpt := hpt s;
     metadataX := metadataX s; metadataY := metadataY s; x_mean := v; x_std := x_std s;
     scale := scale s; clf := clf s |}.

Definition set_x_std (s : t) (v : list float) : t :=
  {| metadata := metadata s; col_namesX := col_namesX s; hpt := hpt s;
     metadataX := metadataX s; metadataY := metadataY s; x_mean := x_mean s; x_std := v;
     scale := scale s; clf := clf s |}.

Definition set_scale (s : t) (b : bool) : t :=
  {| metadata := metadata s; col_namesX := col_namesX s; hpt := hpt s;
     metadataX := metadataX s; metadataY := metadataY s; x_mean := x_mean s;
     x_std := x_std s; scale := b; clf := clf s |}.

Definition set_metadataX (s : t) (x : DataFrame) : t :=
  {| metadata := metadata s; col_namesX := col_namesX s; hpt := hpt s;
     metadataX := x; metadataY := metadataY s; x_mean := x_mean s;
     x_std := x_std s; scale := scale s; clf := clf s |}.

Definition set_clf (s : t) (c : option classifier) : t :=
  {| metadata := metadata s; col_namesX := col_namesX s; hpt := hpt s;
     metadataX := metadataX s; metadataY := metadataY s; x_mean := x_mean s;
     x_std := x_std s; scale := scale s; clf := c |}.

(** What [train] returns. *)
Record train_result : Type := {
  fit_error : list (string * float);
  pred_error : list (string * float);
  clf_accuracy : float
}.

(** The array [pred_by_feature] returns: 1-D for [n_top = 1], 2-D otherwise. *)
Inductive labels : Type :=
| Labels1 (l : list string)
| Labels2 (rows : list (list string)).

(** The argument [source_x] of [pred_by_feature], by its run-time type; an
    array is given by its address. *)
Inductive source : Type :=
| SrcList (items : list nat)
| SrcNdarray (a : nat)
| SrcDataFrame (df : DataFrame)
| SrcOther (type_repr : string).

(** [str(type(source_x))] *)
Definition type_repr_of (x : source) : string :=
  match x with
  | SrcList _ => "<class 'list'>"
  | SrcNdarray _ => "<class 'numpy.ndarray'>"
  | SrcDataFrame _ => "<class 'pandas.core.frame.DataFrame'>"
  | SrcOther r => r
  end.

(** What [pred_fuzzy] returns. *)
Record fuzzy_result : Type := {
  label : list string;
  probability : list Q;
  pvalue : float
}.

Section Selector.
Context `{Collaborators}.

(** ** Methods act on the selector and on the world *)

Definition lift {A} (c : M world A) : M (t * world) A :=
  fun s => let (r, w') := c (snd s) in (r, (fst s, w')).
Definition get_self : M (t * world) t := fun s => (Ok (fst s), s).
Definition modify_self (f : t -> t) : M (t * world) unit :=
  fun s => (Ok tt, (f (fst s), snd s)).

(** [logging.error(msg); raise ValueError(msg)] *)
Definition fail_with {A} (msg : string) : M world A :=
  logging ERROR msg ;;; raise (ValueError msg).

(** ** Construction *)

Definition reorganize_record (r : meta_record)
  : result (hpt_table * list float * string) :=
  h <~ match hpt_res r with
       | None => Raise (KeyError "hpt_res")
       | Some (Text s) => literal_eval_hpt s
       | Some (Obj h) => Ok h
       end ;;
  x <~ match features r with
       | None => Raise (KeyError "features")
       | Some (Text s) => d <~ literal_eval_features s ;; Ok (map snd d)
       | Some (Obj d) => Ok (map snd d)
       end ;;
  y <~ match best_model r with
       | None => Raise (KeyError "best_model")
       | Some y => Ok y
       end ;;
  Ok (h, x, y).

(** [np.average(values, axis=0)] and [np.std(values, axis=0)] with zeros of
    the latter set to 1. *)
Definition column_means (df : DataFrame) : list float :=
  reduce_axis0 np_average (length (columns df)) (values df).
Definition column_stds (df : DataFrame) : list float :=
  map (fun s => if float_is_zero s then Fin 1 else s)
      (reduce_axis0 np_std (length (columns df)) (values df)).

(** The attributes [_reorganize_data] sets: [col_namesX], [hpt],
    [metadataX], [metadataY], [x_mean], [x_std]. *)
Definition _reorganize_data (md : list meta_record)
  : result (list string * list hpt_table * DataFrame * list string * list float * list float) :=
  rows <~ mapR reorganize_record md ;;
  let hpt_list := map (fun r => fst (fst r)) rows in
  let metadataX_list := map (fun r => snd (fst r)) rows in
  let metadataY_list := map (fun r => snd r) rows in
  r0 <~ match md with
        | r :: _ => Ok r
        | [] => Raise (IndexError "list index out of range")
        end ;;
  col_namesX <~ match features r0 with
                | None => Raise (KeyError "features")
                | Some (Text _) => Raise (AttributeError "'str' object has no attribute 'keys'")
                | Some (Obj d) => Ok (map fst d)
                end ;;
  df <~ pd_DataFrame metadataX_list col_namesX ;;
  let df := fillna0 df in
  Ok (col_namesX, hpt_list, df, metadataY_list, column_means df, column_stds df).

Definition count_category (self : t) : list (string * nat) := Counter (metadataY self).

Definition _validate_data (metadataY : list string) : M world unit :=
  let num_class := length (unique metadataY) in
  if num_class =? 1
  then fail_with "Only one class in the label column (best_model), not able to train a classifier!"
  else
    let local_count := map snd (Counter metadataY) in
    lo <- lift_result (py_min local_count) ;;
    if lo * num_class <? 30
    then logging INFO "Not recommend to do downsampling! Dataset will be too small after downsampling!"
    else
      hi <- lift_result (py_max local_count) ;;
      if lo * 5 <? hi
      then logging INFO "Number of obs in majority class is much greater than in minority class. Downsampling is recommended!"
      else logging INFO "No significant data imbalance problem, no need to do downsampling.".

(** The constructor.  With [load_model] the object is left without
    attributes ([None]), to be filled by [load_model]. *)
Definition __init__ (metadata : option (list meta_record)) (load_model : bool)
  : M world (option t) :=
  if negb load_model then
    n <- lift_result (py_len metadata) ;;
    if n <=? 30 then fail_with "Dataset is too small to train a meta learner!"
    else
      match metadata with
      | None => fail_with "Missing metadata!"
      | Some md =>
          r0 <- lift_result (match md with
                             | r :: _ => Ok r
                             | [] => Raise (IndexError "list index out of range")
                             end) ;;
          match hpt_res r0 with
          | None => fail_with "Missing best hyper-params, not able to train a meta learner!"
          | Some _ =>
          match features r0 with
          | None => fail_with "Missing time series features, not able to train a meta learner!"
          | Some _ =>
          match best_model r0 with
          | None => fail_with "Missing best models, not able to train a meta learner!"
          | Some _ =>
              '(col_namesX, hpt, metadataX, metadataY, x_mean, x_std) <-
                lift_result (_reorganize_data md) ;;
              _validate_data metadataY ;;;
              ret (Some {| metadata := md; col_namesX := col_namesX; hpt := hpt;
                           metadataX := metadataX; metadataY := metadataY;
                           x_mean := x_mean; x_std := x_std;
                           scale := false; clf := None |})
          end end end
      end
  else if load_model then ret None
  else raise (ValueError "Fail to initiate MetaLearnModelSelect.").

(** ** Pre-processing *)

(** The body of [if downsample:] *)
Definition downsample_step : M (t * world) unit :=
  self <- get_self ;;
  '(h, x, y) <- lift (RandomDownSampler.fit_resample
                        (RandomDownSampler.__init__ (hpt self) (metadataX self) (metadataY self))) ;;
  modify_self (fun s => set_data s h x y) ;;;
  lift (logging INFO "Successfully applied random downsampling!") ;;;
  modify_self (fun s => set_x_mean s (column_means (metadataX s))) ;;;
  modify_self (fun s => set_x_std s (column_stds (metadataX s))).

(** The body of [if scale:] *)
Definition scale_step : M (t * world) unit :=
  modify_self (fun s => set_scale s true) ;;;
  self <- get_self ;;
  centred <- lift_result (df_broadcast np_sub (metadataX self) (x_mean self)) ;;
  scaled <- lift_result (df_broadcast np_div centred (x_std self)) ;;
  modify_self (fun s => set_metadataX s scaled) ;;;
  lift (logging INFO "Successfully scaled data by centering to the mean and component-wise scaling to unit variance!").

Definition preprocess (downsample scale : bool) : M (t * world) unit :=
  (if downsample then downsample_step else ret tt) ;;;
  (if scale then scale_step else ret tt).

(** ** Training *)

(** [train_test_split(X, y, hpt, test_size=test_size)] *)
Definition split (X : list (list float)) (y : list string) (h : list hpt_table)
    (test_size : float)
  : M world (list (list float) * list (list float) * list string * list string
             * list hpt_table * list hpt_table) :=
  emit CallSplit ;;;
  if negb ((length y =? length X) && (length h =? length X))
  then raise (ValueError "Found input variables with inconsistent numbers of samples")
  else
    '(tr, te) <- (fun w => let (r, g) := train_test_split (rng w) (length X) test_size in
                           (r, {| heap := heap w; trace := trace w; rng := g |})) ;;
    x_train <- lift_result (iloc X tr) ;;
    x_test <- lift_result (iloc X te) ;;
    y_train <- lift_result (iloc y tr) ;;
    y_test <- lift_result (iloc y te) ;;
    hpt_train <- lift_result (iloc h tr) ;;
    hpt_test <- lift_result (iloc h te) ;;
    ret (x_train, x_test, y_train, y_test, hpt_train, hpt_test).

(** [clf = e; clf.fit(X, y)] *)
Definition fit (e : estimator) (X : list (list float)) (y : list string) : M world classifier :=
  emit (CallFit e) ;;;
  (fun w => let (r, g) := sk_fit (rng w) e X y in
            (r, {| heap := heap w; trace := trace w; rng := g |})).

(** [tables.iloc[i][c][-1]] *)
Definition hpt_error (tables : list hpt_table) (i : nat) (c : string) : result float :=
  match nth_error tables i with
  | None => Raise (IndexError "single positional indexer is out-of-bounds")
  | Some tb =>
      match alist_lookup c tb with
      | None => Raise (KeyError c)
      | Some params =>
          match rev params with
          | [] => Raise (IndexError "list index out of range")
          | e :: _ => Ok e
          end
      end
  end.

Fixpoint foldR {A B} (f : B -> A -> result B) (acc : B) (l : list A) : result B :=
  match l with
  | [] => Ok acc
  | a :: l' => acc' <~ f acc a ;; foldR f acc' l'
  end.

(** [test_size] is a float: NaN passes the test [test_size <= 0 or
    test_size >= 1], both comparisons being false. *)
Definition train (method eval_method : string) (test_size : float) (n_trees n_neighbors : Z)
  : M (t * world) train_result :=
  if negb (existsb (String.eqb method) ["RandomForest"; "GBDT"; "SVM"; "KNN"; "NaiveBayes"])
  then lift (fail_with "Only support RandomForest, GBDT, SVM, KNN, and NaiveBayes method.")
  else if negb (existsb (String.eqb eval_method) ["mean"; "median"])
  then lift (fail_with "Only support mean and median as evaluation method.")
  else if float_le test_size (Fin 0) || float_ge test_size (Fin 1)
  then lift (fail_with "Illegal test set.")
  else
    self <- get_self ;;
    '(x_train, x_test, y_train, y_test, hpt_train, hpt_test) <-
      lift (split (values (metadataX self)) (metadataY self) (hpt self) test_size) ;;
    let e := if String.eqb method "RandomForest" then RandomForestClassifier n_trees
             else if String.eqb method "GBDT" then GradientBoostingClassifier
             else if String.eqb method "SVM" then StandardScaler_SVC
             else if String.eqb method "KNN" then KNeighborsClassifier n_neighbors
             else GaussianNB in
    c <- lift (fit e x_train y_train) ;;
    y_fit <- lift_result (predict c (Arr2 x_train)) ;;
    y_pred <- lift_result (predict c (Arr2 x_test)) ;;
    let em := if String.eqb eval_method "mean" then np_mean else np_median in
    ml_fit <- lift_result (mapR (fun ic => hpt_error hpt_train (fst ic) (snd ic))
                                (enumerate y_fit)) ;;
    ml_pred <- lift_result (mapR (fun ic => hpt_error hpt_test (fst ic) (snd ic))
                                 (enumerate y_pred)) ;;
    '(fit_error, pred_error) <-
      lift_result
        (foldR (fun (acc : list (string * float) * list (string * float)) lbl =>
                  fe <~ mapR (fun i => hpt_error hpt_train i lbl) (seq 0 (length hpt_train)) ;;
                  pe <~ mapR (fun i => hpt_error hpt_test i lbl) (seq 0 (length hpt_test)) ;;
                  Ok (alist_update lbl (fun _ => em fe) (fst acc),
                      alist_update lbl (fun _ => em pe) (snd acc)))
               ([("meta-learn", em ml_fit)], [("meta-learn", em ml_pred)])
               (unique (metadataY self))) ;;
    modify_self (fun s => set_clf s (Some c)) ;;;
    acc <- lift_result (accuracy_score y_test y_pred) ;;
    ret {| fit_error := fit_error; pred_error := pred_error; clf_accuracy := acc |}.

(** ** Prediction *)

Definition not_trained : string :=
  "Haven't trained a model. Please train a model or load a model before predicting.".

(** The last lines of [pred_by_feature]: what is returned for the prepared
    array [x]. *)
Definition predicted_labels (c : classifier) (x : ndarray) (n_top : Z) : result labels :=
  if (n_top =? 1)%Z then
    ys <~ predict c x ;;
    Ok (Labels1 ys)
  else
    prob <~ predict_proba c x ;;
    let order := map (fun row => argsort (map Qopp row)) prob in
    let classes := classes_ c in
    ranked <~ mapR (take classes) order ;;
    Ok (Labels2 (map (slice_to n_top) ranked)).

Definition pred_by_feature (source_x : source) (n_top : Z) : M (t * world) labels :=
  self <- get_self ;;
  match clf self with
  | None => lift (fail_with not_trained)
  | Some c =>
      x <- match source_x with
           | SrcList items =>
               arrs <- lift (for_each (fun acc r => a <- load r ;; ret (acc ++ [a])) [] items) ;;
               stacked <- lift_result (np_row_stack arrs) ;;
               lift (alloc stacked)
           | SrcNdarray r =>
               a <- lift (load r) ;;
               lift (alloc a)
           | _ =>
               lift (fail_with ("Invalid source_x type: " ++ type_repr_of source_x ++ "."))
           end ;;
      x <- (if scale self then
              a <- lift (load x) ;;
              centred <- lift_result (np_broadcast np_sub a (x_mean self)) ;;
              scaled <- lift_result (np_broadcast np_div centred (x_std self)) ;;
              lift (alloc scaled)
            else ret x) ;;
      a <- lift (load x) ;;
      lift (store x (fill_nan a)) ;;;
      a <- lift (load x) ;;
      lift_result (predicted_labels c a n_top)
  end.

(** What [pred] returns: a name for [n_top = 1], a row of names otherwise. *)
Inductive prediction : Type :=
| OneLabel (s : string)
| TopLabels (l : list string).

Definition pred (source_ts : TimeSeriesData) (ts_scale : bool) (n_top : Z)
  : M (t * world) prediction :=
  let ts := ts_copy source_ts in
  self <- get_self ;;
  match clf self with
  | None => lift (fail_with not_trained)
  | Some _ =>
      ts <- (if ts_scale then
               lift (logging INFO "Successful scaled! Each value of TS has been divided by the max value of TS.") ;;;
               ret (ts_div_max ts)
             else ret ts) ;;
      let new_features := TsFeatures_transform ts in
      let new_features_vector := map snd new_features in
      (if existsb isnan new_features_vector then
         lift (logging WARNING
                 ("Features of the test time series contains NaN value, consider processing it. Features are: "
                  ++ repr_features new_features ++ ". Fill in NaNs with 0."))
       else ret tt) ;;;
      r <- lift (alloc (Arr1 new_features_vector)) ;;
      res <- pred_by_feature (SrcList [r]) n_top ;;
      match res with
      | Labels1 (y :: _) => ret (OneLabel y)
      | Labels2 (row :: _) => ret (TopLabels row)
      | _ => raise (IndexError "index 0 is out of bounds for axis 0 with size 0")
      end
  end.

(** Helper function for bootstrap test and returns the pvalue.  The
    entries of [data] are floats given by their values; the differences
    and the averages are numpy's, rounding included.  [np.average] along
    axis 1 divides the size of the sample by the number of its rows, which
    fails on a sample without rows. *)
Definition _bootstrap (data : list (list Q)) (rep : Z) : M world float :=
  c0 <- lift_result (column 0 data) ;;
  c1 <- lift_result (column 1 data) ;;
  let diff := zip_with np_sub (map Fin c0) (map Fin c1) in
  let n := length diff in
  if (Z.of_nat n * rep <? 0)%Z then raise (ValueError "negative dimensions are not allowed")
  else
    idx <- random_choice (seq 0 n) (n * Z.to_nat rep) true ;;
    drawn <- lift_result (take diff idx) ;;
    if n =? 0 then raise (ValueError "cannot reshape array of size 0 into shape (0)")
    else
      sample <- lift_result (reshape_rows n drawn) ;;
      if length sample =? 0 then raise (ZeroDivisionError "division by zero")
      else
        let bs := map np_average sample in
        ret (np_average_bool (map (fun b => float_lt b (Fin 0)) bs)).

Definition first_row {A} (p : list (list A)) : result (list A) :=
  match p with
  | r :: _ => Ok r
  | [] => Raise (IndexError "index 0 is out of bounds for axis 0 with size 0")
  end.

Definition pred_fuzzy (source_ts : TimeSeriesData) (ts_scale : bool) (sig_level : Q)
  : M (t * world) fuzzy_result :=
  let ts := ts_copy source_ts in
  let ts := if ts_scale then ts_div_max ts else ts in
  let test := fill_nan (Arr1 (map snd (TsFeatures_transform ts))) in
  self <- get_self ;;
  test <- (if scale self then
             centred <- lift_result (np_broadcast np_sub test (x_mean self)) ;;
             lift_result (np_broadcast np_div centred (x_std self))
           else ret test) ;;
  let test := reshape_one_row test in
  match clf self with
  | None => raise (AttributeError "'NoneType' object has no attribute 'estimators_'")
  | Some c =>
      match estimators_ c with
      | None => raise (AttributeError "object has no attribute 'estimators_'")
      | Some trees =>
          data <- lift_result (mapR (fun tr => p <~ tree_predict_proba tr test ;; first_row p)
                                    trees) ;;
          p <- lift_result (predict_proba c test) ;;
          prob <- lift_result (first_row p) ;;
          let idx := firstn 2 (argsort (map Qopp prob)) in
          top2 <- lift_result
                    (match data with
                     | [] => Raise (IndexError "too many indices for array")
                     | _ => mapR (fun row => take row (firstn 2 idx)) data
                     end) ;;
          pvalue <- lift (_bootstrap top2 200) ;;
          if float_ge pvalue (Fin sig_level) then
            label <- lift_result (take (classes_ c) (firstn 2 idx)) ;;
            prob <- lift_result (take prob (firstn 2 idx)) ;;
            ret {| label := label; probability := prob; pvalue := pvalue |}
          else
            label <- lift_result (take (classes_ c) (firstn 1 idx)) ;;
            prob <- lift_result (take prob (firstn 1 idx)) ;;
            ret {| label := label; probability := prob; pvalue := pvalue |}
      end
  end.
End Selector.
End MetaLearnModelSelect.

(** * Vocabulary of the specification *)

(** [m] is the size of the smallest label class of [ys]. *)
Definition is_min_count (ys : list string) (m : nat) : Prop :=
  (exists c, In c ys /\ count_occ string_dec ys c = m)
  /\ (forall c, In c ys -> m <= count_occ string_dec ys c).

(** The value a dictionary of counts (of position lists) gives for a key,
    absent keys counting for nothing. *)
Definition count_of (o : option nat) : nat := match o with Some n => n | None => 0 end.
Definition getl (o : option (list nat)) : list nat := match o with Some l => l | None => [] end.

(** An entry of [idx_dict] from which [min_n] rows can be drawn: positions of
    rows of [dataY] that all carry the entry's label. *)
Definition drawable (dataY : list string) (min_n : nat) (e : string * list nat) : Prop :=
  min_n <= length (snd e)
  /\ Forall (fun i => nth_error dataY i = Some (fst e)) (snd e).

Section BootstrapVocabulary.
Context `{Collaborators}.

(** The per-row difference, column 0 minus column 1, of a two-column
    table, as numpy subtracts. *)
Definition differences (data : list (list Q)) : list float :=
  map (fun row => np_sub (Fin (nth 0 row 0%Q)) (Fin (nth 1 row 0%Q))) data.

(** The resamples a draw [idx] of positions selects from the [n] values
    [diff]: entry [j] of resample [r] is the value at the position drawn
    in place [r * n + j]. *)
Definition resamples (diff : list float) (idx : list nat) : list (list float) :=
  map (fun r => map (fun j => nth (nth (r * length diff + j) idx 0) diff NaN)
                    (seq 0 (length diff)))
      (seq 0 (length idx / length diff)).

(** The average of the resample, as numpy computes it, is strictly
    negative. *)
Definition negative_average (s : list float) : bool := float_lt (np_average s) (Fin 0).
End BootstrapVocabulary.

Section WorldVocabulary.
Context `{Collaborators}.

(** The world after [logging.error(msg)]. *)
Definition logged_error (w : world) (msg : string) : world :=
  {| heap := heap w; trace := trace w ++ [Log ERROR msg]; rng := rng w |}.

(** The world after a call created the arrays [fresh]. *)
Definition grown (w : world) (fresh : list ndarray) : world :=
  {| heap := heap w ++ fresh; trace := trace w; rng := rng w |}.
End WorldVocabulary.

(** Positions compared by their keys. *)
Definition key_le (key : nat -> Q) (i j : nat) : Prop := (key i <= key j)%Q.

Section PredictionVocabulary.
Context `{Collaborators}.
Import MetaLearnModelSelect.

(** The array a list of arrays or an array denotes, before any
    processing. *)
Definition source_array (h : list ndarray) (src : source) : result ndarray :=
  match src with
  | SrcList items => np_row_stack (map (fun r => nth r h (Arr1 [])) items)
  | SrcNdarray r => Ok (nth r h (Arr1 []))
  | _ => Raise (ValueError ("Invalid source_x type: " ++ type_repr_of src ++ "."))
  end.

(** The fit-time scaling of a selector, applied to an array. *)
Definition standardized (s : t) (a : ndarray) : result ndarray :=
  if scale s then
    centred <~ np_broadcast np_sub a (x_mean s) ;;
    np_broadcast np_div centred (x_std s)
  else Ok a.

(** The arrays a call of [pred_by_feature] creates when its input denotes
    [a0] and is scaled to [a1]. *)
Definition fresh_arrays (s : t) (a0 a1 : ndarray) : list ndarray :=
  if scale s then [a0; fill_nan a1] else [fill_nan a1].

(** The classifier answers on the table [rows], one label per row. *)
Definition predict_ok (c : classifier) (rows : list (list float)) : Prop :=
  exists ys, predict c (Arr2 rows) = Ok ys /\ length ys = length rows.

(** The classifier gives, for every row of [rows], one probability per
    class. *)
Definition predict_proba_ok (c : classifier) (rows : list (list float)) : Prop :=
  exists P, predict_proba c (Arr2 rows) = Ok P /\ length P = length rows
            /\ Forall (fun p => length p = length (classes_ c)) P.

(** [order] lists positions by non-increasing value of [p]. *)
Definition descending (p : list Q) (order : list nat) : Prop :=
  StronglySorted (fun i j => (nth j p 0 <= nth i p 0)%Q) order.

(** [row] holds the classes of the first [k] positions of a ranking of all
    classes by non-increasing probability [p]. *)
Definition top_ranked (classes : list string) (p : list Q) (k : nat) (row : list string)
  : Prop :=
  length row = Nat.min k (length classes)
  /\ exists order, Permutation order (seq 0 (length classes))
                   /\ descending p order
                   /\ take classes (firstn k order) = Ok row.

(** The classifier answers the call [pred_by_feature] makes for [n_top]:
    [predict] for 1, [predict_proba] otherwise. *)
Definition classifier_answers (c : classifier) (rows : list (list float)) (n_top : Z) : Prop :=
  if (n_top =? 1)%Z then predict_ok c rows else predict_proba_ok c rows.

(** The features [pred_fuzzy] extracts from a series, NaN replaced by 0,
    before the fit-time scaling. *)
Definition fuzzy_features (ts : TimeSeriesData) (ts_scale : bool) : ndarray :=
  fill_nan (Arr1 (map snd (TsFeatures_transform
                             (if ts_scale then ts_div_max (ts_copy ts) else ts_copy ts)))).

(** A fitted random forest answers on the one-row table [x]: it has
    trees, every tree and the forest give one probability per class, and
    there are at least two classes. *)
Definition forest_answers (c : classifier) (trees : list tree) (x : ndarray) (prob : list Q)
  : Prop :=
  trees <> []
  /\ Forall (fun tr => exists row rest, tree_predict_proba tr x = Ok (row :: rest)
                                        /\ length row = length (classes_ c)) trees
  /\ (exists rest, predict_proba c x = Ok (prob :: rest))
  /\ length prob = length (classes_ c)
  /\ 2 <= length (classes_ c).
End PredictionVocabulary.

Section SelectorVocabulary.
Context `{Collaborators}.
Import MetaLearnModelSelect.

(** The three row-aligned series have the same number of rows; a series is
    indexed by position, so equal length is the same index. *)
Definition aligned (s : t) : Prop :=
  length (hpt s) = length (metadataY s)
  /\ length (values (metadataX s)) = length (metadataY s).

(** What construction establishes and pre-processing keeps. *)
Definition well_formed (s : t) : Prop :=
  aligned s
  /\ rectangular (metadataX s)
  /\ metadataY s <> []
  /\ length (x_mean s) = length (columns (metadataX s))
  /\ length (x_std s) = length (columns (metadataX s)).

(** The selectors one gets by construction from meta-data followed by any
    number of calls of [preprocess] and [train], whatever their outcome. *)
Inductive reachable : t -> Prop :=
| reachable_init md w s w' :
    __init__ (Some md) false w = (Ok (Some s), w') -> reachable s
| reachable_preprocess s w downsample scale r s' w' :
    reachable s ->
    preprocess downsample scale (s, w) = (r, (s', w')) -> reachable s'
| reachable_train s w method eval_method test_size n_trees n_neighbors r s' w' :
    reachable s ->
    train method eval_method test_size n_trees n_neighbors (s, w) = (r, (s', w')) ->
    reachable s'.

(** [(x - mean) / std], row by row. *)
Definition scaled_rows (mean std : list float) (rows : list (list float))
  : list (list float) :=
  map (fun r => zip_with np_div (zip_with np_sub r mean) std) rows.

(** A record that carries its three fields as objects. *)
Definition complete (r : meta_record) : Prop :=
  exists h d y, hpt_res r = Some (Obj h) /\ features r = Some (Obj d)
                /\ best_model r = Some y.

Definition table_of (r : meta_record) : hpt_table :=
  match hpt_res r with Some (Obj h) => h | _ => [] end.
Definition feature_names (r : meta_record) : list string :=
  match features r with Some (Obj d) => map fst d | _ => [] end.
Definition feature_values (r : meta_record) : list float :=
  match features r with Some (Obj d) => map snd d | _ => [] end.
Definition label_of (r : meta_record) : string :=
  match best_model r with Some y => y | None => "" end.
End SelectorVocabulary.

(** * A small concrete world, used for the examples *)

Module Demo.
Import MetaLearnModelSelect.

Definition float_add (x y : float) : float :=
  match x, y with Fin a, Fin b => Fin (a + b) | _, _ => NaN end.
Definition float_sub (x y : float) : float :=
  match x, y with Fin a, Fin b => Fin (a - b) | _, _ => NaN end.
Definition float_div (x y : float) : float :=
  match x, y with
  | Fin a, Fin b => if Qeq_bool b 0 then NaN else Fin (a / b)
  | _, _ => NaN
  end.
Definition float_mean (l : list float) : float :=
  match l with
  | [] => NaN
  | _ => float_div (fold_right float_add (Fin 0) l) (Fin (inject_Z (Z.of_nat (length l))))
  end.

(** A generator that walks through the population: with replacement it
    reads it cyclically from its state, without replacement it takes the
    first entries. *)
Definition choice (g : nat) (a : list nat) (k : nat) (replace : bool)
  : result (list nat) * nat :=
  if replace then
    match a with
    | [] => (Raise (ValueError "a cannot be empty unless no samples are taken"), g)
    | x :: _ => (Ok (map (fun i => nth ((g + i) mod length a) a x) (seq 0 k)), g + k)
    end
  else if k <=? length a then (Ok (firstn k a), S g)
  else (Raise (ValueError "Cannot take a larger sample than population when 'replace=False'"), g).

Definition constant_rows (p : list Q) (x : ndarray) : result (list (list Q)) :=
  match x with
  | Arr2 rows => Ok (map (fun _ => p) rows)
  | Arr1 _ => Raise (ValueError "Expected 2D array, got 1D array instead")
  end.

Definition stump (p : list Q) : tree := {| tree_predict_proba := constant_rows p |}.

(** A split that keeps the first row for the test, whatever the share
    asked for, and like scikit-learn cannot make a number of rows out of
    NaN. *)
Definition split_first (g : nat) (n : nat) (test_size : float)
  : result (list nat * list nat) * nat :=
  match test_size with
  | NaN => (Raise (ValueError "cannot convert float NaN to integer"), g)
  | _ => (Ok (seq 1 (n - 1), [0]), S g)
  end.

(** A forest over two classes that always prefers the second one. *)
Definition forest : classifier :=
  {| classes_ := ["arima"; "prophet"];
     predict := fun x =>
       match x with
       | Arr2 rows => Ok (map (fun _ => "prophet") rows)
       | Arr1 _ => Raise (ValueError "Expected 2D array, got 1D array instead")
       end;
     predict_proba := constant_rows [1 # 3; 2 # 3]%Q;
     estimators_ := Some [stump [1 # 2; 1 # 2]%Q; stump [0; 1]%Q; stump [1 # 2; 1 # 2]%Q] |}.

Definition demo : Collaborators :=
  {| G := nat;
     np_random_choice := choice;
     train_test_split := split_first;
     sk_fit := fun g _ _ _ => (Ok forest, S g);
     np_sub := float_sub;
     np_div := float_div;
     np_average := float_mean;
     np_std := fun _ => Fin 1;
     np_mean := float_mean;
     np_median := fun l => nth (length l / 2) l NaN;
     literal_eval_hpt := fun _ => Raise (ValueError "malformed node or string");
     literal_eval_features := fun _ => Raise (ValueError "malformed node or string");
     TimeSeriesData := list float;
     ts_copy := fun ts => ts;
     ts_div_max := fun ts => ts;
     TsFeatures_transform := fun ts => map (fun v => ("value", v)) ts;
     repr_features := fun _ => "{...}" |}.

(** A world whose heap holds one table of two rows, the second with a
    NaN. *)
Definition w0 : @world demo :=
  @Build_world demo [Arr2 [[Fin 1; Fin 2]; [NaN; Fin 4]]] [] 0.

(** Thirty-two records, alternately won by the two models. *)
Definition record_of (i : nat) : meta_record :=
  {| hpt_res := Some (Obj [("arima", [Fin 1; Fin (inject_Z (Z.of_nat i))]);
                           ("prophet", [Fin 2; Fin 1])]);
     features := Some (Obj [("trend", Fin (inject_Z (Z.of_nat i)));
                            ("entropy", if Nat.even i then Fin 1 else NaN)]);
     best_model := Some (if Nat.even i then "arima" else "prophet") |}.

Definition records : list meta_record := map record_of (seq 0 32).

Definition blank : t :=
  {| metadata := []; col_namesX := []; hpt := []; metadataX := {| columns := []; values := [] |};
     metadataY := []; x_mean := []; x_std := []; scale := false; clf := None |}.

(** The selector built from [records]. *)
Definition untrained : t :=
  match fst (@__init__ demo (Some records) false w0) with
  | Ok (Some s) => s
  | _ => blank
  end.

(** The same selector with the forest as its classifier. *)
Definition trained : t := set_clf untrained (Some forest).

(** Three rows with labels of unequal frequency. *)
Definition hpt3 : list hpt_table := [[("arima", [Fin 1])]; [("arima", [Fin 2])]; [("arima", [Fin 3])]].
Definition X3 : DataFrame :=
  {| columns := ["trend"]; values := [[Fin 1]; [Fin 2]; [Fin 3]] |}.
Definition Y3 : list string := ["arima"; "prophet"; "arima"].
End Demo.

(** * Further vocabulary *)

(** [m] is the size of the largest label class of [ys]. *)
Definition is_max_count (ys : list string) (m : nat) : Prop :=
  (exists c, In c ys /\ count_occ string_dec ys c = m)
  /\ (forall c, In c ys -> count_occ string_dec ys c <= m).

Section ConstructionVocabulary.
Import MetaLearnModelSelect.

(** A record none of whose fields is kept as text: each is an object or is
    absent. *)
Definition textless (r : meta_record) : Prop :=
  (forall s, hpt_res r <> Some (Text s)) /\ (forall s, features r <> Some (Text s)).

(** A record that lacks one of the three fields. *)
Definition lacking (r : meta_record) : Prop :=
  hpt_res r = None \/ features r = None \/ best_model r = None.

(** The field whose absence stops the loop of [_reorganize_data] at a
    record that lacks one: the loop reads hpt_res, then features, then
    best_model. *)
Definition missing_key (r : meta_record) : string :=
  match hpt_res r, features r with
  | None, _ => "hpt_res"
  | Some _, None => "features"
  | Some _, Some _ => "best_model"
  end.

End ConstructionVocabulary.

Section PredictionMore.
Context `{Collaborators}.

(** The features [pred] extracts from a series, before anything is done
    about NaN. *)
Definition series_features (ts : TimeSeriesData) (ts_scale : bool) : list float :=
  map snd (TsFeatures_transform (if ts_scale then ts_div_max (ts_copy ts) else ts_copy ts)).

(** What is logged when these features hold a NaN. *)
Definition nan_warning (ts : TimeSeriesData) (ts_scale : bool) : string :=
  "Features of the test time series contains NaN value, consider processing it. Features are: "
  ++ repr_features (TsFeatures_transform
                      (if ts_scale then ts_div_max (ts_copy ts) else ts_copy ts))
  ++ ". Fill in NaNs with 0.".
End PredictionMore.

(** * Saving and loading *)

(** joblib and the files it writes and reads.  A file holds the attributes
    of a selector, as [joblib.dump(self.__dict__, file_name)] stores them;
    [joblib_load] gives nothing when [joblib.load] raises or when what it
    finds cannot be the attributes of an object: [load_model] catches
    every exception alike. *)
Class Joblib : Type := {
  files : Type;
  joblib_dump : files -> MetaLearnModelSelect.t -> string -> result unit * files;
  joblib_load : files -> string -> option MetaLearnModelSelect.t
}.

(** Contract of joblib: what was dumped under a name is what is loaded
    from it. *)
Definition joblib_round_trip `{Joblib} : Prop :=
  forall fs s name fs',
    joblib_dump fs s name = (Ok tt, fs') -> joblib_load fs' name = Some s.

Module Persistence.
Section Persistence.
Context `{Collaborators} `{Joblib}.
Import MetaLearnModelSelect.

(** An object of the class, the world and the files.  An object made with
    [load_model=True] has no attributes until [load_model] gives it
    some. *)
Record store : Type := {
  self : option t;
  outside : world;
  disk : files
}.

Definition log (lvl : level) (msg : string) : M store unit :=
  fun st => let (r, w) := logging lvl msg (outside st) in
            (r, {| self := self st; outside := w; disk := disk st |}).

(** [joblib.dump(self.__dict__, file_name)] *)
Definition dump (s : t) (file_name : string) : M store unit :=
  fun st => let (r, fs) := joblib_dump (disk st) s file_name in
            (r, {| self := self st; outside := outside st; disk := fs |}).

Definition save_model (file_name : string) : M store unit :=
  fun st =>
    match self st with
    | None => raise (AttributeError "'MetaLearnModelSelect' object has no attribute 'clf'") st
    | Some s =>
        match clf s with
        | None =>
            (log ERROR "Haven't trained a model." ;;;
             raise (ValueError "Haven't trained a model.")) st
        | Some _ =>
            (dump s file_name ;;;
             log INFO "Successfully saved the trained model!") st
        end
    end.

Definition load_model (file_name : string) : M store unit :=
  fun st =>
    match joblib_load (disk st) file_name with
    | Some s =>
        log INFO "Successfully loaded a pre-trained model!"
          {| self := Some s; outside := outside st; disk := disk st |}
    | None =>
        (log ERROR "No existing pre-trained model. Please change file path or train a model first!" ;;;
         raise (ValueError "No existing pre-trained model. Please change file path or train a model first!")) st
    end.
End Persistence.
End Persistence.

(** The world after a message was logged at level INFO. *)
Definition logged_info `{Collaborators} (w : world) (msg : string) : world :=
  {| heap := heap w; trace := trace w ++ [Log INFO msg]; rng := rng w |}.

(** * More of the concrete world *)

Module DemoMore.
Import MetaLearnModelSelect.

(** A record without features, and one whose features are kept as text. *)
Definition no_features : meta_record :=
  {| hpt_res := Some (Obj [("arima", [Fin 1])]); features := None;
     best_model := Some "arima" |}.
Definition text_features : meta_record :=
  {| hpt_res := Some (Obj [("arima", [Fin 1])]);
     features := Some (Text "{'trend': 1.0, 'entropy': 0.5}");
     best_model := Some "arima" |}.

Definition records_missing_first : list meta_record := no_features :: Demo.records.
Definition records_missing_later : list meta_record := Demo.records ++ [no_features].
Definition records_text_first : list meta_record := text_features :: Demo.records.


(** The world of [Demo], with a literal evaluator that reads every text of
    features as the same two features. *)
Definition demo_eval : Collaborators :=
  {| G := nat;
     np_random_choice := Demo.choice;
     train_test_split := Demo.split_first;
     sk_fit := fun g _ _ _ => (Ok Demo.forest, S g);
     np_sub := Demo.float_sub;
     np_div := Demo.float_div;
     np_average := Demo.float_mean;
     np_std := fun _ => Fin 1;
     np_mean := Demo.float_mean;
     np_median := fun l => nth (length l / 2) l NaN;
     literal_eval_hpt := fun _ => Raise (ValueError "malformed node or string");
     literal_eval_features := fun _ => Ok [("trend", Fin 1); ("entropy", Fin (1 # 2))];
     TimeSeriesData := list float;
     ts_copy := fun ts => ts;
     ts_div_max := fun ts => ts;
     TsFeatures_transform := fun ts => map (fun v => ("value", v)) ts;
     repr_features := fun _ => "{...}" |}.

Definition w_eval : @world demo_eval := @Build_world demo_eval [] [] 0.

(** A classifier that is no forest. *)
Definition bayes : classifier :=
  {| classes_ := ["arima"; "prophet"];
     predict := predict Demo.forest;
     predict_proba := Demo.constant_rows [1 # 3; 2 # 3]%Q;
     estimators_ := None |}.

(** A forest fitted to data of a single class. *)
Definition lone_forest : classifier :=
  {| classes_ := ["arima"];
     predict := fun x =>
       match x with
       | Arr2 rows => Ok (map (fun _ => "arima") rows)
       | Arr1 _ => Raise (ValueError "Expected 2D array, got 1D array instead")
       end;
     predict_proba := Demo.constant_rows [1]%Q;
     estimators_ := Some [Demo.stump [1]%Q; Demo.stump [1]%Q] |}.


(** A classifier that answers with no label, however many rows it is
    asked about, and a world in which this is what fitting gives. *)
Definition mute : classifier :=
  {| classes_ := ["arima"; "prophet"];
     predict := fun _ => Ok [];
     predict_proba := Demo.constant_rows [1 # 3; 2 # 3]%Q;
     estimators_ := None |}.

Definition demo_mute : Collaborators :=
  {| G := nat;
     np_random_choice := Demo.choice;
     train_test_split := Demo.split_first;
     sk_fit := fun g _ _ _ => (Ok mute, S g);
     np_sub := Demo.float_sub;
     np_div := Demo.float_div;
     np_average := Demo.float_mean;
     np_std := fun _ => Fin 1;
     np_mean := Demo.float_mean;
     np_median := fun l => nth (length l / 2) l NaN;
     literal_eval_hpt := fun _ => Raise (ValueError "malformed node or string");
     literal_eval_features := fun _ => Raise (ValueError "malformed node or string");
     TimeSeriesData := list float;
     ts_copy := fun ts => ts;
     ts_div_max := fun ts => ts;
     TsFeatures_transform := fun ts => map (fun v => ("value", v)) ts;
     repr_features := fun _ => "{...}" |}.

Definition w_mute : @world demo_mute := @Build_world demo_mute [] [] 0.

(** The world after the split and the fit of a call of [train] there. *)
Definition w_mute_fitted : @world demo_mute :=
  @Build_world demo_mute [] [CallSplit; CallFit GaussianNB] 2.

(** The world after a split that raised on its arguments. *)
Definition w_nan : @world Demo.demo :=
  @Build_world Demo.demo (heap Demo.w0) [CallSplit] 0.

(** Files kept as a dictionary from names to the attributes stored. *)
Definition demo_joblib : Joblib :=
  {| files := list (string * t);
     joblib_dump := fun fs s name => (Ok tt, (name, s) :: fs);
     joblib_load := fun fs name => alist_lookup name fs |}.

(** An object with the attributes of the trained selector, in the world of
    [Demo], and no file. *)
Definition trained_object : @Persistence.store Demo.demo demo_joblib :=
  @Persistence.Build_store Demo.demo demo_joblib (Some Demo.trained) Demo.w0 [].

(** The files after the trained selector was saved. *)
Definition saved_files : @files demo_joblib := [("mlms.pkl", Demo.trained)].

(** The same with the selector not yet trained. *)
Definition untrained_object : @Persistence.store Demo.demo demo_joblib :=
  @Persistence.Build_store Demo.demo demo_joblib (Some Demo.untrained) Demo.w0 [].
End DemoMore.

(** * Facts about the runtime *)

Section AlistFacts.
Context {V : Type}.
Implicit Types (d : list (string * V)) (k : string).

Lemma alist_lookup_update k k' f d :
  alist_lookup k (alist_update k' f d)
  = if String.eqb k k' then Some (f (alist_lookup k' d)) else alist_lookup k d.
Proof.
  induction d as [|[k0 v] d IH]; simpl.
  - destruct (String.eqb k k'); reflexivity.
  - destruct (String.eqb k' k0) eqn:E0; simpl.
    + apply String.eqb_eq in E0; subst k0.
      destruct (String.eqb k k'); reflexivity.
    + rewrite IH. destruct (String.eqb k k0) eqn:E1; [|reflexivity].
      apply String.eqb_eq in E1; subst k0.
      rewrite String.eqb_sym, E0. reflexivity.
Qed.

Lemma alist_update_key_In k f d x :
  In x (map fst (alist_update k f d)) <-> x = k \/ In x (map fst d).
Proof.
  induction d as [|[k0 v] d IH]; simpl.
  - intuition.
  - destruct (String.eqb k k0) eqn:E0; simpl.
    + apply String.eqb_eq in E0; subst k0. intuition.
    + rewrite IH. intuition.
Qed.

Lemma alist_update_keys_NoDup k f d :
  NoDup (map fst d) -> NoDup (map fst (alist_update k f d)).
Proof.
  induction d as [|[k0 v] d IH]; simpl; intros Hnd.
  - constructor; [intros [] | constructor].
  - inversion Hnd as [|? ? Hnotin Hnd']; subst.
    destruct (String.eqb k k0) eqn:E0; simpl.
    + constructor; assumption.
    + constructor; [|auto].
      rewrite alist_update_key_In. intros [->|Hin]; [|contradiction].
      rewrite String.eqb_refl in E0. discriminate.
Qed.

Lemma alist_lookup_In k v d :
  NoDup (map fst d) -> In (k, v) d -> alist_lookup k d = Some v.
Proof.
  induction d as [|[k0 v0] d IH]; simpl; intros Hnd Hin; [contradiction|].
  inversion Hnd as [|? ? Hnotin Hnd']; subst.
  destruct Hin as [Heq|Hin].
  - inversion Heq; subst. rewrite String.eqb_refl. reflexivity.
  - destruct (String.eqb k k0) eqn:E0; [|auto].
    apply String.eqb_eq in E0; subst k0.
    exfalso. apply Hnotin. apply (in_map fst) in Hin. exact Hin.
Qed.

Lemma alist_key_lookup k d :
  In k (map fst d) -> exists v, In (k, v) d.
Proof.
  intros Hin. apply in_map_iff in Hin. destruct Hin as [[k' v] [Hk Hin]].
  simpl in Hk; subst. eauto.
Qed.
End AlistFacts.

(** Dictionaries built by a loop of updates. *)
Section FoldFacts.
Context {V X : Type} (key : X -> string) (f : X -> option V -> V).

Lemma fold_update_key_In xs : forall d k,
  In k (map fst (fold_left (fun d x => alist_update (key x) (f x) d) xs d))
  <-> In k (map fst d) \/ In k (map key xs).
Proof.
  induction xs as [|x xs IH]; simpl; intros d k.
  - intuition.
  - rewrite IH. rewrite alist_update_key_In. intuition.
Qed.

Lemma fold_update_keys_NoDup xs : forall d,
  NoDup (map fst d) ->
  NoDup (map fst (fold_left (fun d x => alist_update (key x) (f x) d) xs d)).
Proof.
  induction xs as [|x xs IH]; simpl; intros d Hnd; [assumption|].
  apply IH. apply alist_update_keys_NoDup. assumption.
Qed.
End FoldFacts.

Lemma Counter_fold_count (c : string) (ys : list string) : forall d,
  count_of (alist_lookup c
    (fold_left (fun d c => alist_update c
                  (fun o => match o with Some n => S n | None => 1 end) d) ys d))
  = count_of (alist_lookup c d) + count_occ string_dec ys c.
Proof.
  induction ys as [|y ys IH]; intros d; simpl.
  - lia.
  - rewrite IH, alist_lookup_update.
    destruct (string_dec y c) as [->|Hne].
    + rewrite String.eqb_refl. destruct (alist_lookup c d); simpl; lia.
    + destruct (String.eqb c y) eqn:E; [|reflexivity].
      apply String.eqb_eq in E. congruence.
Qed.

Lemma Counter_keys_NoDup ys : NoDup (map fst (Counter ys)).
Proof.
  unfold Counter.
  apply (fold_update_keys_NoDup (fun c : string => c)
           (fun _ o => match o with Some n => S n | None => 1 end)).
  constructor.
Qed.

Lemma Counter_key_In ys c : In c (map fst (Counter ys)) <-> In c ys.
Proof.
  unfold Counter.
  rewrite (fold_update_key_In (fun c : string => c)
             (fun _ o => match o with Some n => S n | None => 1 end)).
  simpl. rewrite map_id. intuition.
Qed.

Lemma Counter_In ys c n : In (c, n) (Counter ys) -> In c ys /\ n = count_occ string_dec ys c.
Proof.
  intros Hin. split.
  - apply Counter_key_In. apply (in_map fst) in Hin. exact Hin.
  - apply (alist_lookup_In _ _ _ (Counter_keys_NoDup ys)) in Hin.
    pose proof (Counter_fold_count c ys []) as Hc. fold (Counter ys) in Hc.
    rewrite Hin in Hc. simpl in Hc. exact Hc.
Qed.

Lemma Counter_complete ys c : In c ys -> In (c, count_occ string_dec ys c) (Counter ys).
Proof.
  intros Hin. apply Counter_key_In in Hin. apply alist_key_lookup in Hin.
  destruct Hin as [n Hn]. destruct (Counter_In _ _ _ Hn) as [_ ->]. exact Hn.
Qed.

Lemma fold_min_le l : forall x, fold_left Nat.min l x <= x /\ Forall (fun y => fold_left Nat.min l x <= y) l.
Proof.
  induction l as [|a l IH]; intros x; simpl.
  - split; [lia | constructor].
  - destruct (IH (Nat.min x a)) as [H1 H2]. split; [lia|].
    constructor; [lia | exact H2].
Qed.

Lemma fold_min_In l : forall x, fold_left Nat.min l x = x \/ In (fold_left Nat.min l x) l.
Proof.
  induction l as [|a l IH]; intros x; simpl; [auto|].
  destruct (IH (Nat.min x a)) as [H1|H1]; [|auto].
  rewrite H1. destruct (Nat.min_spec x a) as [[_ ->]|[_ ->]]; auto.
Qed.

Lemma py_min_spec l m : py_min l = Ok m -> In m l /\ Forall (fun y => m <= y) l.
Proof.
  destruct l as [|x l]; simpl; [discriminate|].
  intros Heq; inversion Heq; subst; clear Heq.
  destruct (fold_min_le l x) as [H1 H2]. split.
  - destruct (fold_min_In l x) as [->|Hin]; auto.
  - constructor; assumption.
Qed.

(** ** Positional selection *)

Lemma iloc_app {A} (l : list A) js1 : forall js2 r1 r2,
  iloc l js1 = Ok r1 -> iloc l js2 = Ok r2 -> iloc l (js1 ++ js2) = Ok (r1 ++ r2).
Proof.
  induction js1 as [|j js1 IH]; simpl; intros js2 r1 r2 H1 H2.
  - inversion H1; subst. exact H2.
  - destruct (nth_error l j) as [a|]; [|discriminate].
    destruct (iloc l js1) as [r|e] eqn:E; simpl in H1; [|discriminate].
    inversion H1; subst. rewrite (IH js2 r r2 eq_refl H2). reflexivity.
Qed.

Lemma iloc_const {A} (l : list A) a js :
  Forall (fun i => nth_error l i = Some a) js -> iloc l js = Ok (repeat a (length js)).
Proof.
  induction 1 as [|j js Hj _ IH]; simpl; [reflexivity|].
  rewrite Hj, IH. reflexivity.
Qed.

Lemma iloc_total {A} (l : list A) js :
  Forall (fun i => i < length l) js -> exists r, iloc l js = Ok r /\ length r = length js.
Proof.
  induction 1 as [|j js Hj _ [r [IH Hlen]]]; simpl.
  - exists []. auto.
  - destruct (nth_error l j) as [a|] eqn:E.
    + exists (a :: r). rewrite IH. simpl. auto.
    + apply nth_error_None in E. lia.
Qed.

Lemma iloc_In {A} (l : list A) js : forall r, iloc l js = Ok r -> Forall (fun a => In a l) r.
Proof.
  induction js as [|j js IH]; simpl; intros r Hr.
  - inversion Hr. constructor.
  - destruct (nth_error l j) as [a|] eqn:E; [|discriminate].
    destruct (iloc l js) as [r'|e]; simpl in Hr; [|discriminate].
    inversion Hr; subst. constructor; [eapply nth_error_In; eauto | auto].
Qed.

Lemma iloc_length {A} (l : list A) js : forall r, iloc l js = Ok r -> length r = length js.
Proof.
  induction js as [|j js IH]; simpl; intros r Hr.
  - inversion Hr. reflexivity.
  - destruct (nth_error l j) as [a|]; [|discriminate].
    destruct (iloc l js) as [r'|e]; simpl in Hr; [|discriminate].
    inversion Hr; subst. simpl. f_equal. auto.
Qed.

(** ** Frames built from rows of equal width *)

Lemma data_width_uniform (data : list (list float)) c :
  data <> [] -> Forall (fun r => length r = c) data -> data_width data = c.
Proof.
  unfold data_width. intros Hne Hall.
  destruct data as [|r data]; [congruence|].
  inversion Hall as [|? ? Hr Hrest]; subst. simpl.
  assert (Hle : list_max (map (@length float) data) <= length r).
  { apply list_max_le. apply Forall_map. eapply Forall_impl; [|exact Hrest].
    simpl. intros a Ha. lia. }
  lia.
Qed.

Lemma pad_rows_uniform (data : list (list float)) c :
  Forall (fun r => length r = c) data -> pad_rows data = data.
Proof.
  intros Hall. destruct data as [|r0 data0] eqn:Ed; [reflexivity|]. rewrite <- Ed in *.
  assert (Hw : data_width data = c).
  { apply data_width_uniform; [rewrite Ed; discriminate | exact Hall]. }
  unfold pad_rows. rewrite Hw. clear Ed Hw.
  induction Hall as [|r data Hr _ IH]; simpl; [reflexivity|].
  rewrite IH, Hr, Nat.sub_diag. simpl. rewrite app_nil_r. reflexivity.
Qed.

(** ** The index dictionary of the sampler *)

Lemma group_fold_lookup (c : string) (xs : list (nat * string)) : forall d,
  getl (alist_lookup c
    (fold_left (fun d ic => alist_update (snd ic)
                  (fun o => match o with Some l => l ++ [fst ic] | None => [fst ic] end) d)
       xs d))
  = getl (alist_lookup c d) ++ map fst (filter (fun ic => String.eqb (snd ic) c) xs).
Proof.
  induction xs as [|[i y] xs IH]; intros d; simpl.
  - rewrite app_nil_r. reflexivity.
  - rewrite IH, alist_lookup_update. rewrite (String.eqb_sym y c).
    destruct (String.eqb c y) eqn:E; simpl; [|reflexivity].
    apply String.eqb_eq in E; subst y.
    destruct (alist_lookup c d); simpl; [rewrite <- app_assoc|]; reflexivity.
Qed.

Lemma enumerate_from_In {A} (ys : list A) : forall i j y,
  In (j, y) (combine (seq i (length ys)) ys) -> i <= j /\ nth_error ys (j - i) = Some y.
Proof.
  induction ys as [|y0 ys IH]; simpl; intros i j y Hin; [contradiction|].
  destruct Hin as [Heq|Hin].
  - inversion Heq; subst. rewrite Nat.sub_diag. auto.
  - apply IH in Hin. destruct Hin as [Hle Hnth]. split; [lia|].
    replace (j - i) with (S (j - S i)) by lia. exact Hnth.
Qed.

Lemma enumerate_from_snd {A} (ys : list A) : forall i,
  map snd (combine (seq i (length ys)) ys) = ys.
Proof.
  induction ys as [|y ys IH]; simpl; intros i; [reflexivity|]. rewrite IH. reflexivity.
Qed.

Lemma enumerate_filter_length (c : string) ys : forall i,
  length (filter (fun ic : nat * string => String.eqb (snd ic) c) (combine (seq i (length ys)) ys))
  = count_occ string_dec ys c.
Proof.
  induction ys as [|y ys IH]; simpl; intros i; [reflexivity|].
  destruct (string_dec y c) as [->|Hne].
  - rewrite String.eqb_refl. simpl. rewrite IH. reflexivity.
  - apply String.eqb_neq in Hne. rewrite Hne. apply IH.
Qed.

Lemma group_indices_keys_NoDup ys : NoDup (map fst (RandomDownSampler.group_indices ys)).
Proof.
  unfold RandomDownSampler.group_indices.
  apply (fold_update_keys_NoDup (fun ic : nat * string => snd ic)
           (fun ic o => match o with Some l => l ++ [fst ic] | None => [fst ic] end)).
  constructor.
Qed.

Lemma group_indices_key_In ys c :
  In c (map fst (RandomDownSampler.group_indices ys)) <-> In c ys.
Proof.
  unfold RandomDownSampler.group_indices.
  rewrite (fold_update_key_In (fun ic : nat * string => snd ic)
             (fun ic o => match o with Some l => l ++ [fst ic] | None => [fst ic] end)).
  unfold enumerate. rewrite enumerate_from_snd. simpl. intuition.
Qed.

Lemma group_indices_In ys key idxs :
  In (key, idxs) (RandomDownSampler.group_indices ys) ->
  In key ys /\ length idxs = count_occ string_dec ys key
  /\ Forall (fun i => nth_error ys i = Some key) idxs.
Proof.
  intros Hin.
  assert (Hkey : In key ys).
  { apply group_indices_key_In. apply (in_map fst) in Hin. exact Hin. }
  apply (alist_lookup_In _ _ _ (group_indices_keys_NoDup ys)) in Hin.
  pose proof (group_fold_lookup key (enumerate ys) []) as Hg.
  fold (RandomDownSampler.group_indices ys) in Hg. rewrite Hin in Hg. simpl in Hg. subst idxs.
  split; [exact Hkey|]. split.
  - rewrite length_map. apply enumerate_filter_length.
  - apply Forall_forall. intros i Hi. apply in_map_iff in Hi.
    destruct Hi as [[j y] [Hj Hf]]. simpl in Hj; subst j.
    apply filter_In in Hf. destruct Hf as [Hf Hy]. simpl in Hy.
    apply String.eqb_eq in Hy; subst y.
    apply enumerate_from_In in Hf. rewrite Nat.sub_0_r in Hf. tauto.
Qed.

Lemma count_occ_concat_repeat (c : string) m (ks : list string) :
  NoDup ks ->
  count_occ string_dec (concat (map (fun k => repeat k m) ks)) c
  = if in_dec string_dec c ks then m else 0.
Proof.
  induction 1 as [|k ks Hnotin _ IH]; simpl; [reflexivity|].
  rewrite count_occ_app, IH.
  destruct (string_dec k c) as [->|Hne].
  - rewrite count_occ_repeat_eq by reflexivity.
    destruct (in_dec string_dec c ks); [contradiction | lia].
  - rewrite count_occ_repeat_neq by congruence.
    destruct (in_dec string_dec c ks); reflexivity.
Qed.

Lemma length_concat_repeat {A} m (ks : list A) :
  length (concat (map (fun k => repeat k m) ks)) = m * length ks.
Proof.
  induction ks as [|k ks IH]; simpl; [lia|].
  rewrite length_app, repeat_length, IH. lia.
Qed.

(** * RandomDownSampler.fit_resample *)

Section SamplerFacts.
Context `{Collaborators}.
Hypothesis choice_ok : choice_without_replacement.

Lemma random_choice_without_replacement idxs k w :
  k <= length idxs ->
  exists l w', random_choice idxs k false w = (Ok l, w')
               /\ length l = k /\ (forall i, In i l -> In i idxs)
               /\ heap w' = heap w /\ trace w' = trace w.
Proof.
  intros Hk. destruct (choice_ok (rng w) idxs Hk) as [l [g' [Hch [Hlen [rest Hperm]]]]].
  unfold random_choice. rewrite Hch. eexists; eexists. split; [reflexivity|].
  simpl. repeat split; auto.
  intros i Hi. eapply Permutation_in; [apply Permutation_sym; exact Hperm|].
  apply in_or_app. auto.
Qed.

Variable self : RandomDownSampler.t.
Variable min_n : nat.
Hypothesis hpt_aligned :
  length (RandomDownSampler.hpt self) = length (RandomDownSampler.dataY self).
Hypothesis dataX_aligned :
  length (values (RandomDownSampler.dataX self)) = length (RandomDownSampler.dataY self).

Local Abbreviation drawable := (drawable (RandomDownSampler.dataY self) min_n).

Lemma resample_class_ok e rx0 ry0 rh0 w :
  drawable e ->
  exists chosen xs hs w',
    RandomDownSampler.resample_class self min_n (rx0, ry0, rh0) e w
    = (Ok (rx0 ++ xs, ry0 ++ repeat (fst e) min_n, rh0 ++ hs), w')
    /\ iloc (values (RandomDownSampler.dataX self)) chosen = Ok xs
    /\ iloc (RandomDownSampler.dataY self) chosen = Ok (repeat (fst e) min_n)
    /\ iloc (RandomDownSampler.hpt self) chosen = Ok hs
    /\ heap w' = heap w /\ trace w' = trace w.
Proof.
  intros [Hlen Hall].
  destruct (random_choice_without_replacement (snd e) w Hlen)
    as [chosen [w' [Hch [Hcl [Hsub [Hheap Htrace]]]]]].
  assert (Hkey : Forall (fun i => nth_error (RandomDownSampler.dataY self) i = Some (fst e)) chosen).
  { apply Forall_forall. intros i Hi. rewrite Forall_forall in Hall. auto. }
  assert (Hin : Forall (fun i => i < length (RandomDownSampler.dataY self)) chosen).
  { eapply Forall_impl; [|exact Hkey]. simpl. intros i Hi.
    apply nth_error_Some. congruence. }
  destruct (iloc_total (values (RandomDownSampler.dataX self)) (js:=chosen)) as [xs [Hxs _]].
  { rewrite dataX_aligned. exact Hin. }
  destruct (iloc_total (RandomDownSampler.hpt self) (js:=chosen)) as [hs [Hhs _]].
  { rewrite hpt_aligned. exact Hin. }
  pose proof (iloc_const _ Hkey) as Hys. rewrite Hcl in Hys.
  exists chosen, xs, hs, w'.
  unfold RandomDownSampler.resample_class, bind, lift_result, ret.
  rewrite Hch, Hxs, Hys, Hhs. repeat split; assumption.
Qed.

Lemma resample_loop es : forall js0 rx0 ry0 rh0 w,
  Forall drawable es ->
  iloc (values (RandomDownSampler.dataX self)) js0 = Ok rx0 ->
  iloc (RandomDownSampler.dataY self) js0 = Ok ry0 ->
  iloc (RandomDownSampler.hpt self) js0 = Ok rh0 ->
  exists js rx ry rh w',
    for_each (RandomDownSampler.resample_class self min_n) (rx0, ry0, rh0) es w
    = (Ok (rx, ry, rh), w')
    /\ iloc (values (RandomDownSampler.dataX self)) js = Ok rx
    /\ iloc (RandomDownSampler.dataY self) js = Ok ry
    /\ iloc (RandomDownSampler.hpt self) js = Ok rh
    /\ ry = ry0 ++ concat (map (fun k => repeat k min_n) (map fst es))
    /\ heap w' = heap w /\ trace w' = trace w.
Proof.
  induction es as [|e es IH]; intros js0 rx0 ry0 rh0 w Hall Hx Hy Hh.
  - exists js0, rx0, ry0, rh0, w. simpl. rewrite app_nil_r. unfold ret. auto 10.
  - inversion Hall as [|? ? He Hes]; subst.
    destruct (resample_class_ok rx0 ry0 rh0 w He)
      as [chosen [xs [hs [w1 [Hstep [Hxs [Hys [Hhs [Hheap Htrace]]]]]]]]].
    destruct (IH (js0 ++ chosen) (rx0 ++ xs) (ry0 ++ repeat (fst e) min_n) (rh0 ++ hs) w1 Hes)
      as [js [rx [ry [rh [w' [Hloop [Hrx [Hry [Hrh [Hlab [Hheap' Htrace']]]]]]]]]]];
      try (apply iloc_app; assumption).
    exists js, rx, ry, rh, w'. cbn [for_each]. unfold bind at 1. rewrite Hstep.
    split; [exact Hloop|]. repeat (split; [assumption|]).
    split; [|split; congruence].
    rewrite Hlab, <- app_assoc. reflexivity.
Qed.
End SamplerFacts.

Section SamplerSpec.
Context `{Collaborators}.
Hypothesis choice_ok : choice_without_replacement.

Lemma min_count_exists ys :
  ys <> [] -> exists m, py_min (map snd (Counter ys)) = Ok m /\ is_min_count ys m /\ 1 <= m.
Proof.
  intros Hne.
  destruct (py_min (map snd (Counter ys))) as [m|e] eqn:E.
  - exists m. split; [reflexivity|].
    apply py_min_spec in E. destruct E as [Hin Hall].
    assert (Hmin : is_min_count ys m).
    { split.
      - apply in_map_iff in Hin. destruct Hin as [[c n] [Hn Hin]]. simpl in Hn; subst n.
        apply Counter_In in Hin. exists c. intuition.
      - intros c Hc. rewrite Forall_forall in Hall. apply Hall.
        apply Counter_complete in Hc. apply (in_map snd) in Hc. exact Hc. }
    split; [exact Hmin|].
    destruct Hmin as [[c [Hc <-]] _].
    apply (count_occ_In string_dec) in Hc. lia.
  - exfalso. destruct ys as [|y ys]; [congruence|].
    assert (Hy : In y (y :: ys)) by (left; reflexivity).
    apply Counter_complete in Hy. apply (in_map snd) in Hy.
    destruct (map snd (Counter (y :: ys))); [contradiction | discriminate].
Qed.

(** What [fit_resample] returns: the rows at one list of positions [js],
    taken from the three inputs alike; the labels come class by class,
    [m] of each. *)
Lemma fit_resample_spec hpt dataX dataY w :
  length hpt = length dataY -> length (values dataX) = length dataY ->
  rectangular dataX -> dataY <> [] ->
  exists js rh rx ry m w',
    RandomDownSampler.fit_resample (RandomDownSampler.__init__ hpt dataX dataY) w
    = (Ok (rh, {| columns := columns dataX; values := rx |}, ry), w')
    /\ is_min_count dataY m /\ 1 <= m
    /\ iloc (values dataX) js = Ok rx /\ iloc dataY js = Ok ry /\ iloc hpt js = Ok rh
    /\ ry = concat (map (fun k => repeat k m) (map fst (RandomDownSampler.group_indices dataY)))
    /\ heap w' = heap w /\ trace w' = trace w /\ rx <> [].
Proof.
  intros Hh Hx Hrect Hne.
  destruct (min_count_exists Hne) as [m [Hmin [Hm Hpos]]].
  set (self := RandomDownSampler.__init__ hpt dataX dataY).
  assert (Hdraw : Forall (drawable dataY m) (RandomDownSampler.group_indices dataY)).
  { apply Forall_forall. intros [key idxs] Hin. apply group_indices_In in Hin.
    destruct Hin as [Hkey [Hlen Hall]]. split; simpl; [|exact Hall].
    rewrite Hlen. apply Hm. exact Hkey. }
  destruct (resample_loop choice_ok self (min_n:=m) Hh Hx
              (es:=RandomDownSampler.group_indices dataY) [] w Hdraw
              eq_refl eq_refl eq_refl)
    as [js [rx [ry [rh [w' [Hloop [Hrx [Hry [Hrh [Hlab [Hheap Htrace]]]]]]]]]]].
  simpl in Hlab.
  assert (Hlenry : length ry = m * length (RandomDownSampler.group_indices dataY)).
  { rewrite Hlab, length_concat_repeat, length_map. reflexivity. }
  assert (Hkeys : RandomDownSampler.group_indices dataY <> []).
  { destruct dataY as [|y ys]; [congruence|].
    assert (Hy : In y (y :: ys)) by (left; reflexivity).
    apply group_indices_key_In in Hy. intros Heq. rewrite Heq in Hy. exact Hy. }
  assert (Hrxne : rx <> []).
  { intros ->. apply iloc_length in Hrx, Hry. simpl in Hrx.
    destruct (RandomDownSampler.group_indices dataY); [congruence|]. simpl in Hlenry. nia. }
  assert (Hwidth : Forall (fun r => length r = length (columns dataX)) rx).
  { apply iloc_In in Hrx. unfold rectangular in Hrect.
    rewrite Forall_forall in Hrx, Hrect |- *. intros r Hr. apply Hrect, Hrx, Hr. }
  exists js, rh, rx, ry, m, w'.
  split.
  { unfold RandomDownSampler.fit_resample, bind at 1, lift_result.
    change (RandomDownSampler.dataY self) with dataY. rewrite Hmin.
    unfold bind at 1. rewrite Hloop.
    unfold bind, lift_result, pd_DataFrame_set_columns, ret.
    change (RandomDownSampler.col_namesX self) with (columns dataX).
    rewrite (data_width_uniform Hrxne Hwidth), Nat.eqb_refl.
    rewrite (pad_rows_uniform Hwidth). reflexivity. }
  auto 10.
Qed.

(** C3.  On a row-aligned, non-empty input, [fit_resample] returns a
    row-aligned triple in which every label of the input occurs exactly
    [m] times, [m] being the size of the smallest input class, no other
    label occurs, and there are [m] times the number of distinct input
    labels rows in all. *)
Theorem fit_resample_balanced hpt dataX dataY w :
  length hpt = length dataY -> length (values dataX) = length dataY ->
  rectangular dataX -> dataY <> [] ->
  exists rh rx ry m w',
    RandomDownSampler.fit_resample (RandomDownSampler.__init__ hpt dataX dataY) w
    = (Ok (rh, rx, ry), w')
    /\ is_min_count dataY m
    /\ (forall c, In c dataY -> count_occ string_dec ry c = m)
    /\ (forall c, ~ In c dataY -> count_occ string_dec ry c = 0)
    /\ length ry = m * length (nodup string_dec dataY)
    /\ length rh = length ry /\ length (values rx) = length ry.
Proof.
  intros Hh Hx Hrect Hne.
  destruct (@fit_resample_spec hpt dataX dataY w Hh Hx Hrect Hne)
    as [js [rh [rx [ry [m [w' [Hrun [Hmin [_ [Hrx [Hry [Hrh [Hlab _]]]]]]]]]]]]].
  exists rh, {| columns := columns dataX; values := rx |}, ry, m, w'.
  pose proof (group_indices_keys_NoDup dataY) as Hnd.
  assert (Hcount : forall c, count_occ string_dec ry c
            = if in_dec string_dec c (map fst (RandomDownSampler.group_indices dataY))
              then m else 0).
  { intros c. rewrite Hlab. apply count_occ_concat_repeat. exact Hnd. }
  split; [exact Hrun|]. split; [exact Hmin|]. split; [|split; [|split; [|split]]].
  - intros c Hc. rewrite Hcount. apply group_indices_key_In in Hc.
    destruct (in_dec string_dec c _); [reflexivity | contradiction].
  - intros c Hc. rewrite Hcount. rewrite <- group_indices_key_In in Hc.
    destruct (in_dec string_dec c _); [contradiction | reflexivity].
  - rewrite Hlab, length_concat_repeat. f_equal.
    apply Permutation_length. apply NoDup_Permutation; [exact Hnd | apply NoDup_nodup |].
    intros c. rewrite group_indices_key_In, nodup_In. reflexivity.
  - apply iloc_length in Hrh, Hry. congruence.
  - simpl. apply iloc_length in Hrx, Hry. congruence.
Qed.
End SamplerSpec.

(** * numpy helpers *)

Lemma mapR_ok {A B} (f : A -> result B) (g : A -> B) l :
  Forall (fun a => f a = Ok (g a)) l -> mapR f l = Ok (map g l).
Proof.
  induction 1 as [|a l Ha _ IH]; simpl; [reflexivity|]. rewrite Ha, IH. reflexivity.
Qed.

Lemma mapR_length {A B} (f : A -> result B) l : forall r, mapR f l = Ok r -> length r = length l.
Proof.
  induction l as [|a l IH]; simpl; intros r Hr.
  - inversion Hr. reflexivity.
  - destruct (f a) as [b|e]; simpl in Hr; [|discriminate].
    destruct (mapR f l) as [bs|e]; simpl in Hr; [|discriminate].
    inversion Hr; subst. simpl. f_equal. apply IH. reflexivity.
Qed.

Lemma column_ok {A} j (d : A) data :
  Forall (fun row => j < length row) data ->
  column j data = Ok (map (fun row => nth j row d) data).
Proof.
  intros Hall. unfold column. apply mapR_ok.
  eapply Forall_impl; [|exact Hall]. simpl. intros row Hj.
  rewrite (nth_error_nth' row d Hj). reflexivity.
Qed.

Lemma take_ok {A} (a : list A) (d : A) idx :
  Forall (fun i => i < length a) idx -> take a idx = Ok (map (fun i => nth i a d) idx).
Proof.
  intros Hall. unfold take. apply mapR_ok.
  eapply Forall_impl; [|exact Hall]. simpl. intros i Hi.
  rewrite (nth_error_nth' a d Hi). reflexivity.
Qed.

Lemma zip_with_map {A B C X} (f : A -> B -> C) (g : X -> A) (h : X -> B) l :
  zip_with f (map g l) (map h l) = map (fun x => f (g x) (h x)) l.
Proof.
  unfold zip_with. induction l as [|x l IH]; simpl; [reflexivity|]. rewrite IH. reflexivity.
Qed.

Lemma count_true_map {A} (g : A -> bool) l : count_true (map g l) = length (filter g l).
Proof.
  unfold count_true. induction l as [|a l IH]; simpl; [reflexivity|].
  destruct (g a); simpl; rewrite IH; reflexivity.
Qed.

Lemma np_average_bool_fraction {A} (g : A -> bool) l :
  l <> [] ->
  np_average_bool (map g l)
  = Fin (inject_Z (Z.of_nat (length (filter g l))) / inject_Z (Z.of_nat (length l))).
Proof.
  intros Hne. unfold np_average_bool.
  destruct (map g l) as [|b bs] eqn:E.
  - destruct l; [congruence | discriminate].
  - rewrite <- E, count_true_map, length_map. reflexivity.
Qed.

Lemma filter_length_le {A} (g : A -> bool) l : length (filter g l) <= length l.
Proof.
  induction l as [|a l IH]; simpl; [lia|]. destruct (g a); simpl; lia.
Qed.

Lemma In_firstn_skipn {A} n k (a : list A) v : In v (firstn n (skipn k a)) -> In v a.
Proof.
  intros Hv. rewrite <- (firstn_skipn k a). apply in_or_app. right.
  rewrite <- (firstn_skipn n (skipn k a)). apply in_or_app. left. exact Hv.
Qed.

Lemma reshape_rows_ok {A} n R (a : list A) :
  0 < n -> length a = n * R ->
  exists rows, reshape_rows n a = Ok rows /\ length rows = R
               /\ Forall (fun r => length r = n /\ Forall (fun v => In v a) r) rows.
Proof.
  intros Hn Hlen. unfold reshape_rows.
  rewrite Hlen, (Nat.mul_comm n R), Nat.Div0.mod_mul, Nat.div_mul by lia. simpl.
  eexists. split; [reflexivity|]. split; [rewrite length_map, length_seq; reflexivity|].
  apply Forall_forall. intros r Hr. apply in_map_iff in Hr.
  destruct Hr as [k [<- Hk]]. apply in_seq in Hk. split.
  - rewrite length_firstn, length_skipn, Hlen. nia.
  - apply Forall_forall. intros v Hv.
    eapply In_firstn_skipn. exact Hv.
Qed.

Lemma fraction_in_unit_interval (c R : nat) :
  c <= R -> 0 < R ->
  (0 <= inject_Z (Z.of_nat c) / inject_Z (Z.of_nat R)
   /\ inject_Z (Z.of_nat c) / inject_Z (Z.of_nat R) <= 1)%Q.
Proof.
  intros Hc HR.
  assert (HRq : (0 < inject_Z (Z.of_nat R))%Q).
  { change 0%Q with (inject_Z 0). rewrite <- Zlt_Qlt. lia. }
  split.
  - apply Qle_shift_div_l; [exact HRq|]. rewrite Qmult_0_l.
    change 0%Q with (inject_Z 0). rewrite <- Zle_Qle. lia.
  - apply Qle_shift_div_r; [exact HRq|]. rewrite Qmult_1_l.
    rewrite <- Zle_Qle. lia.
Qed.

Lemma firstn_skipn_nth {A} (d : A) n k (a : list A) :
  k + n <= length a ->
  firstn n (skipn k a) = map (fun j => nth (k + j) a d) (seq 0 n).
Proof.
  intros Hlen. apply (nth_ext _ _ d d).
  - rewrite length_firstn, length_skipn, length_map, length_seq. lia.
  - intros i Hi. rewrite length_firstn, length_skipn in Hi.
    assert (Hin : i < n) by lia.
    rewrite nth_firstn, nth_skipn.
    replace (i <? n) with true by (symmetry; apply Nat.ltb_lt; exact Hin).
    rewrite (nth_indep (map (fun j => nth (k + j) a d) (seq 0 n)) d (nth (k + 0) a d))
      by (rewrite length_map, length_seq; exact Hin).
    rewrite (map_nth (fun j => nth (k + j) a d) (seq 0 n) 0 i), seq_nth by exact Hin.
    reflexivity.
Qed.

(** * The bootstrap test *)

Section Bootstrap.
Context `{Collaborators}.
Hypothesis choice_ok : choice_with_replacement.

(** The rows [reshape(-1, n)] makes of the values drawn are the
    resamples. *)
Lemma reshape_rows_resamples (diff : list float) (idx : list nat) R :
  0 < length diff -> length idx = length diff * R ->
  reshape_rows (length diff) (map (fun i => nth i diff NaN) idx) = Ok (resamples diff idx).
Proof.
  intros Hn Hlen. unfold reshape_rows, resamples.
  rewrite length_map, Hlen, (Nat.mul_comm (length diff) R), Nat.Div0.mod_mul, Nat.div_mul by lia.
  simpl. f_equal. apply map_ext_in. intros r Hr. apply in_seq in Hr.
  rewrite skipn_map, firstn_map, (@firstn_skipn_nth nat 0) by nia.
  rewrite map_map. reflexivity.
Qed.

Lemma resamples_entries (diff : list float) (idx : list nat) R :
  0 < length diff -> length idx = length diff * R ->
  Forall (fun i => i < length diff) idx ->
  length (resamples diff idx) = R
  /\ Forall (fun s => length s = length diff /\ Forall (fun v => In v diff) s)
            (resamples diff idx).
Proof.
  intros Hn Hlen Hidx. unfold resamples.
  rewrite Hlen, (Nat.mul_comm (length diff) R), Nat.div_mul by lia.
  split; [rewrite length_map, length_seq; reflexivity|].
  apply Forall_map. apply Forall_forall. intros r Hr. apply in_seq in Hr.
  split; [rewrite length_map, length_seq; reflexivity|].
  apply Forall_map. apply Forall_forall. intros j Hj. apply in_seq in Hj.
  apply nth_In. rewrite Forall_forall in Hidx. apply Hidx. apply nth_In. nia.
Qed.

(** What [_bootstrap] computes, and that it only consumes randomness. *)
Lemma bootstrap_run (data : list (list Q)) (rep : Z) (w : world) :
  data <> [] -> Forall (fun row => length row = 2) data -> (1 <= rep)%Z ->
  exists idx g' p,
    np_random_choice (rng w) (seq 0 (length data)) (length data * Z.to_nat rep) true
    = (Ok idx, g')
    /\ MetaLearnModelSelect._bootstrap data rep w
       = (Ok (Fin p), {| heap := heap w; trace := trace w; rng := g' |})
    /\ length idx = length data * Z.to_nat rep
    /\ Forall (fun i => i < length data) idx
    /\ Z.of_nat (length (resamples (differences data) idx)) = rep
    /\ Forall (fun s => length s = length data
                        /\ Forall (fun v => In v (differences data)) s)
              (resamples (differences data) idx)
    /\ (p == inject_Z (Z.of_nat (length (filter negative_average
                                           (resamples (differences data) idx))))
             / inject_Z rep)%Q
    /\ (0 <= p)%Q /\ (p <= 1)%Q.
Proof.
  intros Hne Hrows Hrep.
  assert (Hn : 0 < length data) by (destruct data; [congruence | simpl; lia]).
  assert (Hc0 : column 0 data = Ok (map (fun row => nth 0 row 0%Q) data)).
  { apply column_ok. eapply Forall_impl; [|exact Hrows]. simpl. intros; lia. }
  assert (Hc1 : column 1 data = Ok (map (fun row => nth 1 row 0%Q) data)).
  { apply column_ok. eapply Forall_impl; [|exact Hrows]. simpl. intros; lia. }
  assert (Hdiff : zip_with np_sub (map Fin (map (fun row => nth 0 row 0%Q) data))
                    (map Fin (map (fun row => nth 1 row 0%Q) data)) = differences data).
  { rewrite !map_map. apply zip_with_map. }
  assert (Hdl : length (differences data) = length data).
  { unfold differences. apply length_map. }
  assert (Hseq : seq 0 (length data) <> [])
    by (destruct (length data); [lia | discriminate]).
  destruct (choice_ok (rng w) (length data * Z.to_nat rep) Hseq)
    as [idx [g' [Hch [Hil Hin]]]].
  assert (Hidx : Forall (fun i => i < length data) idx).
  { eapply Forall_impl; [|exact Hin]. simpl. intros i Hi. apply in_seq in Hi. lia. }
  assert (Hidx' : Forall (fun i => i < length (differences data)) idx)
    by (rewrite Hdl; exact Hidx).
  pose proof (take_ok (differences data) NaN Hidx') as Htake.
  assert (Hn' : 0 < length (differences data)) by (rewrite Hdl; exact Hn).
  assert (Hil' : length idx = length (differences data) * Z.to_nat rep)
    by (rewrite Hdl; exact Hil).
  pose proof (@reshape_rows_resamples (differences data) idx (Z.to_nat rep) Hn' Hil') as Hre.
  destruct (@resamples_entries (differences data) idx (Z.to_nat rep) Hn' Hil' Hidx')
    as [Hsl Hs].
  set (samples := resamples (differences data) idx) in *.
  assert (Hsne : samples <> []) by (intros Heq; rewrite Heq in Hsl; cbn [length] in Hsl; lia).
  exists idx, g'.
  exists (inject_Z (Z.of_nat (length (filter negative_average samples)))
          / inject_Z (Z.of_nat (length samples)))%Q.
  split; [exact Hch|]. split.
  { unfold MetaLearnModelSelect._bootstrap, bind, lift_result, raise, ret.
    rewrite Hc0, Hc1, Hdiff, Hdl.
    replace (Z.of_nat (length data) * rep <? 0)%Z with false
      by (symmetry; apply Z.ltb_ge; nia).
    unfold random_choice. rewrite Hch, Htake.
    replace (length data =? 0) with false by (symmetry; apply Nat.eqb_neq; lia).
    rewrite <- Hdl at 1. rewrite Hre. fold samples.
    replace (length samples =? 0) with false by (symmetry; apply Nat.eqb_neq; lia).
    rewrite map_map. change (fun x : list float => float_lt (np_average x) (Fin 0))
      with negative_average.
    rewrite (np_average_bool_fraction _ Hsne). reflexivity. }
  split; [exact Hil|]. split; [exact Hidx|].
  split; [fold samples; rewrite Hsl; lia|]. split.
  { eapply Forall_impl; [|exact Hs]. simpl. intros s [Hl Hall]. split; [congruence | exact Hall]. }
  split; [rewrite Hsl, Z2Nat.id by lia; reflexivity|].
  destruct (@fraction_in_unit_interval (length (filter negative_average samples))
              (length samples)) as [H0 H1]; [apply filter_length_le | lia |].
  split; assumption.
Qed.

End Bootstrap.

(** * The selector: failures *)

Lemma existsb_eqb_In (x : string) l : existsb (String.eqb x) l = true <-> In x l.
Proof.
  rewrite existsb_exists. split.
  - intros [y [Hy He]]. apply String.eqb_eq in He. subst. exact Hy.
  - intros Hx. exists x. split; [exact Hx | apply String.eqb_refl].
Qed.

Section SelectorFailures.
Context `{Collaborators}.
Import MetaLearnModelSelect.

Lemma fail_with_run {A} msg (s : t) (w : world) :
  lift (@fail_with _ A msg) (s, w) = (Raise (ValueError msg), (s, logged_error w msg)).
Proof. reflexivity. Qed.

(** [pred] on a selector without a classifier: the state error. *)
Lemma pred_untrained (s : t) w ts ts_scale n_top :
  pred ts ts_scale n_top (set_clf s None, w)
  = (Raise (ValueError not_trained), (set_clf s None, logged_error w not_trained)).
Proof. reflexivity. Qed.

(** [pred_by_feature] on a selector without a classifier: the state error. *)
Lemma pred_by_feature_untrained (s : t) w source_x n_top :
  pred_by_feature source_x n_top (set_clf s None, w)
  = (Raise (ValueError not_trained), (set_clf s None, logged_error w not_trained)).
Proof. reflexivity. Qed.

Lemma broadcast_vec_error op r v e :
  broadcast_vec op r v = Raise e -> e <> ValueError not_trained.
Proof.
  unfold broadcast_vec. destruct (length r =? length v); [discriminate|].
  destruct v as [|b [|b' v]]; try discriminate;
    destruct r as [|a [|a' r]]; try discriminate;
    intros Heq; inversion Heq; subst; unfold not_trained; discriminate.
Qed.

Lemma np_broadcast_error op x v e :
  np_broadcast op x v = Raise e -> e <> ValueError not_trained.
Proof.
  destruct x as [r|rows]; simpl.
  - destruct (broadcast_vec op r v) eqn:E; simpl; [discriminate|].
    intros Heq; inversion Heq; subst. eapply broadcast_vec_error; eauto.
  - destruct (mapR (fun r => broadcast_vec op r v) rows) as [rows'|e'] eqn:E;
      simpl; [discriminate|].
    intros Heq; inversion Heq; subst. clear Heq.
    induction rows as [|r rows IH]; simpl in E; [discriminate|].
    destruct (broadcast_vec op r v) eqn:Er; simpl in E.
    + destruct (mapR (fun r => broadcast_vec op r v) rows); simpl in E; [discriminate|].
      inversion E; subst. apply IH. reflexivity.
    + inversion E; subst. eapply broadcast_vec_error; eauto.
Qed.

(** C1.  [pred_fuzzy] on a selector without a classifier never raises the
    state error of [pred] and [pred_by_feature] and logs nothing: it has no
    guard on [clf], and fails on reading [estimators_] of [None] (or
    earlier, in the scaling of the features). *)
Theorem pred_fuzzy_untrained (s : t) w ts ts_scale sig_level :
  exists e,
    pred_fuzzy ts ts_scale sig_level (set_clf s None, w) = (Raise e, (set_clf s None, w))
    /\ e <> ValueError not_trained
    /\ (scale s = false ->
        e = AttributeError "'NoneType' object has no attribute 'estimators_'").
Proof.
  unfold pred_fuzzy, bind, get_self, lift_result, ret, raise.
  cbn [fst snd clf set_clf scale x_mean x_std].
  destruct (scale s) eqn:Hs.
  - set (test := fill_nan _).
    destruct (np_broadcast np_sub test (x_mean s)) as [centred|e] eqn:E1.
    + destruct (np_broadcast np_div centred (x_std s)) as [scaled|e] eqn:E2.
      * eexists. split; [reflexivity|]. split; [discriminate | discriminate].
      * exists e. split; [reflexivity|]. split; [|discriminate].
        eapply np_broadcast_error; eauto.
    + exists e. split; [reflexivity|]. split; [|discriminate].
      eapply np_broadcast_error; eauto.
  - eexists. split; [reflexivity|]. split; [discriminate | reflexivity].
Qed.

(** C2.  Construction from [None] meta-data: [len(metadata)] is evaluated
    before the test [metadata is None], so a TypeError is raised, nothing
    is logged, and the branch "Missing metadata!" is never reached. *)
Theorem init_without_metadata (w : world) :
  __init__ None false w
  = (Raise (TypeError "object of type 'NoneType' has no len()"), w).
Proof. reflexivity. Qed.

(** Construction from 30 records or fewer. *)
Lemma init_too_small md w :
  length md <= 30 ->
  __init__ (Some md) false w
  = (Raise (ValueError "Dataset is too small to train a meta learner!"),
     logged_error w "Dataset is too small to train a meta learner!").
Proof.
  intros Hlen. unfold __init__, bind, lift_result. simpl.
  apply Nat.leb_le in Hlen. rewrite Hlen. reflexivity.
Qed.

(** Construction when the first record lacks a field. *)
Lemma init_missing_field md r0 rest w :
  md = r0 :: rest -> 30 < length md ->
  hpt_res r0 = None \/ features r0 = None \/ best_model r0 = None ->
  exists msg,
    __init__ (Some md) false w = (Raise (ValueError msg), logged_error w msg)
    /\ In msg ["Missing best hyper-params, not able to train a meta learner!";
               "Missing time series features, not able to train a meta learner!";
               "Missing best models, not able to train a meta learner!"].
Proof.
  intros -> Hlen Hmiss. unfold __init__, bind, lift_result.
  cbn [negb py_len].
  replace (length (r0 :: rest) <=? 30) with false by (symmetry; apply Nat.leb_gt; exact Hlen).
  destruct (hpt_res r0) as [h|].
  2:{ eexists. split; [reflexivity|]. simpl. auto. }
  destruct (features r0) as [f|].
  2:{ eexists. split; [reflexivity|]. simpl. auto. }
  destruct (best_model r0) as [b|].
  2:{ eexists. split; [reflexivity|]. simpl. auto. }
  destruct Hmiss as [Hm|[Hm|Hm]]; discriminate.
Qed.

(** C5.  A DataFrame, which the docstring of [pred_by_feature] lists among
    the accepted inputs, is rejected by a trained selector as an invalid
    type. *)
Theorem pred_by_feature_DataFrame (s : t) (c : classifier) w df n_top :
  pred_by_feature (SrcDataFrame df) n_top (set_clf s (Some c), w)
  = (Raise (ValueError "Invalid source_x type: <class 'pandas.core.frame.DataFrame'>."),
     (set_clf s (Some c),
      logged_error w "Invalid source_x type: <class 'pandas.core.frame.DataFrame'>.")).
Proof. reflexivity. Qed.

(** Any other type is rejected in the same way. *)
Lemma pred_by_feature_other_type (s : t) (c : classifier) w r n_top :
  pred_by_feature (SrcOther r) n_top (set_clf s (Some c), w)
  = (Raise (ValueError ("Invalid source_x type: " ++ r ++ ".")),
     (set_clf s (Some c), logged_error w ("Invalid source_x type: " ++ r ++ "."))).
Proof. reflexivity. Qed.

(** X30.  When [method] is not one of the five names, or [eval_method] is
    neither mean nor median, or [test_size] is a number or an infinity
    that is not strictly between 0 and 1, [train] raises a ValueError
    whose message it has logged; nothing else happened: the selector
    (classifier and meta-data included) is the one before the call, the
    trace holds no split and no fit, only the logged message, and no
    randomness was consumed. *)
Theorem train_rejects_arguments method eval_method (test_size : float) n_trees n_neighbors
    (s : t) (w : world) :
  ~ In method ["RandomForest"; "GBDT"; "SVM"; "KNN"; "NaiveBayes"]
  \/ ~ In eval_method ["mean"; "median"]
  \/ (test_size <> NaN /\ forall q, test_size = Fin q -> ~ (0 < q /\ q < 1)%Q) ->
  exists msg,
    train method eval_method test_size n_trees n_neighbors (s, w)
    = (Raise (ValueError msg), (s, logged_error w msg))
    /\ In msg ["Only support RandomForest, GBDT, SVM, KNN, and NaiveBayes method.";
               "Only support mean and median as evaluation method.";
               "Illegal test set."].
Proof.
  intros Hbad. unfold train.
  destruct (existsb (String.eqb method) _) eqn:Em; cbn [negb].
  2:{ eexists. split; [apply fail_with_run | simpl; auto]. }
  destruct (existsb (String.eqb eval_method) _) eqn:Ee; cbn [negb].
  2:{ eexists. split; [apply fail_with_run | simpl; auto]. }
  destruct (float_le test_size (Fin 0) || float_ge test_size (Fin 1)) eqn:Et.
  { eexists. split; [apply fail_with_run | simpl; auto]. }
  exfalso. apply existsb_eqb_In in Em, Ee. apply orb_false_iff in Et.
  destruct Et as [Et0 Et1].
  destruct Hbad as [Hb|[Hb|[Hnan Hb]]]; [exact (Hb Em) | exact (Hb Ee) |].
  destruct test_size as [| | |q]; try discriminate; [congruence|].
  apply (Hb q eq_refl). unfold float_le in Et0. cbn [float_ge] in Et0, Et1.
  split; apply Qnot_le_lt; intros Hle; apply Qle_bool_iff in Hle; congruence.
Qed.
End SelectorFailures.

(** * pred_by_feature *)

Lemma for_each_pure {S A B} (body : B -> A -> M S B) (g : B -> A -> B) (s : S) :
  (forall acc a, body acc a s = (Ok (g acc a), s)) ->
  forall l acc, for_each body acc l s = (Ok (fold_left g l acc), s).
Proof.
  intros Hbody. induction l as [|a l IH]; intros acc; cbn [for_each fold_left].
  - reflexivity.
  - unfold bind. rewrite Hbody. apply IH.
Qed.

Lemma fold_left_snoc_map {A B} (f : A -> B) l : forall acc,
  fold_left (fun acc a => acc ++ [f a]) l acc = acc ++ map f l.
Proof.
  induction l as [|a l IH]; intros acc; simpl.
  - rewrite app_nil_r. reflexivity.
  - rewrite IH, <- app_assoc. reflexivity.
Qed.

Lemma list_set_last {A} (h : list A) a v : list_set (length h) v (h ++ [a]) = h ++ [v].
Proof. induction h as [|x h IH]; simpl; [reflexivity|]. rewrite IH. reflexivity. Qed.

Lemma nth_last {A} (h : list A) a d : nth (length h) (h ++ [a]) d = a.
Proof. rewrite app_nth2 by lia. rewrite Nat.sub_diag. reflexivity. Qed.

Section PredByFeature.
Context `{Collaborators}.
Import MetaLearnModelSelect.

Lemma load_items_run items w :
  for_each (fun acc r => a <- load r ;; ret (acc ++ [a])) [] items w
  = (Ok (map (fun r => nth r (heap w) (Arr1 [])) items), w).
Proof.
  rewrite (for_each_pure _ (fun acc r => acc ++ [nth r (heap w) (Arr1 [])])).
  - rewrite fold_left_snoc_map. reflexivity.
  - intros acc a. reflexivity.
Qed.

(** The copy of the input: a new array, the heap otherwise as it was. *)
Lemma copy_source_run (s : t) (c : classifier) w src a0 :
  source_array (heap w) src = Ok a0 ->
  match src with
  | SrcList items =>
      arrs <- lift (for_each (fun acc r => a <- load r ;; ret (acc ++ [a])) [] items) ;;
      stacked <- lift_result (np_row_stack arrs) ;;
      lift (alloc stacked)
  | SrcNdarray r => a <- lift (load r) ;; lift (alloc a)
  | _ => lift (fail_with ("Invalid source_x type: " ++ type_repr_of src ++ "."))
  end (s, w)
  = (Ok (length (heap w)), (s, grown w [a0])).
Proof.
  destruct src as [items|r|df|r]; simpl; intros Hsrc; try discriminate.
  - unfold bind at 1. unfold lift at 1. cbn [fst snd]. rewrite load_items_run.
    unfold bind, lift_result. rewrite Hsrc. reflexivity.
  - inversion Hsrc; subst. reflexivity.
Qed.

(** A run of [pred_by_feature] on a supported input: the classifier is
    asked about a new array holding the scaled input with NaN replaced by
    0, and the heap grows by the arrays created on the way. *)
Lemma pred_by_feature_run (s : t) (c : classifier) w src n_top a0 a1 :
  clf s = Some c ->
  source_array (heap w) src = Ok a0 ->
  standardized s a0 = Ok a1 ->
  pred_by_feature src n_top (s, w)
  = (predicted_labels c (fill_nan a1) n_top, (s, grown w (fresh_arrays s a0 a1))).
Proof.
  intros Hclf Hsrc Hstd. unfold pred_by_feature.
  unfold bind at 1. unfold get_self at 1. cbn [fst snd]. rewrite Hclf.
  unfold bind at 1. rewrite (copy_source_run s c _ _ Hsrc).
  unfold standardized, fresh_arrays in *.
  destruct (scale s).
  - destruct (np_broadcast np_sub a0 (x_mean s)) as [centred|e] eqn:E1;
      simpl in Hstd; [|discriminate].
    unfold bind, lift, lift_result, load, alloc, store, ret, grown.
    cbn [fst snd heap trace rng]. rewrite nth_last, E1, Hstd.
    cbn [fst snd heap trace rng].
    rewrite !length_app. cbn [length].
    replace (length (heap w) + 1) with (length (heap w ++ [a0])) by (rewrite length_app; reflexivity).
    repeat (rewrite nth_last || rewrite list_set_last).
    rewrite <- app_assoc. reflexivity.
  - inversion Hstd; subst a1.
    unfold bind, lift, lift_result, load, alloc, store, ret, grown.
    cbn [fst snd heap trace rng].
    repeat (rewrite nth_last || rewrite list_set_last). reflexivity.
Qed.

(** C10.  Whatever a trained selector is given and whatever comes of the
    call, [pred_by_feature] only adds arrays to the heap: every array that
    existed before the call, the argument and the items of a list argument
    among them, is left as it was, and the selector is unchanged.  The
    arrays added are the copy of the input and, under scaling, the scaled
    array; the replacement of NaN by 0 is made in the last of them. *)
Theorem pred_by_feature_leaves_input (s : t) (c : classifier) w src n_top :
  exists r fresh events,
    pred_by_feature src n_top (set_clf s (Some c), w)
    = (r, (set_clf s (Some c),
           {| heap := heap w ++ fresh; trace := trace w ++ events; rng := rng w |}))
    /\ fresh = match source_array (heap w) src with
               | Ok a0 =>
                   match standardized (set_clf s (Some c)) a0 with
                   | Ok a1 => fresh_arrays (set_clf s (Some c)) a0 a1
                   | Raise _ => [a0]
                   end
               | Raise _ => []
               end.
Proof.
  set (s' := set_clf s (Some c)).
  destruct (source_array (heap w) src) as [a0|e] eqn:Hsrc.
  - destruct (standardized s' a0) as [a1|e] eqn:Hstd.
    + exists (predicted_labels c (fill_nan a1) n_top), (fresh_arrays s' a0 a1), [].
      split; [|reflexivity].
      rewrite (pred_by_feature_run s' w src n_top (c:=c) eq_refl Hsrc Hstd).
      unfold grown. rewrite app_nil_r. reflexivity.
    + exists (Raise e), [a0], []. split; [|reflexivity].
      unfold pred_by_feature.
      unfold bind at 1. unfold get_self at 1. cbn [fst snd]. cbn [clf s' set_clf].
      unfold bind at 1. rewrite (copy_source_run s' c _ _ Hsrc).
      unfold standardized in Hstd. cbn [scale s' set_clf x_mean x_std] in *.
      destruct (scale s); [|discriminate].
      unfold bind, lift, lift_result, load, alloc, ret, grown.
      cbn [fst snd heap trace rng]. rewrite nth_last.
      destruct (np_broadcast np_sub a0 (x_mean s)) as [centred|e1]; simpl in Hstd.
      * rewrite Hstd, app_nil_r. reflexivity.
      * inversion Hstd; subst. rewrite app_nil_r. reflexivity.
  - destruct src as [items|r|df|r]; simpl in Hsrc; try discriminate.
    + exists (Raise e), [], []. split; [|reflexivity]. unfold pred_by_feature.
      unfold bind at 1. unfold get_self at 1. cbn [fst snd]. cbn [clf s' set_clf].
      unfold bind at 1. unfold bind at 1. unfold lift at 1.
      cbn [fst snd]. rewrite load_items_run.
      unfold bind, lift_result. rewrite Hsrc, !app_nil_r.
      destruct w; reflexivity.
    + eexists; exists []; eexists. split; [rewrite app_nil_r; reflexivity | reflexivity].
    + eexists; exists []; eexists. split; [rewrite app_nil_r; reflexivity | reflexivity].
Qed.
End PredByFeature.

(** * Ranking by probability *)

Section Argsort.
Variable key : nat -> Q.
Local Abbreviation R := (key_le key).

Lemma insert_by_perm i l : Permutation (insert_by key i l) (i :: l).
Proof.
  induction l as [|j l IH]; simpl; [reflexivity|].
  destruct (Qle_bool (key i) (key j)); [reflexivity|].
  rewrite IH. apply perm_swap.
Qed.

Lemma insert_by_sorted i l : StronglySorted R l -> StronglySorted R (insert_by key i l).
Proof.
  induction 1 as [|j l Hs IH Hj]; simpl.
  - constructor; constructor.
  - destruct (Qle_bool (key i) (key j)) eqn:E.
    + apply Qle_bool_iff in E. constructor; [constructor; assumption|].
      constructor; [exact E|].
      eapply Forall_impl; [|exact Hj]. unfold key_le. intros x Hx. eapply Qle_trans; eauto.
    + constructor; [exact IH|].
      assert (Hji : R j i).
      { unfold key_le. apply Qlt_le_weak, Qnot_le_lt. intros Hle.
        apply Qle_bool_iff in Hle. congruence. }
      apply Forall_forall. intros x Hx.
      apply (Permutation_in _ (insert_by_perm i l)) in Hx.
      destruct Hx as [<-|Hx]; [exact Hji|].
      rewrite Forall_forall in Hj. auto.
Qed.

Lemma insertion_sort_perm l : Permutation (fold_right (insert_by key) [] l) l.
Proof.
  induction l as [|i l IH]; simpl; [reflexivity|].
  rewrite insert_by_perm. constructor. exact IH.
Qed.

Lemma insertion_sort_sorted l : StronglySorted R (fold_right (insert_by key) [] l).
Proof.
  induction l as [|i l IH]; simpl; [constructor|]. apply insert_by_sorted. exact IH.
Qed.
End Argsort.

Lemma argsort_perm keys : Permutation (argsort keys) (seq 0 (length keys)).
Proof. apply insertion_sort_perm. Qed.

Lemma StronglySorted_weaken {A} (R R' : A -> A -> Prop) l :
  (forall x y, R x y -> R' x y) -> StronglySorted R l -> StronglySorted R' l.
Proof.
  intros Himp. induction 1 as [|a l Hs IH Ha]; constructor; [exact IH|].
  eapply Forall_impl; [|exact Ha]. auto.
Qed.

(** Sorting the negated probabilities ranks them in non-increasing order. *)
Lemma argsort_descending (p : list Q) : descending p (argsort (map Qopp p)).
Proof.
  unfold descending, argsort.
  eapply StronglySorted_weaken; [|apply insertion_sort_sorted].
  intros i j. unfold key_le. change 0%Q with (Qopp 0) at 1 2. rewrite !map_nth.
  intros Hle. apply Qopp_le_compat in Hle. rewrite !Qopp_opp in Hle. exact Hle.
Qed.

Lemma argsort_in_range keys : Forall (fun i => i < length keys) (argsort keys).
Proof.
  apply Forall_forall. intros i Hi.
  apply (Permutation_in _ (argsort_perm keys)) in Hi. apply in_seq in Hi. lia.
Qed.

Lemma take_firstn {A} (a : list A) idx k : forall r,
  take a idx = Ok r -> take a (firstn k idx) = Ok (firstn k r).
Proof.
  unfold take. revert k. induction idx as [|i idx IH]; intros k r Hr.
  - simpl in Hr. inversion Hr. destruct k; reflexivity.
  - simpl in Hr. destruct (nth_error a i) as [x|] eqn:Ei; simpl in Hr; [|discriminate].
    destruct (mapR _ idx) as [r'|e] eqn:E; simpl in Hr; [|discriminate].
    inversion Hr; subst. destruct k; simpl; [reflexivity|].
    rewrite Ei. simpl. rewrite (IH k r' eq_refl). reflexivity.
Qed.

Section TopLabels.
Context `{Collaborators}.
Import MetaLearnModelSelect.

Lemma rank_rows (classes : list string) (P : list (list Q)) :
  Forall (fun p => length p = length classes) P ->
  exists ranked,
    mapR (take classes) (map (fun row => argsort (map Qopp row)) P) = Ok ranked
    /\ Forall2 (fun p full => take classes (argsort (map Qopp p)) = Ok full) P ranked.
Proof.
  induction 1 as [|p P Hp _ [ranked [IH HF]]]; simpl.
  - exists []. split; [reflexivity | constructor].
  - assert (Hr : Forall (fun i => i < length classes) (argsort (map Qopp p))).
    { pose proof (argsort_in_range (map Qopp p)) as Hin.
      rewrite length_map, Hp in Hin. exact Hin. }
    pose proof (take_ok classes "" Hr) as Htake.
    eexists. rewrite Htake, IH. simpl. split; [reflexivity|].
    constructor; assumption.
Qed.

Lemma top_ranked_firstn (classes : list string) p k full :
  length p = length classes ->
  take classes (argsort (map Qopp p)) = Ok full ->
  top_ranked classes p k (firstn k full).
Proof.
  intros Hp Htake. split.
  - rewrite length_firstn. apply mapR_length in Htake. rewrite Htake.
    pose proof (Permutation_length (argsort_perm (map Qopp p))) as Hl.
    rewrite length_seq, length_map in Hl. congruence.
  - exists (argsort (map Qopp p)). split; [|split].
    + pose proof (argsort_perm (map Qopp p)) as Hperm.
      rewrite length_map, Hp in Hperm. exact Hperm.
    + apply argsort_descending.
    + apply take_firstn. exact Htake.
Qed.

Lemma slice_to_firstn {A} (n : Z) (l : list A) :
  (0 <= n)%Z -> slice_to n l = firstn (Z.to_nat n) l.
Proof.
  intros Hn. unfold slice_to. apply Z.leb_le in Hn. rewrite Hn. reflexivity.
Qed.

(** C4, as the code has it.  A trained selector whose classifier answers
    on the prepared table of r rows returns, for [n_top = 1], one label
    per row (a 1-D result of length r) and, for [n_top = k > 1], r rows of
    min(k, number of classes) labels each: the classes of the first k
    positions of a ranking of all classes by non-increasing predicted
    probability. *)
Theorem pred_by_feature_top_labels (s : t) (c : classifier) w src n_top a0 a1 rows :
  clf s = Some c ->
  source_array (heap w) src = Ok a0 ->
  standardized s a0 = Ok a1 ->
  fill_nan a1 = Arr2 rows ->
  (1 <= n_top)%Z ->
  classifier_answers c rows n_top ->
  exists out w',
    pred_by_feature src n_top (s, w) = (Ok out, (s, w'))
    /\ match out with
       | Labels1 ys => n_top = 1%Z /\ length ys = length rows
       | Labels2 out =>
           (1 < n_top)%Z /\ length out = length rows
           /\ exists P, predict_proba c (Arr2 rows) = Ok P
                        /\ Forall2 (fun p row => top_ranked (classes_ c) p (Z.to_nat n_top) row)
                                   P out
       end.
Proof.
  intros Hclf Hsrc Hstd Hfill Hn Hans.
  rewrite (@pred_by_feature_run _ s c w src n_top a0 a1 Hclf Hsrc Hstd), Hfill.
  unfold predicted_labels, classifier_answers in *.
  destruct (n_top =? 1)%Z eqn:En.
  - destruct Hans as [ys [Hys Hlen]]. rewrite Hys. simpl.
    eexists; eexists. split; [reflexivity|]. split; [apply Z.eqb_eq; exact En | exact Hlen].
  - destruct Hans as [P [HP [Hlen Hwidth]]]. rewrite HP. simpl.
    destruct (@rank_rows (classes_ c) P Hwidth) as [ranked [Hranked HF]].
    rewrite Hranked. simpl.
    eexists; eexists. split; [reflexivity|].
    apply Z.eqb_neq in En. split; [lia|]. split.
    + rewrite length_map. apply mapR_length in Hranked.
      rewrite length_map in Hranked. congruence.
    + exists P. split; [reflexivity|].
      clear Hranked HP Hlen. revert Hwidth.
      induction HF as [|p full P ranked Hpf HF IH]; intros Hwidth; simpl; constructor.
      * inversion Hwidth; subst. rewrite slice_to_firstn by lia.
        apply top_ranked_firstn; assumption.
      * inversion Hwidth; subst. auto.
Qed.
End TopLabels.

(** * pred_fuzzy *)

Lemma take_pair {A} (a : list A) i0 i1 d :
  i0 < length a -> i1 < length a -> take a [i0; i1] = Ok [nth i0 a d; nth i1 a d].
Proof.
  intros H0 H1. apply (take_ok a d). repeat constructor; assumption.
Qed.

Lemma take_one {A} (a : list A) i0 d : i0 < length a -> take a [i0] = Ok [nth i0 a d].
Proof. intros H0. apply (take_ok a d). repeat constructor; assumption. Qed.

Section Fuzzy.
Context `{Collaborators}.
Hypothesis choice_ok : choice_with_replacement.
Import MetaLearnModelSelect.

Lemma tree_rows (trees : list tree) (x : ndarray) n :
  Forall (fun tr => exists row rest, tree_predict_proba tr x = Ok (row :: rest)
                                     /\ length row = n) trees ->
  exists data,
    mapR (fun tr => p <~ tree_predict_proba tr x ;; first_row p) trees = Ok data
    /\ Forall2 (fun tr row => exists rest, tree_predict_proba tr x = Ok (row :: rest))
               trees data
    /\ Forall (fun row => length row = n) data.
Proof.
  induction 1 as [|tr trees [row [rest [Hrow Hlen]]] _ [data [IH [HF Hall]]]]; simpl.
  - exists []. repeat split; constructor.
  - exists (row :: data). rewrite Hrow, IH. simpl.
    split; [reflexivity|]. split; constructor; eauto.
Qed.

Lemma top_two_columns (data : list (list Q)) i0 i1 n :
  Forall (fun row => length row = n) data -> i0 < n -> i1 < n ->
  exists data2,
    mapR (fun row => take row [i0; i1]) data = Ok data2
    /\ Forall2 (fun row row2 => take row [i0; i1] = Ok row2) data data2
    /\ Forall (fun row => length row = 2) data2.
Proof.
  intros Hall H0 H1.
  induction Hall as [|row data Hrow _ [data2 [IH [HF Hl]]]]; simpl.
  - exists []. repeat split; constructor.
  - assert (Ht : take row [i0; i1] = Ok [nth i0 row 0%Q; nth i1 row 0%Q]).
    { apply take_pair; lia. }
    exists ([nth i0 row 0%Q; nth i1 row 0%Q] :: data2). rewrite Ht, IH. simpl.
    split; [reflexivity|]. split; constructor; auto.
Qed.

(** C7.  On a trained random-forest selector whose forest answers on the
    features of the series, [pred_fuzzy] returns 1 label when the p-value
    of the bootstrap is strictly less than [sig_level] and 2 labels when
    it is greater or equal, and as many probabilities as labels; the
    labels and probabilities are those of the first 1 (resp. 2) positions
    of a ranking of all classes by non-increasing predicted probability,
    and the p-value is the one [_bootstrap] returns on the probabilities
    the trees give to the two top classes. *)
Theorem pred_fuzzy_labels (s : t) (c : classifier) trees w ts ts_scale (sig_level : Q)
    test prob :
  clf s = Some c -> estimators_ c = Some trees ->
  standardized s (fuzzy_features ts ts_scale) = Ok test ->
  forest_answers c trees (reshape_one_row test) prob ->
  exists res p order data w',
    pred_fuzzy ts ts_scale sig_level (s, w) = (Ok res, (s, w'))
    /\ pvalue res = Fin p
    /\ length (label res) = (if Qlt_le_dec p sig_level then 1 else 2)
    /\ length (probability res) = length (label res)
    /\ Permutation order (seq 0 (length (classes_ c)))
    /\ descending prob order
    /\ take (classes_ c) (firstn (length (label res)) order) = Ok (label res)
    /\ take prob (firstn (length (label res)) order) = Ok (probability res)
    /\ Forall2 (fun tr row2 =>
                  exists row rest,
                    tree_predict_proba tr (reshape_one_row test) = Ok (row :: rest)
                    /\ take row (firstn 2 order) = Ok row2) trees data
    /\ _bootstrap data 200 w = (Ok (Fin p), w').
Proof.
  intros Hclf Hest Hstd [Htrees [Hall [[rest Hprob] [Hpl Hcl]]]].
  set (x := reshape_one_row test) in *.
  destruct (@tree_rows trees x (length (classes_ c)) Hall) as [data [Hdata [HF2 Hdl]]].
  set (order := argsort (map Qopp prob)).
  pose proof (argsort_perm (map Qopp prob)) as Hperm.
  rewrite length_map, Hpl in Hperm. fold order in Hperm.
  pose proof (argsort_in_range (map Qopp prob)) as Hrange.
  rewrite length_map, Hpl in Hrange. fold order in Hrange.
  pose proof (Permutation_length Hperm) as Hol. rewrite length_seq in Hol.
  destruct order as [|i0 [|i1 order']] eqn:Eorder; simpl in Hol; try lia.
  inversion Hrange as [|? ? Hi0 Hrange']; subst.
  inversion Hrange' as [|? ? Hi1 _]; subst.
  destruct (@top_two_columns data i0 i1 (length (classes_ c)) Hdl Hi0 Hi1)
    as [data2 [Htop [HT2 Hd2]]].
  assert (Hdne : data <> []).
  { intros ->. inversion HF2; subst. congruence. }
  assert (Hd2ne : data2 <> []).
  { intros ->. inversion HT2; subst. congruence. }
  destruct (@bootstrap_run _ choice_ok data2 200 w Hd2ne Hd2 ltac:(lia))
    as [drawn [g' [p [_ [Hboot _]]]]].
  set (w' := {| heap := heap w; trace := trace w; rng := g' |}) in *.
  assert (Hrun : exists res,
    pred_fuzzy ts ts_scale sig_level (s, w) = (Ok res, (s, w'))
    /\ pvalue res = Fin p
    /\ take (classes_ c) (firstn (if Qle_bool sig_level p then 2 else 1) [i0; i1])
       = Ok (label res)
    /\ take prob (firstn (if Qle_bool sig_level p then 2 else 1) [i0; i1])
       = Ok (probability res)).
  { unfold pred_fuzzy.
    change (fill_nan (Arr1 (map snd (TsFeatures_transform
              (if ts_scale then ts_div_max (ts_copy ts) else ts_copy ts)))))
      with (fuzzy_features ts ts_scale).
    unfold bind at 1. unfold get_self at 1. cbn [fst snd].
    assert (Hpre : (if scale s
                    then centred <- lift_result (np_broadcast np_sub (fuzzy_features ts ts_scale) (x_mean s)) ;;
                         lift_result (np_broadcast np_div centred (x_std s))
                    else ret (fuzzy_features ts ts_scale)) (s, w)
                   = (Ok test, (s, w))).
    { unfold standardized in Hstd. destruct (scale s); [|inversion Hstd; reflexivity].
      unfold bind, lift_result.
      destruct (np_broadcast np_sub (fuzzy_features ts ts_scale) (x_mean s));
        simpl in Hstd; [|discriminate]. rewrite Hstd. reflexivity. }
    unfold bind at 1. rewrite Hpre. fold x. rewrite Hclf, Hest.
    unfold bind at 1. unfold lift_result at 1. rewrite Hdata.
    unfold bind at 1. unfold lift_result at 1. rewrite Hprob.
    unfold bind at 1. unfold lift_result at 1. cbn [first_row].
    fold order. rewrite Eorder. cbn [firstn].
    unfold bind at 1. unfold lift_result at 1.
    destruct data as [|d0 data']; [congruence|]. rewrite Htop.
    unfold bind at 1. unfold lift at 1. cbn [fst snd]. rewrite Hboot.
    cbn [float_ge].
    destruct (Qle_bool sig_level p); cbn [firstn].
    - assert (Hp0 : i0 < length prob) by lia. assert (Hp1 : i1 < length prob) by lia.
      pose proof (take_pair (classes_ c) "" Hi0 Hi1) as Ht1.
      pose proof (take_pair prob 0%Q Hp0 Hp1) as Ht2.
      unfold bind, lift_result, ret. eexists. rewrite Ht1, Ht2.
      split; [reflexivity|]. repeat split.
    - assert (Hp0 : i0 < length prob) by lia.
      pose proof (take_one (classes_ c) "" Hi0) as Ht1.
      pose proof (take_one prob 0%Q Hp0) as Ht2.
      unfold bind, lift_result, ret. eexists. rewrite Ht1, Ht2.
      split; [reflexivity|]. repeat split. }
  destruct Hrun as [res [Hres [Hpv [Hlab Hpr]]]].
  assert (Hk : (if Qle_bool sig_level p then 2 else 1)
               = (if Qlt_le_dec p sig_level then 1 else 2)).
  { destruct (Qlt_le_dec p sig_level) as [Hlt|Hle].
    - destruct (Qle_bool sig_level p) eqn:E; [|reflexivity].
      apply Qle_bool_iff in E. exfalso. eapply Qlt_not_le; eauto.
    - apply Qle_bool_iff in Hle. rewrite Hle. reflexivity. }
  assert (Hll : length (label res) = (if Qlt_le_dec p sig_level then 1 else 2)).
  { apply mapR_length in Hlab. rewrite Hlab, <- Hk.
    destruct (Qle_bool sig_level p); reflexivity. }
  assert (Hfirst : forall k, k <= 2 -> firstn k (i0 :: i1 :: order') = firstn k [i0; i1]).
  { intros [|[|[|k]]] Hk2; try reflexivity. lia. }
  assert (Hle2 : (if Qlt_le_dec p sig_level then 1 else 2) <= 2)
    by (destruct (Qlt_le_dec p sig_level); lia).
  exists res, p, (i0 :: i1 :: order'), data2, w'.
  split; [exact Hres|]. split; [exact Hpv|]. split; [exact Hll|].
  split; [apply mapR_length in Hpr, Hlab; congruence|].
  split; [exact Hperm|].
  split; [rewrite <- Eorder; apply argsort_descending|].
  rewrite Hll, (Hfirst _ Hle2), <- Hk.
  split; [exact Hlab|]. split; [exact Hpr|]. split; [|exact Hboot].
  clear -HF2 HT2. revert data2 HT2.
  induction HF2 as [|tr row trees data [rest Hrow] _ IH]; intros data2 HT2;
    inversion HT2; subst; constructor; eauto.
Qed.
End Fuzzy.

(** * Construction and pre-processing keep the series aligned *)

Lemma pad_rows_width (data : list (list float)) :
  Forall (fun r => length r = data_width data) (pad_rows data).
Proof.
  unfold pad_rows. apply Forall_map. apply Forall_forall. intros r Hr.
  assert (Hle : length r <= data_width data).
  { unfold data_width.
    pose proof (proj1 (list_max_le (map (@length float) data) _) (le_n _)) as Hall.
    rewrite Forall_forall in Hall. apply Hall. apply in_map. exact Hr. }
  rewrite length_app, repeat_length. lia.
Qed.

Lemma pd_DataFrame_ok data cols df :
  pd_DataFrame data cols = Ok df ->
  columns df = cols /\ length (values df) = length data /\ rectangular df.
Proof.
  unfold pd_DataFrame. destruct (data_width data =? length cols) eqn:E; [|discriminate].
  intros Heq; inversion Heq; subst; clear Heq. apply Nat.eqb_eq in E.
  split; [reflexivity|]. split; [apply length_map|].
  unfold rectangular. simpl. rewrite <- E. apply pad_rows_width.
Qed.

Lemma fillna0_rectangular df : rectangular df -> rectangular (fillna0 df).
Proof.
  unfold rectangular, fillna0. simpl. intros Hall. apply Forall_map.
  eapply Forall_impl; [|exact Hall]. simpl. intros r Hr. rewrite length_map. exact Hr.
Qed.

Lemma reduce_axis0_length f c rows : length (reduce_axis0 f c rows) = c.
Proof. unfold reduce_axis0. rewrite length_map, length_seq. reflexivity. Qed.

Lemma zip_with_length {A B C} (f : A -> B -> C) l1 l2 :
  length l1 = length l2 -> length (zip_with f l1 l2) = length l1.
Proof.
  intros Hl. unfold zip_with. rewrite length_map, length_combine. lia.
Qed.

Section Alignment.
Context `{Collaborators}.
Hypothesis choice_ok : choice_without_replacement.
Import MetaLearnModelSelect.

Lemma column_means_length df : length (column_means df) = length (columns df).
Proof. apply reduce_axis0_length. Qed.

Lemma column_stds_length df : length (column_stds df) = length (columns df).
Proof. unfold column_stds. rewrite length_map. apply reduce_axis0_length. Qed.

Lemma reorganize_well_formed md cols h x y m sd :
  _reorganize_data md = Ok (cols, h, x, y, m, sd) ->
  length h = length md /\ length y = length md /\ length (values x) = length md
  /\ rectangular x /\ length m = length (columns x) /\ length sd = length (columns x).
Proof.
  unfold _reorganize_data.
  destruct (mapR reorganize_record md) as [rows|e] eqn:Erows; simpl; [|discriminate].
  destruct md as [|r0 md']; simpl; [discriminate|].
  destruct (features r0) as [[txt|d]|]; simpl; try discriminate.
  destruct (pd_DataFrame _ _) as [df|e] eqn:Edf; simpl; [|discriminate].
  intros Heq; inversion Heq; subst; clear Heq.
  apply mapR_length in Erows. apply pd_DataFrame_ok in Edf.
  destruct Edf as [Hcols [Hlen Hrect]].
  simpl in Erows. repeat split.
  - rewrite length_map. exact Erows.
  - rewrite length_map. exact Erows.
  - unfold fillna0. cbn [values]. rewrite length_map, Hlen, length_map. exact Erows.
  - apply fillna0_rectangular. exact Hrect.
  - apply column_means_length.
  - apply column_stds_length.
Qed.

Lemma init_well_formed md w s w' :
  __init__ (Some md) false w = (Ok (Some s), w') -> well_formed s /\ clf s = None.
Proof.
  unfold __init__, bind, lift_result. cbn [negb py_len].
  destruct (length md <=? 30) eqn:Elen; [discriminate|].
  destruct md as [|r0 md'] eqn:Emd; [discriminate|]. rewrite <- Emd in *.
  destruct (hpt_res r0); [|discriminate].
  destruct (features r0); [|discriminate].
  destruct (best_model r0); [|discriminate].
  destruct (_reorganize_data md) as [[[[[[cols h] x] y] m] sd]|e] eqn:Ere; [|discriminate].
  apply reorganize_well_formed in Ere.
  destruct Ere as [Hh [Hy [Hx [Hrect [Hm Hsd]]]]].
  destruct (_validate_data y w) as [[[]|e] w1]; [|discriminate].
  unfold ret. intros Heq; inversion Heq; subst s w'; clear Heq.
  split; [|reflexivity].
  unfold well_formed, aligned. cbn [hpt metadataY metadataX x_mean x_std].
  repeat split; try congruence.
  intros ->. rewrite Emd in Hy. discriminate.
Qed.

(** The body of [if downsample:] on a well-formed selector. *)
Lemma downsample_step_run (s : t) w :
  well_formed s ->
  exists js s' w',
    downsample_step (s, w) = (Ok tt, (s', w'))
    /\ iloc (hpt s) js = Ok (hpt s')
    /\ iloc (values (metadataX s)) js = Ok (values (metadataX s'))
    /\ iloc (metadataY s) js = Ok (metadataY s')
    /\ columns (metadataX s') = columns (metadataX s)
    /\ scale s' = scale s /\ clf s' = clf s
    /\ well_formed s'.
Proof.
  intros [[Hh Hx] [Hrect [Hne _]]].
  destruct (@fit_resample_spec _ choice_ok (hpt s) (metadataX s) (metadataY s) w
              Hh Hx Hrect Hne)
    as [js [rh [rx [ry [m [w' [Hrun [_ [_ [Hrx [Hry [Hrh [_ [_ [_ Hrxne]]]]]]]]]]]]]]].
  set (df := {| columns := columns (metadataX s); values := rx |}) in *.
  set (s1 := set_data s rh df ry).
  set (s2 := set_x_mean s1 (column_means (metadataX s1))).
  set (s3 := set_x_std s2 (column_stds (metadataX s2))).
  exists js, s3. eexists. split.
  { unfold downsample_step. unfold bind at 1. unfold get_self at 1. cbn [fst snd].
    unfold bind at 1. unfold lift at 1. cbn [fst snd]. rewrite Hrun. reflexivity. }
  subst s3 s2 s1 df. unfold well_formed, aligned.
  cbn [hpt metadataX metadataY x_mean x_std scale clf set_x_std set_x_mean set_data
       values columns].
  repeat split; try assumption.
  - apply iloc_length in Hrh, Hry. congruence.
  - apply iloc_length in Hrx, Hry. congruence.
  - unfold rectangular in *. cbn [columns values]. apply iloc_In in Hrx.
    rewrite Forall_forall in Hrx, Hrect |- *. intros r Hr. apply Hrect, Hrx, Hr.
  - intros ->. apply iloc_length in Hrx, Hry. destruct rx; [congruence|]. simpl in *. lia.
  - rewrite column_means_length. reflexivity.
  - rewrite column_stds_length. reflexivity.
Qed.

(** The body of [if scale:] on a well-formed selector. *)
Lemma scale_step_run (s : t) w :
  well_formed s ->
  exists s' w',
    scale_step (s, w) = (Ok tt, (s', w'))
    /\ hpt s' = hpt s /\ metadataY s' = metadataY s
    /\ values (metadataX s') = scaled_rows (x_mean s) (x_std s) (values (metadataX s))
    /\ columns (metadataX s') = columns (metadataX s)
    /\ x_mean s' = x_mean s /\ x_std s' = x_std s
    /\ scale s' = true /\ clf s' = clf s
    /\ well_formed s'.
Proof.
  intros [[Hh Hx] [Hrect [Hne [Hm Hsd]]]].
  eexists; eexists. split.
  { unfold scale_step, bind, modify_self, get_self, lift_result, lift, df_broadcast, ret.
    cbn. rewrite Hm, Nat.eqb_refl. cbn. rewrite Hsd, Nat.eqb_refl. reflexivity. }
  unfold well_formed, aligned, rectangular, scaled_rows in *. cbn. rewrite !map_map.
  repeat split; try assumption.
  - rewrite !length_map. exact Hx.
  - apply Forall_map.
    eapply Forall_impl; [|exact Hrect]. cbn. intros r Hr.
    rewrite !zip_with_length; try congruence.
    rewrite zip_with_length; congruence.
Qed.
End Alignment.

Section AlignmentTheorem.
Context `{Collaborators}.
Hypothesis choice_ok : choice_without_replacement.
Import MetaLearnModelSelect.

(** A call of [preprocess] on a well-formed selector. *)
Lemma preprocess_run (s : t) w (downsample scale : bool) :
  well_formed s ->
  exists s' w' X1,
    preprocess downsample scale (s, w) = (Ok tt, (s', w'))
    /\ well_formed s'
    /\ (if downsample
        then exists js, iloc (hpt s) js = Ok (hpt s')
                        /\ iloc (values (metadataX s)) js = Ok X1
                        /\ iloc (metadataY s) js = Ok (metadataY s')
        else hpt s' = hpt s /\ X1 = values (metadataX s) /\ metadataY s' = metadataY s)
    /\ values (metadataX s')
       = (if scale then scaled_rows (x_mean s') (x_std s') X1 else X1)
    /\ columns (metadataX s') = columns (metadataX s)
    /\ clf s' = clf s.
Proof.
  intros Hwf. unfold preprocess.
  destruct downsample.
  - destruct (@downsample_step_run _ choice_ok s w Hwf)
      as [js [s1 [w1 [Hrun1 [Hh [Hx [Hy [Hcols [Hsc [Hclf Hwf1]]]]]]]]]].
    unfold bind at 1. rewrite Hrun1.
    destruct scale.
    + destruct (@scale_step_run _ s1 w1 Hwf1)
        as [s2 [w2 [Hrun2 [Hh2 [Hy2 [Hx2 [Hcols2 [Hm2 [Hsd2 [_ [Hclf2 Hwf2]]]]]]]]]]].
      exists s2, w2, (values (metadataX s1)).
      split; [exact Hrun2|]. split; [exact Hwf2|].
      split; [exists js; rewrite Hh2, Hy2; auto|].
      split; [rewrite Hm2, Hsd2; exact Hx2|]. split; congruence.
    + exists s1, w1, (values (metadataX s1)).
      split; [reflexivity|]. split; [exact Hwf1|].
      split; [exists js; auto|]. auto.
  - unfold bind at 1, ret at 1.
    destruct scale.
    + destruct (@scale_step_run _ s w Hwf)
        as [s2 [w2 [Hrun2 [Hh2 [Hy2 [Hx2 [Hcols2 [Hm2 [Hsd2 [_ [Hclf2 Hwf2]]]]]]]]]]].
      exists s2, w2, (values (metadataX s)).
      split; [exact Hrun2|]. split; [exact Hwf2|].
      split; [auto|]. split; [rewrite Hm2, Hsd2; exact Hx2|]. auto.
    + exists s, w, (values (metadataX s)).
      split; [reflexivity|]. auto 10.
Qed.

(** Whatever comes of it, [train] leaves the selector as it was or gives it
    a classifier; it changes nothing else. *)
Lemma train_self method eval_method test_size n_trees n_neighbors (s : t) w r s' w' :
  train method eval_method test_size n_trees n_neighbors (s, w) = (r, (s', w')) ->
  s' = s \/ exists c, s' = set_clf s (Some c).
Proof.
  unfold train, bind, lift, lift_result, get_self, modify_self, ret, raise, fail_with,
    split, fit, emit, logging, bind.
  cbn [fst snd].
  repeat match goal with
         | |- context [match ?x with _ => _ end] =>
             match x with
             | context [match _ with _ => _ end] => fail 1
             | _ => destruct x eqn:?
             end; cbn [fst snd]
         end;
  intros Heq; inversion Heq; subst; eauto.
Qed.

Lemma reachable_well_formed (s : t) : reachable s -> well_formed s.
Proof.
  induction 1 as [md w s w' Hinit | s w d sc r s' w' _ IH Hrun
                 | s w m e ts nt nn r s' w' _ IH Hrun].
  - apply init_well_formed in Hinit. tauto.
  - destruct (@preprocess_run s w d sc IH) as [s1 [w1 [X1 [Hrun1 [Hwf1 _]]]]].
    rewrite Hrun1 in Hrun. inversion Hrun; subst. exact Hwf1.
  - apply train_self in Hrun. destruct Hrun as [->|[c ->]]; exact IH.
Qed.

(** C9.  After construction and after any number of calls of
    [preprocess], whatever their flags (calls of [train] may come in
    between), the three series [hpt], [metadataX] and [metadataY] have the
    same number of rows; and one more call of [preprocess] succeeds and
    keeps them so: with [downsample] the three series are replaced by the
    rows found at one common list of positions of the old ones, without it
    they are kept; with [scale] the feature rows [X1] so obtained are
    replaced by [(x - mean) / std], and neither flag lets [hpt] or the
    labels differ from what the downsampling step gave. *)
Theorem series_stay_aligned (s : t) (w : world) (downsample scale : bool) :
  reachable s ->
  aligned s
  /\ exists s' w' X1,
       preprocess downsample scale (s, w) = (Ok tt, (s', w'))
       /\ aligned s'
       /\ (if downsample
           then exists js, iloc (hpt s) js = Ok (hpt s')
                           /\ iloc (values (metadataX s)) js = Ok X1
                           /\ iloc (metadataY s) js = Ok (metadataY s')
           else hpt s' = hpt s /\ X1 = values (metadataX s)
                /\ metadataY s' = metadataY s)
       /\ values (metadataX s')
          = (if scale then scaled_rows (x_mean s') (x_std s') X1 else X1).
Proof.
  intros Hreach. apply reachable_well_formed in Hreach.
  split; [apply Hreach|].
  destruct (@preprocess_run s w downsample scale Hreach)
    as [s' [w' [X1 [Hrun [Hwf [Hrows [Hvals _]]]]]]].
  exists s', w', X1. split; [exact Hrun|]. split; [apply Hwf|]. auto.
Qed.
End AlignmentTheorem.

(** * Construction succeeds on complete records *)

Section Construction.
Context `{Collaborators}.
Import MetaLearnModelSelect.

Lemma reorganize_complete md :
  Forall complete md ->
  mapR reorganize_record md
  = Ok (map (fun r => (table_of r, feature_values r, label_of r)) md).
Proof.
  intros Hall. apply mapR_ok. eapply Forall_impl; [|exact Hall].
  intros r [h [d [y [Hh [Hd Hy]]]]].
  unfold reorganize_record, table_of, feature_values, label_of.
  rewrite Hh, Hd, Hy. reflexivity.
Qed.

Lemma validate_data_ok (y : list string) w :
  y <> [] -> length (unique y) <> 1 ->
  exists w', _validate_data y w = (Ok tt, w').
Proof.
  intros Hne Hnum. unfold _validate_data.
  replace (length (unique y) =? 1) with false by (symmetry; apply Nat.eqb_neq; exact Hnum).
  destruct (map snd (Counter y)) as [|n counts] eqn:Ec.
  - exfalso. destruct y as [|y0 y]; [congruence|].
    assert (Hin : In y0 (y0 :: y)) by (left; reflexivity).
    apply Counter_complete in Hin. apply (in_map snd) in Hin. rewrite Ec in Hin. exact Hin.
  - unfold bind, lift_result, py_min, py_max, logging.
    destruct (_ <? 30); [eexists; reflexivity|].
    destruct (_ <? _); eexists; reflexivity.
Qed.

(** More than 30 complete records whose feature rows are no wider than
    the first one's, with labels of not exactly one kind, make a selector
    without classifier and without scaling. *)
Lemma init_ok md r0 rest w :
  md = r0 :: rest -> 30 < length md -> Forall complete md ->
  data_width (map feature_values md) = length (feature_values r0) ->
  length (unique (map label_of md)) <> 1 ->
  exists s w',
    __init__ (Some md) false w = (Ok (Some s), w')
    /\ clf s = None /\ scale s = false /\ metadata s = md
    /\ hpt s = map table_of md /\ metadataY s = map label_of md
    /\ col_namesX s = feature_names r0.
Proof.
  intros Hmd Hlen Hall Hwidth Hnum.
  assert (Hr0 : complete r0) by (subst md; inversion Hall; assumption).
  destruct Hr0 as [h0 [d0 [y0 [Hh0 [Hd0 Hy0]]]]].
  assert (Hhead : match md with
                  | r :: _ => Ok r
                  | [] => Raise (IndexError "list index out of range")
                  end = Ok r0) by (subst md; reflexivity).
  assert (Hre : exists df,
    _reorganize_data md
    = Ok (feature_names r0, map table_of md, df, map label_of md,
          column_means df, column_stds df)).
  { eexists. unfold _reorganize_data. rewrite (reorganize_complete Hall). cbn [rbind].
    rewrite !map_map. cbn [fst snd]. rewrite Hhead. cbn [rbind]. rewrite Hd0. cbn [rbind].
    unfold pd_DataFrame.
    change (fun x : meta_record => feature_values x) with feature_values.
    rewrite Hwidth.
    replace (length (feature_values r0)) with (length (map fst d0))
      by (unfold feature_values; rewrite Hd0, !length_map; reflexivity).
    rewrite Nat.eqb_refl. cbn [rbind].
    unfold feature_names. rewrite Hd0. reflexivity. }
  destruct Hre as [df Hre].
  destruct (@validate_data_ok (map label_of md) w) as [w' Hval]; [| exact Hnum |].
  { subst md. discriminate. }
  eexists; exists w'. split.
  { unfold __init__, bind, lift_result. cbn [negb py_len].
    replace (length md <=? 30) with false by (symmetry; apply Nat.leb_gt; exact Hlen).
    rewrite Hhead, Hh0, Hd0, Hy0, Hre, Hval. reflexivity. }
  cbn. auto 10.
Qed.
(** When the features of the first record are kept as text, the loop over
    the records evaluates the text, but the column names are then read from
    the text itself. *)
Lemma reorganize_text_features md r0 rest txt rows :
  md = r0 :: rest -> features r0 = Some (Text txt) ->
  mapR reorganize_record md = Ok rows ->
  _reorganize_data md = Raise (AttributeError "'str' object has no attribute 'keys'").
Proof.
  intros -> Hf Hrows. unfold _reorganize_data. rewrite Hrows. cbn [rbind].
  rewrite Hf. reflexivity.
Qed.
End Construction.

(** * Examples in the concrete world *)

Lemma demo_choice_without_replacement : @choice_without_replacement Demo.demo.
Proof.
  intros g a k Hk. simpl. unfold Demo.choice.
  apply Nat.leb_le in Hk. rewrite Hk. apply Nat.leb_le in Hk.
  exists (firstn k a), (S g). split; [reflexivity|]. split.
  - apply firstn_length_le. exact Hk.
  - exists (skipn k a). rewrite firstn_skipn. reflexivity.
Qed.

Lemma demo_choice_with_replacement : @choice_with_replacement Demo.demo.
Proof.
  intros g a k Hne. simpl. unfold Demo.choice.
  destruct a as [|x a']; [congruence|].
  eexists; eexists. split; [reflexivity|]. split.
  - rewrite length_map, length_seq. reflexivity.
  - apply Forall_map. apply Forall_forall. intros i _.
    apply nth_In. apply Nat.mod_upper_bound. discriminate.
Qed.

Example demo_untrained_is_built :
  exists w', @MetaLearnModelSelect.__init__ Demo.demo (Some Demo.records) false Demo.w0
             = (Ok (Some Demo.untrained), w').
Proof. eexists. vm_compute. reflexivity. Qed.

Lemma demo_trained_clf : MetaLearnModelSelect.clf Demo.trained = Some Demo.forest.
Proof. reflexivity. Qed.

Lemma demo_trained_scale : MetaLearnModelSelect.scale Demo.trained = false.
Proof. vm_compute. reflexivity. Qed.

(** Downsampling three rows labelled arima, prophet, arima. *)
Lemma fit_resample_balanced_witness :
  length Demo.hpt3 = length Demo.Y3
  /\ length (values Demo.X3) = length Demo.Y3
  /\ rectangular Demo.X3
  /\ Demo.Y3 <> []
  /\ exists rh rx ry m w',
       @RandomDownSampler.fit_resample Demo.demo
         (RandomDownSampler.__init__ Demo.hpt3 Demo.X3 Demo.Y3) Demo.w0
       = (Ok (rh, rx, ry), w')
       /\ is_min_count Demo.Y3 m
       /\ (forall c, In c Demo.Y3 -> count_occ string_dec ry c = m)
       /\ (forall c, ~ In c Demo.Y3 -> count_occ string_dec ry c = 0)
       /\ length ry = m * length (nodup string_dec Demo.Y3)
       /\ length rh = length ry /\ length (values rx) = length ry.
Proof.
  refine ((fun H1 H2 H3 H4 =>
             conj H1 (conj H2 (conj H3 (conj H4
               (@fit_resample_balanced Demo.demo demo_choice_without_replacement
                  Demo.hpt3 Demo.X3 Demo.Y3 Demo.w0 H1 H2 H3 H4))))) _ _ _ _).
  - reflexivity.
  - reflexivity.
  - repeat constructor.
  - discriminate.
Defined.

(** The two best models for the two rows of the table on the heap. *)
Lemma pred_by_feature_top_labels_witness :
  MetaLearnModelSelect.clf Demo.trained = Some Demo.forest
  /\ @source_array (heap Demo.w0) (MetaLearnModelSelect.SrcNdarray 0)
     = Ok (Arr2 [[Fin 1; Fin 2]; [NaN; Fin 4]])
  /\ @standardized Demo.demo Demo.trained (Arr2 [[Fin 1; Fin 2]; [NaN; Fin 4]])
     = Ok (Arr2 [[Fin 1; Fin 2]; [NaN; Fin 4]])
  /\ fill_nan (Arr2 [[Fin 1; Fin 2]; [NaN; Fin 4]]) = Arr2 [[Fin 1; Fin 2]; [Fin 0; Fin 4]]
  /\ (1 <= 2)%Z
  /\ classifier_answers Demo.forest [[Fin 1; Fin 2]; [Fin 0; Fin 4]] 2
  /\ exists out w',
       @MetaLearnModelSelect.pred_by_feature Demo.demo (MetaLearnModelSelect.SrcNdarray 0) 2
         (Demo.trained, Demo.w0) = (Ok out, (Demo.trained, w'))
       /\ match out with
          | MetaLearnModelSelect.Labels1 ys =>
              2%Z = 1%Z /\ length ys = length [[Fin 1; Fin 2]; [Fin 0; Fin 4]]
          | MetaLearnModelSelect.Labels2 out =>
              (1 < 2)%Z /\ length out = length [[Fin 1; Fin 2]; [Fin 0; Fin 4]]
              /\ exists P,
                   predict_proba Demo.forest (Arr2 [[Fin 1; Fin 2]; [Fin 0; Fin 4]]) = Ok P
                   /\ Forall2 (fun p row => top_ranked (classes_ Demo.forest) p (Z.to_nat 2) row)
                              P out
          end.
Proof.
  refine ((fun H1 H2 H3 H4 H5 H6 =>
             conj H1 (conj H2 (conj H3 (conj H4 (conj H5 (conj H6
               (@pred_by_feature_top_labels Demo.demo Demo.trained Demo.forest Demo.w0
                  (MetaLearnModelSelect.SrcNdarray 0) 2 _ _ _ H1 H2 H3 H4 H5 H6)))))))
            _ _ _ _ _ _).
  - reflexivity.
  - reflexivity.
  - unfold standardized. rewrite demo_trained_scale. reflexivity.
  - reflexivity.
  - lia.
  - exists [[1 # 3; 2 # 3]; [1 # 3; 2 # 3]]%Q. split; [reflexivity|].
    split; [reflexivity | repeat constructor].
Defined.

(** C4, counterexample.  A trained selector whose classifier knows two
    classes, asked for the top three of a valid one-table input, returns
    rows of two labels, not three. *)
Lemma pred_by_feature_three_of_two_classes :
  length (classes_ Demo.forest) = 2
  /\ exists w',
       @MetaLearnModelSelect.pred_by_feature Demo.demo (MetaLearnModelSelect.SrcNdarray 0) 3
         (Demo.trained, Demo.w0)
       = (Ok (MetaLearnModelSelect.Labels2 [["prophet"; "arima"]; ["prophet"; "arima"]]),
          (Demo.trained, w'))
       /\ ~ Forall (fun row : list string => length row = 3)
                   [["prophet"; "arima"]; ["prophet"; "arima"]].
Proof.
  split; [reflexivity|]. eexists. split.
  - rewrite (@pred_by_feature_run Demo.demo Demo.trained Demo.forest Demo.w0
               (MetaLearnModelSelect.SrcNdarray 0) 3
               (Arr2 [[Fin 1; Fin 2]; [NaN; Fin 4]]) (Arr2 [[Fin 1; Fin 2]; [NaN; Fin 4]])
               demo_trained_clf eq_refl).
    + reflexivity.
    + unfold standardized. rewrite demo_trained_scale. reflexivity.
  - intros Hall. inversion Hall as [|? ? Hlen _]. discriminate Hlen.
Qed.

(** [train] with a test set of the whole data. *)
Lemma train_rejects_arguments_witness :
  (~ In "RandomForest" ["RandomForest"; "GBDT"; "SVM"; "KNN"; "NaiveBayes"]
   \/ ~ In "mean" ["mean"; "median"]
   \/ (Fin 1 <> NaN /\ forall q, Fin 1 = Fin q -> ~ (0 < q /\ q < 1)%Q))
  /\ exists msg,
       @MetaLearnModelSelect.train Demo.demo "RandomForest" "mean" (Fin 1) 500 5
         (Demo.untrained, Demo.w0)
       = (Raise (ValueError msg), (Demo.untrained, logged_error Demo.w0 msg))
       /\ In msg ["Only support RandomForest, GBDT, SVM, KNN, and NaiveBayes method.";
                  "Only support mean and median as evaluation method.";
                  "Illegal test set."].
Proof.
  refine ((fun H1 =>
             conj H1 (@train_rejects_arguments Demo.demo "RandomForest" "mean" (Fin 1) 500 5
                        Demo.untrained Demo.w0 H1)) _).
  right. right. split; [discriminate|].
  intros q Hq [_ Hlt]. inversion Hq; subst q. exact (Qlt_irrefl 1 Hlt).
Defined.

(** The fuzzy prediction of the forest for a series of two values. *)
Lemma pred_fuzzy_labels_witness :
  MetaLearnModelSelect.clf Demo.trained = Some Demo.forest
  /\ estimators_ Demo.forest
     = Some [Demo.stump [1 # 2; 1 # 2]%Q; Demo.stump [0; 1]%Q; Demo.stump [1 # 2; 1 # 2]%Q]
  /\ @standardized Demo.demo Demo.trained (@fuzzy_features Demo.demo [Fin 1; NaN] true)
     = Ok (Arr1 [Fin 1; Fin 0])
  /\ forest_answers Demo.forest
       [Demo.stump [1 # 2; 1 # 2]%Q; Demo.stump [0; 1]%Q; Demo.stump [1 # 2; 1 # 2]%Q]
       (reshape_one_row (Arr1 [Fin 1; Fin 0])) [1 # 3; 2 # 3]%Q
  /\ exists res p order data w',
       @MetaLearnModelSelect.pred_fuzzy Demo.demo [Fin 1; NaN] true (1 # 5)%Q
         (Demo.trained, Demo.w0) = (Ok res, (Demo.trained, w'))
       /\ MetaLearnModelSelect.pvalue res = Fin p
       /\ length (MetaLearnModelSelect.label res) = (if Qlt_le_dec p (1 # 5) then 1 else 2)
       /\ length (MetaLearnModelSelect.probability res) = length (MetaLearnModelSelect.label res)
       /\ Permutation order (seq 0 (length (classes_ Demo.forest)))
       /\ descending [1 # 3; 2 # 3]%Q order
       /\ take (classes_ Demo.forest) (firstn (length (MetaLearnModelSelect.label res)) order)
          = Ok (MetaLearnModelSelect.label res)
       /\ take [1 # 3; 2 # 3]%Q (firstn (length (MetaLearnModelSelect.label res)) order)
          = Ok (MetaLearnModelSelect.probability res)
       /\ Forall2 (fun tr row2 =>
                     exists row rest,
                       tree_predict_proba tr (reshape_one_row (Arr1 [Fin 1; Fin 0]))
                       = Ok (row :: rest)
                       /\ take row (firstn 2 order) = Ok row2)
                  [Demo.stump [1 # 2; 1 # 2]%Q; Demo.stump [0; 1]%Q; Demo.stump [1 # 2; 1 # 2]%Q]
                  data
       /\ @MetaLearnModelSelect._bootstrap Demo.demo data 200 Demo.w0 = (Ok (Fin p), w').
Proof.
  refine ((fun H1 H2 H3 H4 =>
             conj H1 (conj H2 (conj H3 (conj H4
               (@pred_fuzzy_labels Demo.demo demo_choice_with_replacement Demo.trained
                  Demo.forest _ Demo.w0 [Fin 1; NaN] true (1 # 5)%Q _ _ H1 H2 H3 H4)))))
            _ _ _ _).
  - reflexivity.
  - reflexivity.
  - unfold standardized. rewrite demo_trained_scale. reflexivity.
  - split; [discriminate|]. split.
    + repeat constructor; eexists; eexists; split; reflexivity.
    + split; [eexists; reflexivity|]. split; [reflexivity | simpl; lia].
Defined.


(** The selector built from the thirty-two records, down-sampled and
    scaled. *)
Lemma series_stay_aligned_witness :
  @reachable Demo.demo Demo.untrained
  /\ @aligned Demo.untrained
  /\ exists s' w' X1,
       @MetaLearnModelSelect.preprocess Demo.demo true true (Demo.untrained, Demo.w0)
       = (Ok tt, (s', w'))
       /\ @aligned s'
       /\ (exists js,
             iloc (MetaLearnModelSelect.hpt Demo.untrained) js = Ok (MetaLearnModelSelect.hpt s')
             /\ iloc (values (MetaLearnModelSelect.metadataX Demo.untrained)) js = Ok X1
             /\ iloc (MetaLearnModelSelect.metadataY Demo.untrained) js
                = Ok (MetaLearnModelSelect.metadataY s'))
       /\ values (MetaLearnModelSelect.metadataX s')
          = @scaled_rows Demo.demo (MetaLearnModelSelect.x_mean s')
              (MetaLearnModelSelect.x_std s') X1.
Proof.
  refine ((fun H1 =>
             conj H1 (@series_stay_aligned Demo.demo demo_choice_without_replacement
                        Demo.untrained Demo.w0 true true H1)) _).
  apply (@reachable_init Demo.demo Demo.records Demo.w0 Demo.untrained
           (snd (@MetaLearnModelSelect.__init__ Demo.demo (Some Demo.records) false Demo.w0))).
  vm_compute. reflexivity.
Defined.

(** * Further properties of construction *)

Lemma fold_max_ge l : forall x,
  x <= fold_left Nat.max l x /\ Forall (fun y => y <= fold_left Nat.max l x) l.
Proof.
  induction l as [|a l IH]; intros x; simpl.
  - split; [lia | constructor].
  - destruct (IH (Nat.max x a)) as [H1 H2]. split; [lia|].
    constructor; [lia | exact H2].
Qed.

Lemma fold_max_In l : forall x, fold_left Nat.max l x = x \/ In (fold_left Nat.max l x) l.
Proof.
  induction l as [|a l IH]; intros x; simpl; [auto|].
  destruct (IH (Nat.max x a)) as [H1|H1]; [|auto].
  rewrite H1. destruct (Nat.max_spec x a) as [[_ ->]|[_ ->]]; auto.
Qed.

Lemma py_max_spec l m : py_max l = Ok m -> In m l /\ Forall (fun y => y <= m) l.
Proof.
  destruct l as [|x l]; simpl; [discriminate|].
  intros Heq; inversion Heq; subst; clear Heq.
  destruct (fold_max_ge l x) as [H1 H2]. split.
  - destruct (fold_max_In l x) as [->|Hin]; auto.
  - constructor; assumption.
Qed.

Lemma Counter_values_nonempty ys : ys <> [] -> map snd (Counter ys) <> [].
Proof.
  intros Hne Heq. destruct ys as [|y ys]; [congruence|].
  assert (Hy : In y (y :: ys)) by (left; reflexivity).
  apply Counter_complete in Hy. apply (in_map snd) in Hy. rewrite Heq in Hy. exact Hy.
Qed.

Lemma max_count_exists ys :
  ys <> [] -> exists m, py_max (map snd (Counter ys)) = Ok m /\ is_max_count ys m.
Proof.
  intros Hne.
  destruct (py_max (map snd (Counter ys))) as [m|e] eqn:E.
  - exists m. split; [reflexivity|].
    apply py_max_spec in E. destruct E as [Hin Hall]. split.
    + apply in_map_iff in Hin. destruct Hin as [[c n] [Hn Hin]]. simpl in Hn; subst n.
      apply Counter_In in Hin. exists c. intuition.
    + intros c Hc. rewrite Forall_forall in Hall. apply Hall.
      apply Counter_complete in Hc. apply (in_map snd) in Hc. exact Hc.
  - exfalso. apply Counter_values_nonempty in Hne.
    destruct (map snd (Counter ys)); [congruence | discriminate].
Qed.

Lemma is_min_count_unique ys m m' : is_min_count ys m -> is_min_count ys m' -> m = m'.
Proof.
  intros [[c [Hc Hm]] Hle] [[c' [Hc' Hm']] Hle'].
  specialize (Hle c' Hc'). specialize (Hle' c Hc). lia.
Qed.

Lemma is_max_count_unique ys m m' : is_max_count ys m -> is_max_count ys m' -> m = m'.
Proof.
  intros [[c [Hc Hm]] Hle] [[c' [Hc' Hm']] Hle'].
  specialize (Hle c' Hc'). specialize (Hle' c Hc). lia.
Qed.

Lemma unique_In l x : In x (unique l) <-> In x l.
Proof. unfold unique. rewrite <- in_rev, nodup_In, <- in_rev. reflexivity. Qed.

Lemma unique_NoDup l : NoDup (unique l).
Proof. unfold unique. apply NoDup_rev. apply NoDup_nodup. Qed.

Lemma unique_length l : length (unique l) = length (nodup string_dec l).
Proof.
  apply Permutation_length. apply NoDup_Permutation.
  - apply unique_NoDup.
  - apply NoDup_nodup.
  - intros x. rewrite unique_In, nodup_In. reflexivity.
Qed.


Section ConstructionMore.
Context `{Collaborators}.
Import MetaLearnModelSelect.




(** X5.  When the labels are of more than one kind, [_validate_data] does
    not fail and logs exactly one advice, chosen from the sizes [lo] and
    [hi] of the smallest and the largest class and the number [n] of
    classes: the warning that the data are too few to downsample when
    [lo * n < 30]; otherwise the recommendation to downsample when
    [hi > 5 * lo]; otherwise the notice that there is no imbalance. *)
Theorem validate_data_advice (y : list string) (lo hi : nat) w :
  y <> [] -> length (nodup string_dec y) <> 1 ->
  is_min_count y lo -> is_max_count y hi ->
  exists msg,
    _validate_data y w
    = (Ok tt, {| heap := heap w; trace := trace w ++ [Log INFO msg]; rng := rng w |})
    /\ (lo * length (nodup string_dec y) < 30 ->
        msg = "Not recommend to do downsampling! Dataset will be too small after downsampling!")
    /\ (30 <= lo * length (nodup string_dec y) -> 5 * lo < hi ->
        msg = "Number of obs in majority class is much greater than in minority class. Downsampling is recommended!")
    /\ (30 <= lo * length (nodup string_dec y) -> hi <= 5 * lo ->
        msg = "No significant data imbalance problem, no need to do downsampling.").
Proof.
  intros Hne Hnum Hlo Hhi.
  destruct (min_count_exists Hne) as [lo' [Hmin [Hlo' _]]].
  destruct (max_count_exists Hne) as [hi' [Hmax Hhi']].
  rewrite (is_min_count_unique Hlo Hlo'), (is_max_count_unique Hhi Hhi').
  unfold _validate_data. rewrite unique_length.
  replace (length (nodup string_dec y) =? 1) with false
    by (symmetry; apply Nat.eqb_neq; exact Hnum).
  unfold bind, lift_result. rewrite Hmin.
  destruct (lo' * length (nodup string_dec y) <? 30) eqn:E1.
  - eexists. split; [reflexivity|]. apply Nat.ltb_lt in E1. repeat split; intros; lia || reflexivity.
  - rewrite Hmax. apply Nat.ltb_ge in E1.
    destruct (lo' * 5 <? hi') eqn:E2.
    + eexists. split; [reflexivity|]. apply Nat.ltb_lt in E2.
      repeat split; intros; lia || reflexivity.
    + eexists. split; [reflexivity|]. apply Nat.ltb_ge in E2.
      repeat split; intros; lia || reflexivity.
Qed.
End ConstructionMore.

Section ConstructionErrors.
Context `{Collaborators}.
Import MetaLearnModelSelect.

Lemma reorganize_lacking pre r post :
  Forall complete pre -> textless r -> lacking r ->
  mapR reorganize_record (pre ++ r :: post) = Raise (KeyError (missing_key r)).
Proof.
  intros Hpre [Hth Htf] Hl. induction Hpre as [|r1 pre [h [d [y [Hh [Hd Hy]]]]] _ IH].
  - cbn [app mapR]. unfold reorganize_record, missing_key. unfold lacking in Hl.
    destruct (hpt_res r) as [[s|h]|]; [exfalso; exact (Hth s eq_refl)| |reflexivity].
    destruct (features r) as [[s|d]|]; [exfalso; exact (Htf s eq_refl)| |reflexivity].
    destruct (best_model r) as [y|]; [|reflexivity].
    destruct Hl as [Hc|[Hc|Hc]]; discriminate.
  - cbn [app mapR]. unfold reorganize_record at 1. rewrite Hh, Hd, Hy. cbn [rbind].
    rewrite IH. reflexivity.
Qed.

(** X6.  Only the first record is checked for its fields.  When the
    records before [r] have them all, [r] is not the first and lacks one
    (neither of its fields being kept as text), the loop of
    [_reorganize_data] fails at [r] with a KeyError that names the first
    field it reads and does not find: not the configuration error, and
    nothing is logged. *)
Theorem init_missing_key pre r post w :
  pre <> [] -> 30 < length (pre ++ r :: post) ->
  Forall complete pre -> textless r -> lacking r ->
  __init__ (Some (pre ++ r :: post)) false w = (Raise (KeyError (missing_key r)), w).
Proof.
  intros Hne Hlen Hpre Htl Hl.
  pose proof (reorganize_lacking post Hpre Htl Hl) as Hrows.
  unfold __init__, bind, lift_result. cbn [negb py_len].
  replace (length (pre ++ r :: post) <=? 30) with false
    by (symmetry; apply Nat.leb_gt; exact Hlen).
  destruct pre as [|r0 pre]; [congruence|].
  inversion Hpre as [|? ? [h [d [y [Hh [Hd Hy]]]]] _]; subst.
  cbn [app]. rewrite Hh, Hd, Hy.
  unfold _reorganize_data. cbn [app] in Hrows. rewrite Hrows. reflexivity.
Qed.

(** X7.  When the features of the first record are kept as text that
    [ast.literal_eval] can read, the loop over the records reads them, but
    the column names are then asked of the text itself: construction fails
    with an AttributeError and logs nothing. *)
Theorem init_text_features r0 rest h txt y d w :
  30 < length (r0 :: rest) ->
  hpt_res r0 = Some (Obj h) -> features r0 = Some (Text txt) -> best_model r0 = Some y ->
  literal_eval_features txt = Ok d ->
  Forall complete rest ->
  __init__ (Some (r0 :: rest)) false w
  = (Raise (AttributeError "'str' object has no attribute 'keys'"), w).
Proof.
  intros Hlen Hh Hf Hb Hd Hall.
  assert (Hrows : exists rows, mapR reorganize_record (r0 :: rest) = Ok rows).
  { eexists. cbn [mapR]. unfold reorganize_record at 1. rewrite Hh, Hf, Hb, Hd. cbn [rbind].
    rewrite (reorganize_complete Hall). reflexivity. }
  destruct Hrows as [rows Hrows].
  unfold __init__, bind, lift_result. cbn [negb py_len].
  replace (length (r0 :: rest) <=? 30) with false by (symmetry; apply Nat.leb_gt; exact Hlen).
  rewrite Hh, Hf, Hb.
  rewrite (reorganize_text_features eq_refl Hf Hrows). reflexivity.
Qed.

Lemma init_inversion md w s w' :
  __init__ (Some md) false w = (Ok (Some s), w') ->
  exists cols h x y m sd,
    _reorganize_data md = Ok (cols, h, x, y, m, sd)
    /\ s = {| metadata := md; col_namesX := cols; hpt := h; metadataX := x;
              metadataY := y; x_mean := m; x_std := sd; scale := false; clf := None |}
    /\ 30 < length md
    /\ _validate_data y w = (Ok tt, w').
Proof.
  unfold __init__, bind, lift_result. cbn [negb py_len].
  destruct (length md <=? 30) eqn:Elen; [discriminate|]. apply Nat.leb_gt in Elen.
  destruct md as [|r0 md'] eqn:Emd; [discriminate|]. rewrite <- Emd in *.
  destruct (hpt_res r0); [|discriminate].
  destruct (features r0); [|discriminate].
  destruct (best_model r0); [|discriminate].
  destruct (_reorganize_data md) as [[[[[[cols h] x] y] m] sd]|e] eqn:Ere; [|discriminate].
  destruct (_validate_data y w) as [[[]|e] w1] eqn:Ev; [|discriminate].
  unfold ret. intros Heq; inversion Heq; subst s w'; clear Heq.
  exists cols, h, x, y, m, sd. auto.
Qed.

Lemma reorganize_inversion md cols h x y m sd :
  _reorganize_data md = Ok (cols, h, x, y, m, sd) ->
  (exists df0, x = fillna0 df0) /\ columns x = cols
  /\ m = column_means x /\ sd = column_stds x.
Proof.
  unfold _reorganize_data.
  destruct (mapR reorganize_record md) as [rows|e]; simpl; [|discriminate].
  destruct md as [|r0 md']; simpl; [discriminate|].
  destruct (features r0) as [[txt|d]|]; simpl; try discriminate.
  destruct (pd_DataFrame _ _) as [df|e] eqn:Edf; simpl; [|discriminate].
  intros Heq; inversion Heq; subst; clear Heq.
  apply pd_DataFrame_ok in Edf. destruct Edf as [Hcols _].
  split; [eexists; reflexivity|]. auto.
Qed.

Lemma fillna0_no_nan df :
  Forall (Forall (fun v => isnan v = false)) (values (fillna0 df)).
Proof.
  unfold fillna0. cbn [values]. apply Forall_map. apply Forall_forall. intros r _.
  apply Forall_map. apply Forall_forall. intros v _.
  unfold nan_to_zero. destruct v; reflexivity.
Qed.

Lemma column_stds_nonzero df : Forall (fun v => float_is_zero v = false) (column_stds df).
Proof.
  unfold column_stds. apply Forall_map. apply Forall_forall. intros v _.
  destruct (float_is_zero v) eqn:E; [reflexivity | exact E].
Qed.

(** X9.  What a successful construction leaves: the meta-data given, more
    than 30 of them; a feature table without NaN whose columns are
    [col_namesX]; the means and the standard deviations of its columns, no
    standard deviation being 0; no scaling and no classifier. *)
Theorem init_establishes md w s w' :
  __init__ (Some md) false w = (Ok (Some s), w') ->
  metadata s = md /\ 30 < length md
  /\ Forall (Forall (fun v => isnan v = false)) (values (metadataX s))
  /\ columns (metadataX s) = col_namesX s
  /\ x_mean s = column_means (metadataX s)
  /\ x_std s = column_stds (metadataX s)
  /\ Forall (fun v => float_is_zero v = false) (x_std s)
  /\ scale s = false /\ clf s = None.
Proof.
  intros Hinit. apply init_inversion in Hinit.
  destruct Hinit as [cols [h [x [y [m [sd [Hre [-> [Hlen _]]]]]]]]].
  apply reorganize_inversion in Hre. destruct Hre as [[df0 ->] [Hcols [-> ->]]].
  cbn [metadata metadataX col_namesX x_mean x_std scale clf].
  repeat split; auto.
  - apply fillna0_no_nan.
  - apply column_stds_nonzero.
Qed.
End ConstructionErrors.

Section ConstructionRun.
Context `{Collaborators}.
Import MetaLearnModelSelect.

(** X1.  Thirty records or fewer, the empty list included and whatever the
    records hold, are refused before anything is read from them: the
    message about the size of the data set is logged as an error and
    raised as a ValueError. *)
Theorem init_small_dataset md w :
  length md <= 30 ->
  __init__ (Some md) false w
  = (Raise (ValueError "Dataset is too small to train a meta learner!"),
     {| heap := heap w;
        trace := trace w ++ [Log ERROR "Dataset is too small to train a meta learner!"];
        rng := rng w |}).
Proof. intros Hlen. exact (@init_too_small _ md w Hlen). Qed.

(** X2.  With more than 30 records, the fields of the first record are
    looked for in the order hpt_res, features, best_model, and the first
    one missing decides the ValueError that is logged and raised; the
    other records are not looked at. *)
Theorem init_first_record_fields r0 rest w :
  30 < length (r0 :: rest) ->
  hpt_res r0 = None \/ features r0 = None \/ best_model r0 = None ->
  exists msg,
    __init__ (Some (r0 :: rest)) false w = (Raise (ValueError msg), logged_error w msg)
    /\ (hpt_res r0 = None ->
        msg = "Missing best hyper-params, not able to train a meta learner!")
    /\ (hpt_res r0 <> None -> features r0 = None ->
        msg = "Missing time series features, not able to train a meta learner!")
    /\ (hpt_res r0 <> None -> features r0 <> None ->
        msg = "Missing best models, not able to train a meta learner!").
Proof.
  intros Hlen Hmiss. unfold __init__, bind, lift_result. cbn [negb py_len].
  replace (length (r0 :: rest) <=? 30) with false by (symmetry; apply Nat.leb_gt; exact Hlen).
  destruct (hpt_res r0) as [h|].
  2:{ eexists. split; [reflexivity|]. repeat split; congruence. }
  destruct (features r0) as [f|].
  2:{ eexists. split; [reflexivity|]. repeat split; congruence. }
  destruct (best_model r0) as [y|].
  { exfalso. destruct Hmiss as [Hc|[Hc|Hc]]; discriminate. }
  eexists. split; [reflexivity|]. repeat split; congruence.
Qed.


End ConstructionRun.

(** ** Examples of construction *)

Lemma demo_records_complete : Forall complete Demo.records.
Proof.
  apply Forall_forall. intros r Hr. apply in_map_iff in Hr. destruct Hr as [i [<- _]].
  unfold complete, Demo.record_of. cbn. do 3 eexists. repeat split.
Qed.


(** No records at all. *)
Lemma init_small_dataset_witness :
  length (@nil MetaLearnModelSelect.meta_record) <= 30
  /\ @MetaLearnModelSelect.__init__ Demo.demo (Some []) false Demo.w0
     = (Raise (ValueError "Dataset is too small to train a meta learner!"),
        {| heap := heap Demo.w0;
           trace := trace Demo.w0 ++ [Log ERROR "Dataset is too small to train a meta learner!"];
           rng := rng Demo.w0 |}).
Proof.
  refine ((fun H1 => conj H1 (@init_small_dataset Demo.demo [] Demo.w0 H1)) _).
  simpl. lia.
Defined.

(** Thirty-three records, the first without features. *)
Lemma init_first_record_fields_witness :
  30 < length DemoMore.records_missing_first
  /\ exists msg,
       @MetaLearnModelSelect.__init__ Demo.demo (Some DemoMore.records_missing_first) false Demo.w0
       = (Raise (ValueError msg), logged_error Demo.w0 msg)
       /\ (MetaLearnModelSelect.hpt_res DemoMore.no_features = None ->
           msg = "Missing best hyper-params, not able to train a meta learner!")
       /\ (MetaLearnModelSelect.hpt_res DemoMore.no_features <> None ->
           MetaLearnModelSelect.features DemoMore.no_features = None ->
           msg = "Missing time series features, not able to train a meta learner!")
       /\ (MetaLearnModelSelect.hpt_res DemoMore.no_features <> None ->
           MetaLearnModelSelect.features DemoMore.no_features <> None ->
           msg = "Missing best models, not able to train a meta learner!").
Proof.
  refine ((fun H1 H2 =>
             conj H1 (@init_first_record_fields Demo.demo DemoMore.no_features Demo.records
                        Demo.w0 H1 H2)) _ _).
  - cbn. lia.
  - right. left. reflexivity.
Defined.



(** Three labels, two of one kind. *)
Lemma validate_data_advice_witness :
  is_min_count Demo.Y3 1 /\ is_max_count Demo.Y3 2
  /\ exists msg,
       @MetaLearnModelSelect._validate_data Demo.demo Demo.Y3 Demo.w0
       = (Ok tt, {| heap := heap Demo.w0; trace := trace Demo.w0 ++ [Log INFO msg];
                    rng := rng Demo.w0 |})
       /\ (1 * length (nodup string_dec Demo.Y3) < 30 ->
           msg = "Not recommend to do downsampling! Dataset will be too small after downsampling!")
       /\ (30 <= 1 * length (nodup string_dec Demo.Y3) -> 5 * 1 < 2 ->
           msg = "Number of obs in majority class is much greater than in minority class. Downsampling is recommended!")
       /\ (30 <= 1 * length (nodup string_dec Demo.Y3) -> 2 <= 5 * 1 ->
           msg = "No significant data imbalance problem, no need to do downsampling.").
Proof.
  refine ((fun H1 H2 H3 H4 =>
             conj H3 (conj H4
               (@validate_data_advice Demo.demo Demo.Y3 1 2 Demo.w0 H1 H2 H3 H4))) _ _ _ _).
  - discriminate.
  - vm_compute. discriminate.
  - split.
    + exists "prophet". split; [simpl; auto | reflexivity].
    + intros c Hc. simpl in Hc. destruct Hc as [<-|[<-|[<-|[]]]]; vm_compute; lia.
  - split.
    + exists "arima". split; [simpl; auto | reflexivity].
    + intros c Hc. simpl in Hc. destruct Hc as [<-|[<-|[<-|[]]]]; vm_compute; lia.
Defined.

(** Thirty-two complete records followed by one without features. *)
Lemma init_missing_key_witness :
  Demo.records <> []
  /\ 30 < length DemoMore.records_missing_later
  /\ textless DemoMore.no_features
  /\ lacking DemoMore.no_features
  /\ @MetaLearnModelSelect.__init__ Demo.demo
       (Some DemoMore.records_missing_later) false Demo.w0
     = (Raise (KeyError "features"), Demo.w0).
Proof.
  refine ((fun H1 H2 H3 H4 H5 =>
             conj H1 (conj H2 (conj H4 (conj H5
               (@init_missing_key Demo.demo Demo.records DemoMore.no_features []
                  Demo.w0 H1 H2 H3 H4 H5))))) _ _ _ _ _).
  - discriminate.
  - cbn. lia.
  - exact demo_records_complete.
  - split; intros s; discriminate.
  - right. left. reflexivity.
Defined.

(** Thirty-three records, the features of the first kept as text. *)
Lemma init_text_features_witness :
  30 < length DemoMore.records_text_first
  /\ @MetaLearnModelSelect.__init__ DemoMore.demo_eval
       (Some DemoMore.records_text_first) false DemoMore.w_eval
     = (Raise (AttributeError "'str' object has no attribute 'keys'"), DemoMore.w_eval).
Proof.
  refine ((fun H1 H2 H3 H4 H5 H6 =>
             conj H1 (@init_text_features DemoMore.demo_eval DemoMore.text_features
                        Demo.records [("arima", [Fin 1])] "{'trend': 1.0, 'entropy': 0.5}"
                        "arima" [("trend", Fin 1); ("entropy", Fin (1 # 2))]
                        DemoMore.w_eval H1 H2 H3 H4 H5 H6)) _ _ _ _ _ _).
  - cbn. lia.
  - reflexivity.
  - reflexivity.
  - reflexivity.
  - reflexivity.
  - exact demo_records_complete.
Defined.

(** The selector built from the records of [Demo]. *)
Lemma init_establishes_witness :
  @MetaLearnModelSelect.__init__ Demo.demo (Some Demo.records) false Demo.w0
  = (Ok (Some Demo.untrained),
     snd (@MetaLearnModelSelect.__init__ Demo.demo (Some Demo.records) false Demo.w0))
  /\ MetaLearnModelSelect.metadata Demo.untrained = Demo.records
  /\ 30 < length Demo.records
  /\ Forall (Forall (fun v => isnan v = false))
       (values (MetaLearnModelSelect.metadataX Demo.untrained))
  /\ columns (MetaLearnModelSelect.metadataX Demo.untrained)
     = MetaLearnModelSelect.col_namesX Demo.untrained
  /\ MetaLearnModelSelect.x_mean Demo.untrained
     = @MetaLearnModelSelect.column_means Demo.demo (MetaLearnModelSelect.metadataX Demo.untrained)
  /\ MetaLearnModelSelect.x_std Demo.untrained
     = @MetaLearnModelSelect.column_stds Demo.demo (MetaLearnModelSelect.metadataX Demo.untrained)
  /\ Forall (fun v => float_is_zero v = false) (MetaLearnModelSelect.x_std Demo.untrained)
  /\ MetaLearnModelSelect.scale Demo.untrained = false
  /\ MetaLearnModelSelect.clf Demo.untrained = None.
Proof.
  refine ((fun H1 =>
             conj H1 (@init_establishes Demo.demo Demo.records Demo.w0 Demo.untrained
                        (snd (@MetaLearnModelSelect.__init__ Demo.demo (Some Demo.records)
                                false Demo.w0)) H1)) _).
  vm_compute. reflexivity.
Defined.

(** * Further properties of the sampler *)

Lemma NoDup_map_fst_filter {A B} (p : A * B -> bool) (l : list (A * B)) :
  NoDup (map fst l) -> NoDup (map fst (filter p l)).
Proof.
  induction l as [|x l IH]; simpl; intros Hnd; [constructor|].
  inversion Hnd as [|? ? Hnotin Hrest]; subst.
  destruct (p x); simpl; [|auto].
  constructor; [|auto]. intros Hin. apply Hnotin.
  apply in_map_iff in Hin. destruct Hin as [y [Hy Hf]]. apply filter_In in Hf.
  apply in_map_iff. exists y. tauto.
Qed.

Lemma enumerate_from_fst {A} (ys : list A) : forall i,
  map fst (combine (seq i (length ys)) ys) = seq i (length ys).
Proof.
  induction ys as [|y ys IH]; simpl; intros i; [reflexivity|]. rewrite IH. reflexivity.
Qed.

Lemma group_indices_NoDup ys key idxs :
  In (key, idxs) (RandomDownSampler.group_indices ys) -> NoDup idxs.
Proof.
  intros Hin.
  apply (alist_lookup_In _ _ _ (group_indices_keys_NoDup ys)) in Hin.
  pose proof (group_fold_lookup key (enumerate ys) []) as Hg.
  fold (RandomDownSampler.group_indices ys) in Hg. rewrite Hin in Hg. simpl in Hg. subst idxs.
  apply NoDup_map_fst_filter. unfold enumerate. rewrite enumerate_from_fst. apply seq_NoDup.
Qed.

Lemma iloc_in_range {A} (l : list A) js : forall r,
  iloc l js = Ok r -> Forall (fun j => j < length l) js.
Proof.
  induction js as [|j js IH]; simpl; intros r Hr; [constructor|].
  destruct (nth_error l j) as [a|] eqn:E; [|discriminate].
  destruct (iloc l js) as [r'|e]; simpl in Hr; [|discriminate].
  constructor; [|eapply IH; reflexivity].
  apply nth_error_Some. congruence.
Qed.

Lemma positions_length (js : list nat) n :
  NoDup js -> Forall (fun j => j < n) js -> length js <= n.
Proof.
  intros Hnd Hin. rewrite <- (length_seq n 0). apply NoDup_incl_length; [exact Hnd|].
  intros j Hj. rewrite Forall_forall in Hin. apply in_seq. specialize (Hin j Hj). lia.
Qed.

Section SamplerFrame.
Context `{Collaborators}.

Lemma random_choice_frame a k b w r w' :
  random_choice a k b w = (r, w') -> heap w' = heap w /\ trace w' = trace w.
Proof.
  unfold random_choice. destruct (np_random_choice (rng w) a k b).
  intros Heq; inversion Heq; subst. auto.
Qed.

Lemma resample_class_frame self m acc e w r w' :
  RandomDownSampler.resample_class self m acc e w = (r, w') ->
  heap w' = heap w /\ trace w' = trace w.
Proof.
  destruct acc as [[rx ry] rh]. unfold RandomDownSampler.resample_class, bind at 1.
  destruct (random_choice (snd e) m false w) as [[chosen|err] w1] eqn:Ech;
    apply random_choice_frame in Ech.
  - unfold bind, lift_result, ret.
    destruct (iloc _ chosen); [|intros Heq; inversion Heq; subst; exact Ech].
    destruct (iloc _ chosen); [|intros Heq; inversion Heq; subst; exact Ech].
    destruct (iloc _ chosen); intros Heq; inversion Heq; subst; exact Ech.
  - intros Heq; inversion Heq; subst; exact Ech.
Qed.

Lemma resample_loop_frame self m es : forall acc w r w',
  for_each (RandomDownSampler.resample_class self m) acc es w = (r, w') ->
  heap w' = heap w /\ trace w' = trace w.
Proof.
  induction es as [|e es IH]; intros acc w r w'; cbn [for_each].
  - unfold ret. intros Heq; inversion Heq; subst. auto.
  - unfold bind.
    destruct (RandomDownSampler.resample_class self m acc e w) as [[acc'|err] w1] eqn:Estep;
      apply resample_class_frame in Estep.
    + intros Hrest. apply IH in Hrest. destruct Hrest, Estep. split; congruence.
    + intros Heq; inversion Heq; subst. exact Estep.
Qed.

(** X10.  Whatever it is given and however it ends, [fit_resample] only
    draws random numbers: it changes no array and logs nothing. *)
Theorem fit_resample_frame (self : RandomDownSampler.t) w :
  heap (snd (RandomDownSampler.fit_resample self w)) = heap w
  /\ trace (snd (RandomDownSampler.fit_resample self w)) = trace w.
Proof.
  destruct (RandomDownSampler.fit_resample self w) as [r w'] eqn:Erun. cbn [snd].
  revert Erun. unfold RandomDownSampler.fit_resample, bind at 1, lift_result.
  destruct (py_min _) as [m|e]; [|intros Heq; inversion Heq; subst; auto].
  unfold bind at 1.
  destruct (for_each _ _ _ w) as [[[[rx ry] rh]|err] w1] eqn:Eloop;
    apply resample_loop_frame in Eloop.
  - unfold bind, lift_result, ret.
    destruct (pd_DataFrame_set_columns rx _); intros Heq; inversion Heq; subst; exact Eloop.
  - intros Heq; inversion Heq; subst; exact Eloop.
Qed.
End SamplerFrame.

Section SamplerDraws.
Context `{Collaborators}.
Hypothesis choice_ok : choice_without_replacement.

Variable self : RandomDownSampler.t.
Variable min_n : nat.
Hypothesis hpt_aligned :
  length (RandomDownSampler.hpt self) = length (RandomDownSampler.dataY self).
Hypothesis dataX_aligned :
  length (values (RandomDownSampler.dataX self)) = length (RandomDownSampler.dataY self).

Lemma resample_class_draw e rx0 ry0 rh0 w :
  drawable (RandomDownSampler.dataY self) min_n e -> NoDup (snd e) ->
  exists chosen xs ys hs w',
    RandomDownSampler.resample_class self min_n (rx0, ry0, rh0) e w
    = (Ok (rx0 ++ xs, ry0 ++ ys, rh0 ++ hs), w')
    /\ iloc (values (RandomDownSampler.dataX self)) chosen = Ok xs
    /\ iloc (RandomDownSampler.dataY self) chosen = Ok ys
    /\ iloc (RandomDownSampler.hpt self) chosen = Ok hs
    /\ NoDup chosen /\ incl chosen (snd e) /\ length chosen = min_n.
Proof.
  intros [Hlen Hall] Hnd.
  destruct (choice_ok (rng w) (snd e) Hlen) as [chosen [g' [Hch [Hcl [rest Hperm]]]]].
  assert (Hincl : incl chosen (snd e)).
  { intros i Hi. eapply Permutation_in; [apply Permutation_sym; exact Hperm|].
    apply in_or_app. auto. }
  assert (Hndc : NoDup chosen).
  { apply (NoDup_app_remove_r chosen rest). eapply Permutation_NoDup; eassumption. }
  assert (Hin : Forall (fun i => i < length (RandomDownSampler.dataY self)) chosen).
  { apply Forall_forall. intros i Hi. rewrite Forall_forall in Hall.
    apply nth_error_Some. rewrite (Hall i (Hincl i Hi)). discriminate. }
  destruct (iloc_total (values (RandomDownSampler.dataX self)) (js:=chosen)) as [xs [Hxs _]].
  { rewrite dataX_aligned. exact Hin. }
  destruct (iloc_total (RandomDownSampler.dataY self) Hin) as [ys [Hys _]].
  destruct (iloc_total (RandomDownSampler.hpt self) (js:=chosen)) as [hs [Hhs _]].
  { rewrite hpt_aligned. exact Hin. }
  exists chosen, xs, ys, hs. eexists.
  unfold RandomDownSampler.resample_class, bind, lift_result, ret, random_choice.
  rewrite Hch, Hxs, Hys, Hhs. repeat split; assumption.
Qed.

Lemma resample_loop_draws es : forall js0 rx0 ry0 rh0 w,
  Forall (fun e => drawable (RandomDownSampler.dataY self) min_n e /\ NoDup (snd e)) es ->
  iloc (values (RandomDownSampler.dataX self)) js0 = Ok rx0 ->
  iloc (RandomDownSampler.dataY self) js0 = Ok ry0 ->
  iloc (RandomDownSampler.hpt self) js0 = Ok rh0 ->
  exists draws rx ry rh w',
    for_each (RandomDownSampler.resample_class self min_n) (rx0, ry0, rh0) es w
    = (Ok (rx, ry, rh), w')
    /\ iloc (values (RandomDownSampler.dataX self)) (js0 ++ concat draws) = Ok rx
    /\ iloc (RandomDownSampler.dataY self) (js0 ++ concat draws) = Ok ry
    /\ iloc (RandomDownSampler.hpt self) (js0 ++ concat draws) = Ok rh
    /\ Forall2 (fun e chosen => NoDup chosen /\ incl chosen (snd e) /\ length chosen = min_n)
         es draws.
Proof.
  induction es as [|e es IH]; intros js0 rx0 ry0 rh0 w Hall Hx Hy Hh.
  - exists [], rx0, ry0, rh0, w. simpl. rewrite app_nil_r. unfold ret. auto 10.
  - inversion Hall as [|? ? [He Hnd] Hes]; subst.
    destruct (resample_class_draw rx0 ry0 rh0 w He Hnd)
      as [chosen [xs [ys [hs [w1 [Hstep [Hxs [Hys [Hhs [Hndc [Hincl Hlen]]]]]]]]]]].
    destruct (IH (js0 ++ chosen) (rx0 ++ xs) (ry0 ++ ys) (rh0 ++ hs) w1 Hes)
      as [draws [rx [ry [rh [w' [Hloop [Hrx [Hry [Hrh Hdraws]]]]]]]]];
      try (apply iloc_app; assumption).
    exists (chosen :: draws), rx, ry, rh, w'. cbn [for_each concat]. unfold bind at 1.
    rewrite Hstep, app_assoc.
    split; [exact Hloop|]. repeat (split; [assumption|]).
    constructor; auto.
Qed.
End SamplerDraws.

Lemma draws_In (es : list (string * list nat)) draws m i :
  Forall2 (fun e chosen => NoDup chosen /\ incl chosen (snd e) /\ length chosen = m) es draws ->
  In i (concat draws) -> exists e, In e es /\ In i (snd e).
Proof.
  induction 1 as [|e chosen es draws [_ [Hincl _]] _ IH]; simpl; [contradiction|].
  intros Hin. apply in_app_or in Hin. destruct Hin as [Hin|Hin].
  - exists e. auto.
  - destruct (IH Hin) as [e' [He' Hi]]. exists e'. auto.
Qed.

Lemma draws_NoDup (ys : list string) (es : list (string * list nat)) draws m :
  NoDup (map fst es) ->
  Forall (fun e => Forall (fun i => nth_error ys i = Some (fst e)) (snd e)) es ->
  Forall2 (fun e chosen => NoDup chosen /\ incl chosen (snd e) /\ length chosen = m) es draws ->
  NoDup (concat draws).
Proof.
  intros Hkeys Hall Hdraws. revert Hkeys Hall.
  induction Hdraws as [|e chosen es draws [Hnd [Hincl _]] Hrest IH]; simpl; intros Hkeys Hall.
  - constructor.
  - inversion Hkeys as [|? ? Hnotin Hkeys']; subst.
    inversion Hall as [|? ? He Hall']; subst.
    apply NoDup_app; [exact Hnd | apply IH; assumption |].
    intros i Hi Hi'. apply Hnotin.
    destruct (@draws_In es draws m i Hrest Hi') as [e' [He' Hie']].
    rewrite Forall_forall in He, Hall'.
    pose proof (He i (Hincl i Hi)) as H1.
    pose proof (Hall' e' He') as H2. rewrite Forall_forall in H2.
    specialize (H2 i Hie'). rewrite H1 in H2. inversion H2 as [Hfst].
    rewrite Hfst. apply in_map. exact He'.
Qed.

Section SamplerDistinct.
Context `{Collaborators}.
Hypothesis choice_ok : choice_without_replacement.

(** The rows [fit_resample] returns, by their positions in the input. *)
Lemma fit_resample_draws hpt dataX dataY w :
  length hpt = length dataY -> length (values dataX) = length dataY ->
  rectangular dataX -> dataY <> [] ->
  exists js rh rx ry w',
    RandomDownSampler.fit_resample (RandomDownSampler.__init__ hpt dataX dataY) w
    = (Ok (rh, rx, ry), w')
    /\ NoDup js /\ Forall (fun j => j < length dataY) js
    /\ iloc hpt js = Ok rh /\ iloc (values dataX) js = Ok (values rx)
    /\ iloc dataY js = Ok ry
    /\ columns rx = columns dataX.
Proof.
  intros Hh Hx Hrect Hne.
  destruct (min_count_exists Hne) as [m [Hmin [Hm Hpos]]].
  set (self := RandomDownSampler.__init__ hpt dataX dataY).
  assert (Hdraw : Forall (fun e => drawable dataY m e /\ NoDup (snd e))
                    (RandomDownSampler.group_indices dataY)).
  { apply Forall_forall. intros [key idxs] Hin. split.
    - apply group_indices_In in Hin.
      destruct Hin as [Hkey [Hlen Hall]]. split; simpl; [|exact Hall].
      rewrite Hlen. apply Hm. exact Hkey.
    - simpl. eapply group_indices_NoDup. exact Hin. }
  destruct (@resample_loop_draws _ choice_ok self m Hh Hx
              (RandomDownSampler.group_indices dataY) [] [] [] [] w Hdraw
              eq_refl eq_refl eq_refl)
    as [draws [rx [ry [rh [w' [Hloop [Hrx [Hry [Hrh Hdraws]]]]]]]]].
  cbn [app] in Hrx, Hry, Hrh.
  change (RandomDownSampler.dataX self) with dataX in Hrx.
  change (RandomDownSampler.dataY self) with dataY in Hry.
  change (RandomDownSampler.hpt self) with hpt in Hrh.
  assert (Hkeys : RandomDownSampler.group_indices dataY <> []).
  { destruct dataY as [|y ys]; [congruence|].
    assert (Hy : In y (y :: ys)) by (left; reflexivity).
    apply group_indices_key_In in Hy. intros Heq. rewrite Heq in Hy. exact Hy. }
  assert (Hlenjs : 1 <= length (concat draws)).
  { destruct Hdraws as [|e chosen es ds [_ [_ Hlen]] _]; [congruence|].
    simpl. rewrite length_app. lia. }
  assert (Hrxne : rx <> []).
  { intros ->. apply iloc_length in Hrx. simpl in Hrx. lia. }
  assert (Hwidth : Forall (fun r => length r = length (columns dataX)) rx).
  { apply iloc_In in Hrx. unfold rectangular in Hrect.
    rewrite Forall_forall in Hrx, Hrect |- *. intros r Hr. apply Hrect, Hrx, Hr. }
  exists (concat draws), rh, {| columns := columns dataX; values := rx |}, ry, w'.
  split.
  { unfold RandomDownSampler.fit_resample, bind at 1, lift_result.
    change (RandomDownSampler.dataY self) with dataY. rewrite Hmin.
    unfold bind at 1. rewrite Hloop.
    unfold bind, lift_result, pd_DataFrame_set_columns, ret.
    change (RandomDownSampler.col_namesX self) with (columns dataX).
    rewrite (data_width_uniform Hrxne Hwidth), Nat.eqb_refl.
    rewrite (pad_rows_uniform Hwidth). reflexivity. }
  split.
  { apply (@draws_NoDup dataY (RandomDownSampler.group_indices dataY) draws m).
    - apply group_indices_keys_NoDup.
    - eapply Forall_impl; [|exact Hdraw]. intros e [[_ He] _]. exact He.
    - exact Hdraws. }
  split; [eapply iloc_in_range; exact Hry|].
  auto.
Qed.

(** X11.  On a row-aligned, non-empty input, what [fit_resample] returns
    are the rows found at pairwise distinct positions of the input, the
    same positions for the three series: no row of the input is used
    twice, and no more rows come out than went in.  The column names are
    those of the input. *)
Theorem fit_resample_distinct hpt dataX dataY w :
  length hpt = length dataY -> length (values dataX) = length dataY ->
  rectangular dataX -> dataY <> [] ->
  exists js rh rx ry w',
    RandomDownSampler.fit_resample (RandomDownSampler.__init__ hpt dataX dataY) w
    = (Ok (rh, rx, ry), w')
    /\ NoDup js /\ Forall (fun j => j < length dataY) js
    /\ iloc hpt js = Ok rh /\ iloc (values dataX) js = Ok (values rx)
    /\ iloc dataY js = Ok ry
    /\ columns rx = columns dataX
    /\ length ry <= length dataY.
Proof.
  intros Hh Hx Hrect Hne.
  destruct (@fit_resample_draws hpt dataX dataY w Hh Hx Hrect Hne)
    as [js [rh [rx [ry [w' [Hrun [Hnd [Hin [Hrh [Hrx [Hry Hcols]]]]]]]]]]].
  exists js, rh, rx, ry, w'. repeat (split; [assumption|]).
  rewrite (iloc_length _ _ Hry). apply (positions_length Hnd Hin).
Qed.

(** X12.  On row-aligned input, [fit_resample] fails exactly when there
    are no labels: it then raises the ValueError of [min] of an empty
    sequence, and draws nothing. *)
Theorem fit_resample_succeeds_iff hpt dataX dataY w :
  length hpt = length dataY -> length (values dataX) = length dataY ->
  rectangular dataX ->
  (dataY <> [] ->
   exists out w', RandomDownSampler.fit_resample
                    (RandomDownSampler.__init__ hpt dataX dataY) w = (Ok out, w'))
  /\ (dataY = [] ->
      RandomDownSampler.fit_resample (RandomDownSampler.__init__ hpt dataX dataY) w
      = (Raise (ValueError "min() arg is an empty sequence"), w)).
Proof.
  intros Hh Hx Hrect. split.
  - intros Hne.
    destruct (@fit_resample_spec _ choice_ok hpt dataX dataY w Hh Hx Hrect Hne)
      as [js [rh [rx [ry [m [w' [Hrun _]]]]]]].
    eexists; eexists. exact Hrun.
  - intros ->. reflexivity.
Qed.
End SamplerDistinct.

(** * Counting the classes *)

Lemma unique_snoc l y :
  unique (l ++ [y]) = if in_dec string_dec y l then unique l else unique l ++ [y].
Proof.
  unfold unique. rewrite rev_app_distr. cbn [rev app nodup].
  destruct (in_dec string_dec y (rev l)) as [Hin|Hnin];
    destruct (in_dec string_dec y l) as [Hin'|Hnin']; try reflexivity.
  - exfalso. apply Hnin'. apply in_rev. exact Hin.
  - exfalso. apply Hnin. apply in_rev in Hin'. exact Hin'.
Qed.

Lemma alist_update_keys {V} k (f : option V -> V) (d : list (string * V)) :
  map fst (alist_update k f d)
  = if in_dec string_dec k (map fst d) then map fst d else map fst d ++ [k].
Proof.
  induction d as [|[k0 v] d IH]; simpl; [reflexivity|].
  destruct (String.eqb k k0) eqn:E0; simpl.
  - apply String.eqb_eq in E0; subst k0.
    destruct (string_dec k k); [reflexivity | congruence].
  - apply String.eqb_neq in E0.
    destruct (string_dec k0 k) as [Heq|Hne]; [congruence|].
    rewrite IH. destruct (in_dec string_dec k (map fst d)); reflexivity.
Qed.

(** The keys of a dictionary built by a loop of updates: the keys met, in
    the order of their first occurrence. *)
Lemma fold_update_keys_order {V X} (key : X -> string) (f : X -> option V -> V) xs :
  map fst (fold_left (fun d x => alist_update (key x) (f x) d) xs [])
  = unique (map key xs).
Proof.
  induction xs as [|x xs IH] using rev_ind; [reflexivity|].
  rewrite fold_left_app, map_app. cbn [fold_left map].
  rewrite alist_update_keys, IH, unique_snoc.
  destruct (in_dec string_dec (key x) (unique (map key xs))) as [Hin|Hnin];
    destruct (in_dec string_dec (key x) (map key xs)) as [Hin'|Hnin']; try reflexivity.
  - exfalso. apply Hnin'. apply unique_In. exact Hin.
  - exfalso. apply Hnin. apply unique_In. exact Hin'.
Qed.

Lemma Counter_keys ys : map fst (Counter ys) = unique ys.
Proof.
  unfold Counter.
  rewrite (fold_update_keys_order (fun c : string => c)
             (fun _ o => match o with Some n => S n | None => 1 end)).
  rewrite map_id. reflexivity.
Qed.

Lemma group_indices_keys ys : map fst (RandomDownSampler.group_indices ys) = unique ys.
Proof.
  unfold RandomDownSampler.group_indices.
  rewrite (fold_update_keys_order (fun ic : nat * string => snd ic)
             (fun ic o => match o with Some l => l ++ [fst ic] | None => [fst ic] end)).
  unfold enumerate. rewrite enumerate_from_snd. reflexivity.
Qed.

Lemma alist_by_keys {V} (g : string -> V) (d : list (string * V)) :
  (forall k v, In (k, v) d -> v = g k) -> d = map (fun k => (k, g k)) (map fst d).
Proof.
  induction d as [|[k v] d IH]; simpl; intros Hall; [reflexivity|].
  rewrite (Hall k v (or_introl eq_refl)). f_equal. apply IH. intros k' v' Hin.
  apply Hall. right. exact Hin.
Qed.

Lemma Counter_table ys :
  Counter ys = map (fun c => (c, count_occ string_dec ys c)) (unique ys).
Proof.
  rewrite <- Counter_keys. apply alist_by_keys.
  intros k v Hin. apply Counter_In in Hin. tauto.
Qed.

Lemma list_sum_map_add {A} (f g : A -> nat) l :
  list_sum (map (fun a => f a + g a) l) = list_sum (map f l) + list_sum (map g l).
Proof. induction l as [|a l IH]; simpl; [reflexivity|]. rewrite IH. lia. Qed.

Lemma list_sum_indicator (y : string) ks :
  NoDup ks ->
  list_sum (map (fun c => if string_dec y c then 1 else 0) ks)
  = if in_dec string_dec y ks then 1 else 0.
Proof.
  induction 1 as [|k ks Hnotin _ IH]; simpl; [reflexivity|]. rewrite IH.
  destruct (string_dec y k) as [->|Hne].
  - destruct (string_dec k k); [|congruence].
    destruct (in_dec string_dec k ks); [contradiction | reflexivity].
  - destruct (string_dec k y) as [Heq|Hne']; [congruence|].
    destruct (in_dec string_dec y ks); reflexivity.
Qed.

Lemma count_occ_sum ys : forall ks,
  NoDup ks -> (forall y, In y ys -> In y ks) ->
  list_sum (map (count_occ string_dec ys) ks) = length ys.
Proof.
  induction ys as [|y ys IH]; intros ks Hnd Hin.
  - clear Hnd Hin. induction ks as [|k ks IHk]; simpl; [reflexivity | exact IHk].
  - rewrite (map_ext (count_occ string_dec (y :: ys))
               (fun c => (if string_dec y c then 1 else 0) + count_occ string_dec ys c)).
    + rewrite list_sum_map_add, (list_sum_indicator y Hnd), IH; [|exact Hnd|].
      * destruct (in_dec string_dec y ks) as [_|Hn]; [reflexivity|].
        exfalso. apply Hn, Hin. left. reflexivity.
      * intros y' Hy'. apply Hin. right. exact Hy'.
    + intros c. simpl. destruct (string_dec y c); reflexivity.
Qed.

Lemma unique_app_repeat l k m :
  ~ In k l -> 1 <= m -> unique (l ++ repeat k m) = unique l ++ [k].
Proof.
  intros Hnotin Hm. destruct m as [|m]; [lia|]. clear Hm.
  induction m as [|m IH].
  - simpl. rewrite unique_snoc. destruct (in_dec string_dec k l); [contradiction | reflexivity].
  - replace (repeat k (S (S m))) with (repeat k (S m) ++ [k])
      by (symmetry; apply (repeat_cons (S m) k)).
    rewrite app_assoc, unique_snoc, IH.
    destruct (in_dec string_dec k (l ++ repeat k (S m))) as [_|Hn]; [reflexivity|].
    exfalso. apply Hn. apply in_or_app. right. left. reflexivity.
Qed.

Lemma unique_concat_repeat ks m :
  NoDup ks -> 1 <= m -> unique (concat (map (fun k => repeat k m) ks)) = ks.
Proof.
  intros Hnd Hm. induction ks as [|k ks IH] using rev_ind; [reflexivity|].
  rewrite map_app, concat_app. cbn [map concat]. rewrite app_nil_r.
  assert (Hnd' : NoDup ks) by (apply (NoDup_app_remove_r ks [k]); exact Hnd).
  assert (Hnotin : ~ In k ks).
  { intros Hin. apply NoDup_remove_2 with (l:=ks) (l':=[]) in Hnd.
    apply Hnd. rewrite app_nil_r. exact Hin. }
  rewrite unique_app_repeat, (IH Hnd'); [reflexivity | | exact Hm].
  intros Hin. apply in_concat in Hin. destruct Hin as [r [Hr Hk]].
  apply in_map_iff in Hr. destruct Hr as [k' [<- Hk']].
  apply repeat_spec in Hk. subst k'. contradiction.
Qed.

Section CountCategory.
Context `{Collaborators}.
Import MetaLearnModelSelect.

(** X13.  [count_category] lists every label of [metadataY] once, in the
    order of first occurrence, with the number of its occurrences; so a
    label that does not occur has no entry, and the counts add up to the
    number of rows. *)
Theorem count_category_table (s : t) :
  count_category s
  = map (fun c => (c, count_occ string_dec (metadataY s) c)) (unique (metadataY s))
  /\ (forall c, ~ In c (metadataY s) -> alist_lookup c (count_category s) = None)
  /\ list_sum (map snd (count_category s)) = length (metadataY s).
Proof.
  unfold count_category. split; [apply Counter_table|]. split.
  - intros c Hc. destruct (alist_lookup c (Counter (metadataY s))) as [n|] eqn:E; [|reflexivity].
    exfalso. apply Hc. apply Counter_key_In.
    clear Hc. induction (Counter (metadataY s)) as [|[k v] d IH]; simpl in *; [discriminate|].
    destruct (String.eqb c k) eqn:Ek; [left; symmetry; apply String.eqb_eq; exact Ek|].
    right. apply IH. exact E.
  - rewrite Counter_table, map_map. cbn [snd].
    apply count_occ_sum; [apply unique_NoDup|].
    intros y Hy. apply unique_In. exact Hy.
Qed.
End CountCategory.

(** * Further properties of pre-processing *)

Section PreprocessFull.
Context `{Collaborators}.
Hypothesis choice_ok : choice_without_replacement.
Import MetaLearnModelSelect.

(** The body of [if downsample:], with all it sets. *)
Lemma downsample_step_full (s : t) w :
  well_formed s ->
  exists js rh rx ry m w1,
    NoDup js /\ Forall (fun j => j < length (metadataY s)) js
    /\ iloc (hpt s) js = Ok rh /\ iloc (values (metadataX s)) js = Ok rx
    /\ iloc (metadataY s) js = Ok ry
    /\ is_min_count (metadataY s) m /\ 1 <= m
    /\ ry = concat (map (fun k => repeat k m) (unique (metadataY s)))
    /\ heap w1 = heap w /\ trace w1 = trace w
    /\ well_formed
         {| metadata := metadata s; col_namesX := col_namesX s; hpt := rh;
            metadataX := {| columns := columns (metadataX s); values := rx |};
            metadataY := ry;
            x_mean := column_means {| columns := columns (metadataX s); values := rx |};
            x_std := column_stds {| columns := columns (metadataX s); values := rx |};
            scale := scale s; clf := clf s |}
    /\ downsample_step (s, w)
       = (Ok tt,
          ({| metadata := metadata s; col_namesX := col_namesX s; hpt := rh;
              metadataX := {| columns := columns (metadataX s); values := rx |};
              metadataY := ry;
              x_mean := column_means {| columns := columns (metadataX s); values := rx |};
              x_std := column_stds {| columns := columns (metadataX s); values := rx |};
              scale := scale s; clf := clf s |},
           {| heap := heap w1;
              trace := trace w1 ++ [Log INFO "Successfully applied random downsampling!"];
              rng := rng w1 |})).
Proof.
  intros Hwf. pose proof Hwf as [[Hh Hx] [Hrect [Hne _]]].
  destruct (@fit_resample_spec _ choice_ok (hpt s) (metadataX s) (metadataY s) w
              Hh Hx Hrect Hne)
    as [js0 [rh [rx [ry [m [w1 [Hrun [Hmin [Hm [_ [_ [_ [Hlab [Hheap [Htrace _]]]]]]]]]]]]]]].
  destruct (@fit_resample_draws _ choice_ok (hpt s) (metadataX s) (metadataY s) w
              Hh Hx Hrect Hne)
    as [js [rh' [rx' [ry' [w1' [Hrun' [Hnd [Hin [Hrh [Hrx [Hry _]]]]]]]]]]].
  rewrite Hrun in Hrun'. inversion Hrun'; subst rh' rx' ry' w1'. clear Hrun'.
  cbn [values] in Hrx.
  assert (Hstep : downsample_step (s, w)
       = (Ok tt,
          ({| metadata := metadata s; col_namesX := col_namesX s; hpt := rh;
              metadataX := {| columns := columns (metadataX s); values := rx |};
              metadataY := ry;
              x_mean := column_means {| columns := columns (metadataX s); values := rx |};
              x_std := column_stds {| columns := columns (metadataX s); values := rx |};
              scale := scale s; clf := clf s |},
           {| heap := heap w1;
              trace := trace w1 ++ [Log INFO "Successfully applied random downsampling!"];
              rng := rng w1 |}))).
  { unfold downsample_step. unfold bind at 1. unfold get_self at 1. cbn [fst snd].
    unfold bind at 1. unfold lift at 1. cbn [fst snd]. rewrite Hrun. reflexivity. }
  destruct (@downsample_step_run _ choice_ok s w Hwf)
    as [js1 [s1 [w1' [Hrun1 [_ [_ [_ [_ [_ [_ Hwf1]]]]]]]]]].
  rewrite Hstep in Hrun1. inversion Hrun1; subst s1 w1'. clear Hrun1.
  exists js, rh, rx, ry, m, w1.
  rewrite group_indices_keys in Hlab.
  repeat (split; [assumption|]). exact Hstep.
Qed.

(** The body of [if scale:], with all it sets. *)
Lemma scale_step_full (s : t) w :
  well_formed s ->
  scale_step (s, w)
  = (Ok tt,
     ({| metadata := metadata s; col_namesX := col_namesX s; hpt := hpt s;
         metadataX := {| columns := columns (metadataX s);
                         values := scaled_rows (x_mean s) (x_std s) (values (metadataX s)) |};
         metadataY := metadataY s; x_mean := x_mean s; x_std := x_std s;
         scale := true; clf := clf s |},
      {| heap := heap w;
         trace := trace w ++ [Log INFO "Successfully scaled data by centering to the mean and component-wise scaling to unit variance!"];
         rng := rng w |})).
Proof.
  intros [_ [_ [_ [Hm Hsd]]]].
  unfold scale_step, bind, modify_self, get_self, lift_result, lift, df_broadcast, ret, logging.
  cbn. rewrite Hm, Nat.eqb_refl. cbn. rewrite Hsd, Nat.eqb_refl. cbn.
  unfold scaled_rows. rewrite map_map. reflexivity.
Qed.

(** A call of [preprocess] on a well-formed selector, attribute by
    attribute; [X1] are the feature rows before scaling. *)
Lemma preprocess_fields (s : t) w (downsample sc : bool) :
  well_formed s ->
  exists s' w' X1,
    preprocess downsample sc (s, w) = (Ok tt, (s', w'))
    /\ metadata s' = metadata s /\ col_namesX s' = col_namesX s /\ clf s' = clf s
    /\ scale s' = (sc || scale s)%bool
    /\ columns (metadataX s') = columns (metadataX s)
    /\ values (metadataX s') = (if sc then scaled_rows (x_mean s') (x_std s') X1 else X1)
    /\ (if downsample
        then x_mean s' = column_means {| columns := columns (metadataX s); values := X1 |}
             /\ x_std s' = column_stds {| columns := columns (metadataX s); values := X1 |}
        else X1 = values (metadataX s) /\ x_mean s' = x_mean s /\ x_std s' = x_std s
             /\ metadataY s' = metadataY s /\ hpt s' = hpt s /\ rng w' = rng w)
    /\ length (metadataY s') <= length (metadataY s)
    /\ heap w' = heap w
    /\ trace w'
       = trace w
         ++ (if downsample then [Log INFO "Successfully applied random downsampling!"] else [])
         ++ (if sc then [Log INFO "Successfully scaled data by centering to the mean and component-wise scaling to unit variance!"] else []).
Proof.
  intros Hwf. unfold preprocess. destruct downsample.
  - destruct (downsample_step_full w Hwf)
      as [js [rh [rx [ry [m [w1 [Hnd [Hin [_ [_ [Hry [_ [_ [_ [Hheap [Htrace [Hwf1 Hstep]]]]]]]]]]]]]]]]].
    assert (Hlen : length ry <= length (metadataY s)).
    { rewrite (iloc_length _ _ Hry). apply (positions_length Hnd Hin). }
    unfold bind at 1. rewrite Hstep. destruct sc.
    + rewrite (scale_step_full _ Hwf1).
      eexists; eexists; exists rx. split; [reflexivity|].
      cbn [metadata col_namesX clf scale metadataX metadataY x_mean x_std hpt columns values
           heap trace rng orb].
      rewrite Htrace, <- app_assoc. auto 12.
    + eexists; eexists; exists rx. split; [reflexivity|].
      cbn [metadata col_namesX clf scale metadataX metadataY x_mean x_std hpt columns values
           heap trace rng orb].
      rewrite Htrace. auto 12.
  - unfold bind at 1, ret at 1. destruct sc.
    + rewrite (scale_step_full _ Hwf).
      eexists; eexists; exists (values (metadataX s)). split; [reflexivity|].
      cbn [metadata col_namesX clf scale metadataX metadataY x_mean x_std hpt columns values
           heap trace rng orb app].
      auto 15.
    + exists s, w, (values (metadataX s)). split; [reflexivity|].
      cbn [orb app]. rewrite app_nil_r. auto 15.
Qed.

(** X14.  After [preprocess] with downsampling, [count_category] gives
    every class of the selector the same number of observations, the size
    of its smallest class before the call; the classes are the same, in
    the same order. *)
Theorem preprocess_balances (s : t) w (sc : bool) :
  reachable s ->
  exists m s' w',
    preprocess true sc (s, w) = (Ok tt, (s', w'))
    /\ is_min_count (metadataY s) m
    /\ count_category s' = map (fun c => (c, m)) (unique (metadataY s)).
Proof.
  intros Hreach. apply (reachable_well_formed choice_ok) in Hreach.
  destruct (downsample_step_full w Hreach)
    as [js [rh [rx [ry [m [w1 [_ [_ [_ [_ [_ [Hmin [Hm [Hlab [_ [_ [Hwf1 Hstep]]]]]]]]]]]]]]]]].
  assert (Hcount : Counter ry = map (fun c => (c, m)) (unique (metadataY s))).
  { rewrite Counter_table, Hlab.
    rewrite (unique_concat_repeat (unique_NoDup (metadataY s)) Hm).
    apply map_ext_in. intros c Hc. f_equal.
    rewrite (count_occ_concat_repeat c m (unique_NoDup (metadataY s))).
    destruct (in_dec string_dec c (unique (metadataY s))); [reflexivity | contradiction]. }
  exists m. unfold preprocess. unfold bind at 1. rewrite Hstep. destruct sc.
  - rewrite (scale_step_full _ Hwf1). eexists; eexists. split; [reflexivity|].
    split; [exact Hmin|]. exact Hcount.
  - eexists; eexists. split; [reflexivity|]. split; [exact Hmin|]. exact Hcount.
Qed.

(** X15.  A call of [preprocess] on a selector obtained by construction,
    pre-processing and training succeeds and leaves the meta-data, the
    column names and the classifier as they were.  The scaling flag is set
    by [scale] and never reset.  With downsampling the means and standard
    deviations are recomputed from the downsampled, not yet scaled rows
    [X1]; without it they, the labels and the generator are kept.  No
    array is touched, and one INFO line is logged for each of the two
    steps taken. *)
Theorem preprocess_effects (s : t) w (downsample sc : bool) :
  reachable s ->
  exists s' w' X1,
    preprocess downsample sc (s, w) = (Ok tt, (s', w'))
    /\ metadata s' = metadata s /\ col_namesX s' = col_namesX s /\ clf s' = clf s
    /\ scale s' = (sc || scale s)%bool
    /\ columns (metadataX s') = columns (metadataX s)
    /\ values (metadataX s') = (if sc then scaled_rows (x_mean s') (x_std s') X1 else X1)
    /\ (if downsample
        then x_mean s' = column_means {| columns := columns (metadataX s); values := X1 |}
             /\ x_std s' = column_stds {| columns := columns (metadataX s); values := X1 |}
        else X1 = values (metadataX s) /\ x_mean s' = x_mean s /\ x_std s' = x_std s
             /\ metadataY s' = metadataY s /\ hpt s' = hpt s /\ rng w' = rng w)
    /\ length (metadataY s') <= length (metadataY s)
    /\ heap w' = heap w
    /\ trace w'
       = trace w
         ++ (if downsample then [Log INFO "Successfully applied random downsampling!"] else [])
         ++ (if sc then [Log INFO "Successfully scaled data by centering to the mean and component-wise scaling to unit variance!"] else []).
Proof.
  intros Hreach. apply preprocess_fields. apply (reachable_well_formed choice_ok). exact Hreach.
Qed.

(** X8.  On every selector obtained by construction followed by calls of
    [preprocess] and [train]: no entry of [x_std] is 0, so that scaling
    never divides by 0; the feature table has the columns [col_namesX],
    one mean and one standard deviation for each; the meta-data are more
    than 30, and there are never more rows than meta-data, nor none. *)
Theorem reachable_statistics (s : t) :
  reachable s ->
  Forall (fun v => float_is_zero v = false) (x_std s)
  /\ columns (metadataX s) = col_namesX s
  /\ length (x_mean s) = length (col_namesX s)
  /\ length (x_std s) = length (col_namesX s)
  /\ 30 < length (metadata s)
  /\ 1 <= length (metadataY s) <= length (metadata s).
Proof.
  induction 1 as [md w s w' Hinit | s w d sc r s' w' Hreach IH Hrun
                 | s w m e ts nt nn r s' w' Hreach IH Hrun].
  - pose proof (init_well_formed _ _ Hinit) as [[_ [_ [Hne [Hm Hsd]]]] _].
    apply init_inversion in Hinit.
    destruct Hinit as [cols [h [x [y [mu [sd [Hre [-> [Hlen _]]]]]]]]].
    pose proof (reorganize_well_formed _ Hre) as [_ [Hy _]].
    apply reorganize_inversion in Hre. destruct Hre as [_ [Hcols [_ ->]]].
    cbn [metadata metadataX metadataY col_namesX x_mean x_std] in *.
    split; [apply column_stds_nonzero|]. split; [exact Hcols|].
    split; [congruence|]. split; [congruence|]. split; [exact Hlen|].
    split; [|lia]. destruct y; [congruence | simpl; lia].
  - destruct IH as [Hnz [Hcols [Hm [Hsd [Hlen [Hpos Hle]]]]]].
    pose proof (reachable_well_formed choice_ok Hreach) as Hwf.
    assert (Hreach' : reachable s') by (eapply reachable_preprocess; eassumption).
    pose proof (reachable_well_formed choice_ok Hreach') as [_ [_ [Hne' [Hm' Hsd']]]].
    destruct (preprocess_fields w d sc Hwf)
      as [s1 [w1 [X1 [Hrun1 [Hmd [Hcn [_ [_ [Hcols1 [_ [Hstat [Hrows _]]]]]]]]]]]].
    rewrite Hrun1 in Hrun. inversion Hrun; subst r s1 w1. clear Hrun.
    split.
    { destruct d.
      - destruct Hstat as [_ ->]. apply column_stds_nonzero.
      - destruct Hstat as [_ [_ [-> _]]]. exact Hnz. }
    split; [congruence|]. split; [congruence|]. split; [congruence|].
    split; [congruence|]. split; [|rewrite Hmd; lia].
    destruct (metadataY s'); [congruence | simpl; lia].
  - apply train_self in Hrun. destruct Hrun as [->|[c ->]]; exact IH.
Qed.
End PreprocessFull.

(** * Further properties of training *)



Section TrainFacts.
Context `{Collaborators}.
Import MetaLearnModelSelect.


Lemma split_run X y h ts w r w1 :
  split X y h ts w = (r, w1) ->
  heap w1 = heap w /\ trace w1 = trace w ++ [CallSplit]
  /\ forall x_train x_test y_train y_test hpt_train hpt_test,
       r = Ok (x_train, x_test, y_train, y_test, hpt_train, hpt_test) ->
       length y_train = length x_train /\ length hpt_train = length x_train
       /\ length y_test = length x_test /\ length hpt_test = length x_test.
Proof.
  unfold split, bind at 1, emit. 
  destruct (negb _).
  - unfold raise. intros Heq; inversion Heq; subst. cbn. repeat split; auto; discriminate.
  - unfold bind at 1. cbn [heap trace rng].
    destruct (train_test_split _ _ _) as [[[tr te]|err] g].
    + unfold bind, lift_result, ret.
      destruct (iloc X tr) as [xtr|?] eqn:E1; [|intros Heq; inversion Heq; subst; cbn; repeat split; auto; discriminate].
      destruct (iloc X te) as [xte|?] eqn:E2; [|intros Heq; inversion Heq; subst; cbn; repeat split; auto; discriminate].
      destruct (iloc y tr) as [ytr|?] eqn:E3; [|intros Heq; inversion Heq; subst; cbn; repeat split; auto; discriminate].
      destruct (iloc y te) as [yte|?] eqn:E4; [|intros Heq; inversion Heq; subst; cbn; repeat split; auto; discriminate].
      destruct (iloc h tr) as [htr|?] eqn:E5; [|intros Heq; inversion Heq; subst; cbn; repeat split; auto; discriminate].
      destruct (iloc h te) as [hte|?] eqn:E6; [|intros Heq; inversion Heq; subst; cbn; repeat split; auto; discriminate].
      intros Heq; inversion Heq; subst. cbn. split; [reflexivity|]. split; [reflexivity|].
      intros ? ? ? ? ? ? Hr. inversion Hr; subst.
      apply iloc_length in E1, E2, E3, E4, E5, E6. repeat split; congruence.
    + intros Heq; inversion Heq; subst. cbn. repeat split; auto; discriminate.
Qed.

Lemma fit_run e X y w r w1 :
  fit e X y w = (r, w1) -> heap w1 = heap w /\ trace w1 = trace w ++ [CallFit e].
Proof.
  unfold fit, bind, emit. cbn [heap trace rng].
  destruct (sk_fit _ _ _ _). intros Heq; inversion Heq; subst. auto.
Qed.


Lemma fit_origin e X y w c w1 :
  fit e X y w = (Ok c, w1) -> exists g g', sk_fit g e X y = (Ok c, g').
Proof.
  unfold fit, bind, emit. cbn [heap trace rng].
  destruct (sk_fit (rng w) e X y) as [r g'] eqn:E. intros Heq; inversion Heq; subst. eauto.
Qed.

(** The two ways a call of [train] can end: before the classifier is
    assigned, with an error and the selector as it was; or after it. *)
Lemma train_cases method eval_method test_size n_trees n_neighbors (s : t) w r s' w' :
  train method eval_method test_size n_trees n_neighbors (s, w) = (r, (s', w')) ->
  heap w' = heap w
  /\ ((s' = s /\ exists err, r = Raise err)
      \/ (exists c e X y g g' x_test (y_test y_pred : list string),
            s' = set_clf s (Some c)
            /\ sk_fit g e X y = (Ok c, g')
            /\ predict c (Arr2 x_test) = Ok y_pred
            /\ length y_test = length x_test
            /\ ((exists res, r = Ok res) <-> length y_test = length y_pred))).
Proof.
  unfold train.
  destruct (negb (existsb (String.eqb method) _)).
  { rewrite fail_with_run. intros Heq; inversion Heq; subst. split; [reflexivity|]. left. eauto. }
  destruct (negb (existsb (String.eqb eval_method) _)).
  { rewrite fail_with_run. intros Heq; inversion Heq; subst. split; [reflexivity|]. left. eauto. }
  destruct (float_le test_size (Fin 0) || float_ge test_size (Fin 1)).
  { rewrite fail_with_run. intros Heq; inversion Heq; subst. split; [reflexivity|]. left. eauto. }
  remember (if String.eqb method "RandomForest" then RandomForestClassifier n_trees
             else if String.eqb method "GBDT" then GradientBoostingClassifier
             else if String.eqb method "SVM" then StandardScaler_SVC
             else if String.eqb method "KNN" then KNeighborsClassifier n_neighbors
             else GaussianNB) as e eqn:He.
  remember (if String.eqb eval_method "mean" then np_mean else np_median) as em eqn:Hem.
  unfold bind at 1. unfold get_self at 1. cbn [fst snd].
  unfold bind at 1. unfold lift at 1. cbn [fst snd].
  destruct (split _ _ _ _ w) as [[[[[[[x_train x_test] y_train] y_test] hpt_train] hpt_test]|err] w1] eqn:Esplit;
    apply split_run in Esplit; destruct Esplit as [Hh1 [Ht1 Hlen]].
  2:{ intros Heq; inversion Heq; subst. split; [assumption|]. left. eauto. }
  destruct (Hlen _ _ _ _ _ _ eq_refl) as [_ [_ [Hytest _]]].
  unfold bind at 1. unfold lift at 1. cbn [fst snd].
  destruct (fit e x_train y_train w1) as [[c|err] w2] eqn:Efit;
    pose proof (fit_run _ _ _ _ Efit) as [Hh2 Ht2].
  2:{ intros Heq; inversion Heq; subst. split; [congruence|]. left. eauto. }
  apply fit_origin in Efit. destruct Efit as [g [g' Hfit]].
  unfold bind at 1. unfold lift_result at 1.
  destruct (predict c (Arr2 x_train)) as [y_fit|err].
  2:{ intros Heq; inversion Heq; subst. split; [congruence|]. left. eauto. }
  unfold bind at 1. unfold lift_result at 1.
  destruct (predict c (Arr2 x_test)) as [y_pred|err] eqn:Epred.
  2:{ intros Heq; inversion Heq; subst. split; [congruence|]. left. eauto. }
  unfold bind at 1. unfold lift_result at 1.
  destruct (mapR _ (enumerate y_fit)) as [ml_fit|err].
  2:{ intros Heq; inversion Heq; subst. split; [congruence|]. left. eauto. }
  unfold bind at 1. unfold lift_result at 1.
  destruct (mapR _ (enumerate y_pred)) as [ml_pred|err].
  2:{ intros Heq; inversion Heq; subst. split; [congruence|]. left. eauto. }
  unfold bind at 1. unfold lift_result at 1.
  destruct (foldR _ _ _) as [[fe pe]|err] eqn:Efold.
  2:{ intros Heq; inversion Heq; subst. split; [congruence|]. left. eauto. }
  unfold bind, modify_self, lift_result, ret, accuracy_score. cbn [fst snd].
  destruct (length y_test =? length y_pred) eqn:Eacc;
    intros Heq; inversion Heq; subst r s' w'; clear Heq;
    (split; [congruence|]); right;
    exists c, e, x_train, y_train, g, g', x_test, y_test, y_pred;
    (split; [reflexivity|]); (split; [exact Hfit|]); (split; [exact Epred|]);
    (split; [exact Hytest|]).
  - apply Nat.eqb_eq in Eacc. split; [intros _; exact Eacc | intros _; eexists; reflexivity].
  - apply Nat.eqb_neq in Eacc. split; [intros [res Hres]; discriminate | intros; contradiction].
Qed.

Lemma split_raises X y h ts w e g :
  length y = length X -> length h = length X ->
  train_test_split (rng w) (length X) ts = (Raise e, g) ->
  split X y h ts w
  = (Raise e, {| heap := heap w; trace := trace w ++ [CallSplit]; rng := g |}).
Proof.
  intros Hy Hh Hs. unfold split, bind at 1, emit.
  rewrite Hy, Hh, Nat.eqb_refl. cbn [andb negb].
  unfold bind at 1. cbn [heap trace rng]. rewrite Hs. reflexivity.
Qed.

Lemma train_unguarded method eval_method test_size n_trees n_neighbors (s : t) w r s' w' :
  existsb (String.eqb method) ["RandomForest"; "GBDT"; "SVM"; "KNN"; "NaiveBayes"] = true ->
  existsb (String.eqb eval_method) ["mean"; "median"] = true ->
  float_le test_size (Fin 0) || float_ge test_size (Fin 1) = false ->
  train method eval_method test_size n_trees n_neighbors (s, w) = (r, (s', w')) ->
  exists events,
    trace w' = trace w ++ CallSplit :: events
    /\ Forall (fun ev => forall lvl msg, ev <> Log lvl msg) events
    /\ (forall e g,
          length (metadataY s) = length (values (metadataX s)) ->
          length (hpt s) = length (values (metadataX s)) ->
          train_test_split (rng w) (length (values (metadataX s))) test_size = (Raise e, g) ->
          r = Raise e /\ s' = s /\ events = [] /\ rng w' = g).
Proof.
  intros Hm He Ht. unfold train. rewrite Hm, He, Ht. cbn [negb].
  remember (if String.eqb method "RandomForest" then RandomForestClassifier n_trees
             else if String.eqb method "GBDT" then GradientBoostingClassifier
             else if String.eqb method "SVM" then StandardScaler_SVC
             else if String.eqb method "KNN" then KNeighborsClassifier n_neighbors
             else GaussianNB) as e eqn:Hest.
  remember (if String.eqb eval_method "mean" then np_mean else np_median) as em eqn:Hem.
  unfold bind at 1. unfold get_self at 1. cbn [fst snd].
  unfold bind at 1. unfold lift at 1. cbn [fst snd].
  destruct (split _ _ _ _ w) as [[[[[[[x_train x_test] y_train] y_test] hpt_train] hpt_test]|err] w1] eqn:Esplit.
  2:{ intros Heq; inversion Heq; subst r s' w'. clear Heq.
      pose proof (split_run _ _ _ _ _ Esplit) as [_ [Ht1 _]].
      exists []. split; [exact Ht1|]. split; [constructor|].
      intros e0 g Hy Hh Hs. rewrite (@split_raises _ _ _ _ w _ _ Hy Hh Hs) in Esplit.
      inversion Esplit; subst. auto. }
  pose proof (split_run _ _ _ _ _ Esplit) as [_ [Ht1 _]].
  assert (Hno : forall e0 g,
             length (metadataY s) = length (values (metadataX s)) ->
             length (hpt s) = length (values (metadataX s)) ->
             train_test_split (rng w) (length (values (metadataX s))) test_size = (Raise e0, g) ->
             False).
  { intros e0 g Hy Hh Hs. rewrite (@split_raises _ _ _ _ w _ _ Hy Hh Hs) in Esplit. discriminate. }
  assert (Hlog : forall lvl msg, CallFit e <> Log lvl msg) by (intros; discriminate).
  unfold bind at 1. unfold lift at 1. cbn [fst snd].
  destruct (fit e x_train y_train w1) as [[c|err] w2] eqn:Efit;
    pose proof (fit_run _ _ _ _ Efit) as [_ Ht2].
  2:{ intros Heq; inversion Heq; subst r s' w'.
      exists [CallFit e]. split; [rewrite Ht2, Ht1, <- app_assoc; reflexivity|].
      split; [repeat constructor; exact Hlog|]. intros e0 g Hy Hh Hs. destruct (Hno _ _ Hy Hh Hs). }
  assert (Hend : forall (r0 : result train_result) (s0 : t),
             (r0, (s0, w2)) = (r, (s', w')) ->
             exists events,
               trace w' = trace w ++ CallSplit :: events
               /\ Forall (fun ev => forall lvl msg, ev <> Log lvl msg) events
               /\ (forall e0 g,
                     length (metadataY s) = length (values (metadataX s)) ->
                     length (hpt s) = length (values (metadataX s)) ->
                     train_test_split (rng w) (length (values (metadataX s))) test_size
                     = (Raise e0, g) ->
                     r = Raise e0 /\ s' = s /\ events = [] /\ rng w' = g)).
  { intros r0 s0 Heq; inversion Heq; subst r s' w'.
    exists [CallFit e]. split; [rewrite Ht2, Ht1, <- app_assoc; reflexivity|].
    split; [repeat constructor; exact Hlog|]. intros e0 g Hy Hh Hs. destruct (Hno _ _ Hy Hh Hs). }
  unfold bind at 1. unfold lift_result at 1.
  destruct (predict c (Arr2 x_train)) as [y_fit|err]; [|apply Hend].
  unfold bind at 1. unfold lift_result at 1.
  destruct (predict c (Arr2 x_test)) as [y_pred|err]; [|apply Hend].
  unfold bind at 1. unfold lift_result at 1.
  destruct (mapR _ (enumerate y_fit)) as [ml_fit|err]; [|apply Hend].
  unfold bind at 1. unfold lift_result at 1.
  destruct (mapR _ (enumerate y_pred)) as [ml_pred|err]; [|apply Hend].
  unfold bind at 1. unfold lift_result at 1.
  destruct (foldR _ _ _) as [[fe pe]|err]; [|apply Hend].
  unfold bind, modify_self, lift_result, ret. cbn [fst snd].
  destruct (accuracy_score y_test y_pred) as [acc|err]; apply Hend.
Qed.

(** C6.  The test [test_size <= 0 or test_size >= 1] misses NaN, which is
    outside the interval (0, 1) as well.  With a supported method and
    evaluation method and NaN for [test_size], [train] raises no
    configuration error before the split: the data are handed to
    [train_test_split] and nothing is logged, whatever happens next.  When
    [train_test_split] raises on the row-aligned data, that exception is
    what [train] raises, with the selector as it was. *)
Theorem train_nan_test_size method eval_method n_trees n_neighbors (s : t) w r s' w' :
  In method ["RandomForest"; "GBDT"; "SVM"; "KNN"; "NaiveBayes"] ->
  In eval_method ["mean"; "median"] ->
  train method eval_method NaN n_trees n_neighbors (s, w) = (r, (s', w')) ->
  exists events,
    trace w' = trace w ++ CallSplit :: events
    /\ Forall (fun ev => forall lvl msg, ev <> Log lvl msg) events
    /\ (forall e g,
          length (metadataY s) = length (values (metadataX s)) ->
          length (hpt s) = length (values (metadataX s)) ->
          train_test_split (rng w) (length (values (metadataX s))) NaN = (Raise e, g) ->
          r = Raise e /\ s' = s /\ events = [] /\ rng w' = g).
Proof.
  intros Hm He. apply train_unguarded.
  - apply existsb_exists. exists method. split; [exact Hm | apply String.eqb_refl].
  - apply existsb_exists. exists eval_method. split; [exact He | apply String.eqb_refl].
  - reflexivity.
Qed.


(** X17.  When [train] raises, the selector is as it was before the call,
    its former classifier included, except in one case: the classifier is
    assigned before the accuracy is computed, so a fitted classifier that
    predicts another number of labels than there are test rows is kept
    although the call failed.  No call of [train] changes an array. *)
Theorem train_failure method eval_method test_size n_trees n_neighbors (s : t) w err s' w' :
  train method eval_method test_size n_trees n_neighbors (s, w) = (Raise err, (s', w')) ->
  heap w' = heap w
  /\ (s' = s
      \/ exists c e X y g g' x_test y_pred,
           s' = set_clf s (Some c)
           /\ sk_fit g e X y = (Ok c, g')
           /\ predict c (Arr2 x_test) = Ok y_pred
           /\ length y_pred <> length x_test).
Proof.
  intros Hrun. apply train_cases in Hrun. destruct Hrun as [Hheap Hcases].
  split; [exact Hheap|].
  destruct Hcases as [[Hs _]|[c [e [X [y [g [g' [x_test [y_test [y_pred
                        [Hs [Hfit [Hpred [Hlen Herr]]]]]]]]]]]]]].
  - left. exact Hs.
  - right. exists c, e, X, y, g, g', x_test, y_pred.
    repeat (split; [assumption|]).
    intros Heq. rewrite <- Hlen in Heq. symmetry in Heq.
    apply Herr in Heq. destruct Heq as [res Hres]. discriminate.
Qed.
End TrainFacts.

(** * Further properties of prediction *)

Section PredictionMoreFacts.
Context `{Collaborators}.
Import MetaLearnModelSelect.

(** X18.  Without a classifier, [pred] and [pred_by_feature] log and raise
    the same state error, whatever they are given: the classifier is
    looked for before the type of [source_x] is examined and before the
    series is scaled, and nothing else is logged or created. *)
Theorem predictions_need_classifier (s : t) w ts ts_scale src n_top :
  clf s = None ->
  pred ts ts_scale n_top (s, w)
  = (Raise (ValueError not_trained), (s, logged_error w not_trained))
  /\ pred_by_feature src n_top (s, w)
     = (Raise (ValueError not_trained), (s, logged_error w not_trained)).
Proof.
  intros Hclf. unfold pred, pred_by_feature, bind, get_self. cbn [fst snd].
  rewrite Hclf. split; reflexivity.
Qed.

(** A run of [pred_by_feature] in which the scaling fails. *)
Lemma pred_by_feature_unscalable (s : t) (c : classifier) w src n_top a0 e :
  clf s = Some c ->
  source_array (heap w) src = Ok a0 ->
  standardized s a0 = Raise e ->
  pred_by_feature src n_top (s, w) = (Raise e, (s, grown w [a0])).
Proof.
  intros Hclf Hsrc Hstd. unfold pred_by_feature.
  unfold bind at 1. unfold get_self at 1. cbn [fst snd]. rewrite Hclf.
  unfold bind at 1. rewrite (copy_source_run s c _ _ Hsrc).
  unfold standardized in Hstd.
  destruct (scale s); [|discriminate].
  unfold bind, lift, lift_result, load, alloc, ret, grown.
  cbn [fst snd heap trace rng]. rewrite nth_last.
  destruct (np_broadcast np_sub a0 (x_mean s)) as [centred|e1]; simpl in Hstd.
  - rewrite Hstd. reflexivity.
  - inversion Hstd; subst. reflexivity.
Qed.

(** X19.  A trained selector answers by the array its input denotes: a
    list of arrays and the array of their stacked rows get the same
    result and leave the same world. *)
Theorem pred_by_feature_same_array (s : t) (c : classifier) w src1 src2 n_top a0 :
  clf s = Some c ->
  source_array (heap w) src1 = Ok a0 ->
  source_array (heap w) src2 = Ok a0 ->
  pred_by_feature src1 n_top (s, w) = pred_by_feature src2 n_top (s, w).
Proof.
  intros Hclf H1 H2. destruct (standardized s a0) as [a1|e] eqn:Hstd.
  - rewrite (@pred_by_feature_run _ s c w src1 n_top a0 a1 Hclf H1 Hstd).
    rewrite (@pred_by_feature_run _ s c w src2 n_top a0 a1 Hclf H2 Hstd). reflexivity.
  - rewrite (@pred_by_feature_unscalable s c w src1 n_top a0 e Hclf H1 Hstd).
    rewrite (@pred_by_feature_unscalable s c w src2 n_top a0 e Hclf H2 Hstd). reflexivity.
Qed.

(** X20.  [pred_by_feature] accepts any [n_top].  For [n_top <= 0] a
    classifier that gives one probability per class and row gets, for
    every row, the ranking of all classes by non-increasing predicted
    probability, cut as the slice [:n_top] cuts it: no label for 0, all
    but the last [-n_top] of the ranking for a negative number. *)
Theorem pred_by_feature_no_top (s : t) (c : classifier) w src n_top a0 a1 rows :
  clf s = Some c ->
  source_array (heap w) src = Ok a0 ->
  standardized s a0 = Ok a1 ->
  fill_nan a1 = Arr2 rows ->
  (n_top <= 0)%Z ->
  predict_proba_ok c rows ->
  exists out w',
    pred_by_feature src n_top (s, w) = (Ok (Labels2 out), (s, w'))
    /\ length out = length rows
    /\ Forall (fun row => length row = if (n_top =? 0)%Z then 0
                                       else length (classes_ c) - Z.to_nat (- n_top)) out
    /\ exists P,
         predict_proba c (Arr2 rows) = Ok P
         /\ Forall2 (fun p row =>
                       top_ranked (classes_ c) p
                         (if (n_top =? 0)%Z then 0
                          else length (classes_ c) - Z.to_nat (- n_top)) row
                       /\ exists full,
                            take (classes_ c) (argsort (map Qopp p)) = Ok full
                            /\ row = slice_to n_top full)
                    P out.
Proof.
  intros Hclf Hsrc Hstd Hfill Hn [P [HP [Hlen Hwidth]]].
  rewrite (@pred_by_feature_run _ s c w src n_top a0 a1 Hclf Hsrc Hstd), Hfill.
  unfold predicted_labels.
  replace (n_top =? 1)%Z with false by (symmetry; apply Z.eqb_neq; lia).
  rewrite HP. cbn [rbind].
  destruct (@rank_rows (classes_ c) P Hwidth) as [ranked [Hranked HF]].
  rewrite Hranked. cbn [rbind].
  assert (Hcut : forall p full,
             length p = length (classes_ c) ->
             take (classes_ c) (argsort (map Qopp p)) = Ok full ->
             slice_to n_top full
             = firstn (if (n_top =? 0)%Z then 0
                       else length (classes_ c) - Z.to_nat (- n_top)) full).
  { intros p full Hp Hpf.
    assert (Hfull : length full = length (classes_ c)).
    { apply mapR_length in Hpf. rewrite Hpf.
      pose proof (Permutation_length (argsort_perm (map Qopp p))) as Hl.
      rewrite length_seq, length_map in Hl. congruence. }
    unfold slice_to. destruct (0 <=? n_top)%Z eqn:E0.
    - apply Z.leb_le in E0. assert (n_top = 0%Z) by lia. subst n_top. reflexivity.
    - apply Z.leb_gt in E0.
      replace (n_top =? 0)%Z with false by (symmetry; apply Z.eqb_neq; lia).
      rewrite Hfull. reflexivity. }
  assert (Hrows : Forall2 (fun p row =>
                             top_ranked (classes_ c) p
                               (if (n_top =? 0)%Z then 0
                                else length (classes_ c) - Z.to_nat (- n_top)) row
                             /\ exists full,
                                  take (classes_ c) (argsort (map Qopp p)) = Ok full
                                  /\ row = slice_to n_top full)
                          P (map (slice_to n_top) ranked)).
  { clear Hranked HP Hlen. revert Hwidth.
    induction HF as [|p full P ranked Hpf HF IH]; intros Hwidth; cbn [map]; constructor.
    - inversion Hwidth as [|? ? Hp _]; subst. split.
      + rewrite (Hcut p full Hp Hpf). apply top_ranked_firstn; assumption.
      + exists full. split; [exact Hpf | reflexivity].
    - inversion Hwidth; subst. auto. }
  eexists; eexists. split; [reflexivity|]. split; [|split].
  - rewrite length_map. apply mapR_length in Hranked.
    rewrite length_map in Hranked. congruence.
  - clear - Hrows. induction Hrows as [|p row P out [[Hl _] _] _ IH]; constructor; [|exact IH].
    rewrite Hl. destruct (n_top =? 0)%Z; lia.
  - exists P. split; [reflexivity | exact Hrows].
Qed.

(** X21.  [pred] on a trained selector is [pred_by_feature] on the
    one-row table of the features of the series: the classifier is asked
    about that row, scaled as at fit time and then with NaN replaced by 0,
    and the first entry of the answer is returned.  The call logs the
    scaling of the series at level INFO and NaN among the features at
    level WARNING, and does nothing else than create the feature vector
    and the arrays of [pred_by_feature]. *)
Theorem pred_is_pred_by_feature (s : t) (c : classifier) w ts ts_scale n_top a1 :
  clf s = Some c ->
  standardized s (Arr2 [series_features ts ts_scale]) = Ok a1 ->
  pred ts ts_scale n_top (s, w)
  = (match predicted_labels c (fill_nan a1) n_top with
     | Ok (Labels1 (y :: _)) => Ok (OneLabel y)
     | Ok (Labels2 (row :: _)) => Ok (TopLabels row)
     | Ok _ => Raise (IndexError "index 0 is out of bounds for axis 0 with size 0")
     | Raise e => Raise e
     end,
     (s, {| heap := heap w ++ Arr1 (series_features ts ts_scale)
                      :: fresh_arrays s (Arr2 [series_features ts ts_scale]) a1;
            trace := trace w
                     ++ (if ts_scale
                         then [Log INFO "Successful scaled! Each value of TS has been divided by the max value of TS."]
                         else [])
                     ++ (if existsb isnan (series_features ts ts_scale)
                         then [Log WARNING (nan_warning ts ts_scale)]
                         else []);
            rng := rng w |})).
Proof.
  intros Hclf Hstd. unfold pred.
  unfold bind at 1. unfold get_self at 1. cbn [fst snd]. rewrite Hclf.
  set (w1 := {| heap := heap w;
                trace := trace w
                     ++ (if ts_scale
                         then [Log INFO "Successful scaled! Each value of TS has been divided by the max value of TS."]
                         else [])
                     ++ (if existsb isnan (series_features ts ts_scale)
                         then [Log WARNING (nan_warning ts ts_scale)]
                         else []);
                rng := rng w |}).
  assert (Hsrc : source_array (heap (grown w1 [Arr1 (series_features ts ts_scale)]))
                   (SrcList [length (heap w)])
                 = Ok (Arr2 [series_features ts ts_scale])).
  { cbn [source_array map grown heap w1]. rewrite nth_last. reflexivity. }
  pose proof (@pred_by_feature_run _ s c _ _ n_top _ a1 Hclf Hsrc Hstd) as Hrun.
  unfold grown in Hrun. cbn [heap trace rng w1] in Hrun. subst w1.
  unfold series_features, nan_warning in *.
  destruct ts_scale;
    unfold bind, lift, logging, ret, alloc; cbn [fst snd heap trace rng];
    destruct (existsb isnan _) eqn:Enan; cbn [fst snd heap trace rng app];
    repeat rewrite <- app_assoc; repeat rewrite <- app_assoc in Hrun;
    cbn [app] in Hrun |- *; rewrite ?app_nil_r in Hrun; rewrite ?app_nil_r;
    rewrite Hrun;
    destruct (predicted_labels c (fill_nan a1) n_top) as [[[|y ys]|[|row rows]]|e];
    reflexivity.
Qed.
End PredictionMoreFacts.

(** * Further properties of the fuzzy prediction *)

Lemma column_short {A} j (data : list (list A)) :
  Exists (fun row => length row <= j) data ->
  column j data = Raise (IndexError "index is out of bounds for axis 1").
Proof.
  unfold column. induction data as [|row data IH]; intros Hex; [inversion Hex|].
  cbn [mapR]. destruct (nth_error row j) as [x|] eqn:E; cbn [rbind]; [|reflexivity].
  inversion Hex as [? ? Hrow|? ? Hrest]; subst.
  - apply nth_error_None in Hrow. congruence.
  - rewrite (IH Hrest). reflexivity.
Qed.

Lemma column_error {A} j (data : list (list A)) e :
  column j data = Raise e -> Exists (fun row => length row <= j) data.
Proof.
  unfold column. revert e. induction data as [|row data IH]; intros e E0; [discriminate|].
  cbn [mapR] in E0. destruct (nth_error row j) as [x|] eqn:Ex; cbn [rbind] in E0.
  - right. destruct (mapR _ data) as [bs|e0]; [discriminate|]. apply (IH e0). reflexivity.
  - left. apply nth_error_None in Ex. exact Ex.
Qed.

Section FuzzyMore.
Context `{Collaborators}.
Import MetaLearnModelSelect.

Lemma bootstrap_short_rows (data : list (list Q)) (rep : Z) w :
  Exists (fun row => length row < 2) data ->
  _bootstrap data rep w = (Raise (IndexError "index is out of bounds for axis 1"), w).
Proof.
  intros Hex. unfold _bootstrap, bind at 1, lift_result at 1.
  destruct (column 0 data) as [c0|e] eqn:E0.
  - unfold bind at 1, lift_result at 1.
    rewrite (@column_short Q 1 data); [reflexivity|].
    eapply Exists_impl; [|exact Hex]. simpl. intros; lia.
  - pose proof (@column_error Q 0 data e E0) as Hex0. pose proof (column_short Hex0) as E0'.
    rewrite E0 in E0'. inversion E0'. reflexivity.
Qed.

Lemma bootstrap_frame (data : list (list Q)) (rep : Z) w r w' :
  _bootstrap data rep w = (r, w') -> heap w' = heap w /\ trace w' = trace w.
Proof.
  unfold _bootstrap, bind at 1, lift_result at 1.
  destruct (column 0 data) as [c0|e]; [|intros Heq; inversion Heq; subst; auto].
  unfold bind at 1, lift_result at 1.
  destruct (column 1 data) as [c1|e]; [|intros Heq; inversion Heq; subst; auto].
  destruct (_ <? 0)%Z; [intros Heq; inversion Heq; subst; auto|].
  unfold bind at 1.
  destruct (random_choice _ _ true w) as [[idx|e] w1] eqn:Ech;
    apply random_choice_frame in Ech; [|intros Heq; inversion Heq; subst; exact Ech].
  unfold bind at 1, lift_result at 1.
  destruct (take _ idx) as [drawn|e]; [|intros Heq; inversion Heq; subst; exact Ech].
  destruct (_ =? 0); [intros Heq; inversion Heq; subst; exact Ech|].
  unfold bind, lift_result, ret, raise.
  destruct (reshape_rows _ drawn) as [sample|e];
    [|intros Heq; inversion Heq; subst; exact Ech].
  destruct (length sample =? 0); intros Heq; inversion Heq; subst; exact Ech.
Qed.

(** X22.  Whatever it is given and however it ends, [pred_fuzzy] leaves
    the selector, the arrays and the log as they were: unlike [pred] it
    logs neither the scaling of the series nor NaN among the features. *)
Theorem pred_fuzzy_frame (s : t) w ts ts_scale sig_level :
  fst (snd (pred_fuzzy ts ts_scale sig_level (s, w))) = s
  /\ heap (snd (snd (pred_fuzzy ts ts_scale sig_level (s, w)))) = heap w
  /\ trace (snd (snd (pred_fuzzy ts ts_scale sig_level (s, w)))) = trace w.
Proof.
  destruct (pred_fuzzy ts ts_scale sig_level (s, w)) as [r [s' w']] eqn:Erun. cbn [fst snd].
  revert Erun. unfold pred_fuzzy.
  unfold bind at 1. unfold get_self at 1. cbn [fst snd].
  unfold bind at 1.
  set (test0 := fill_nan _).
  assert (Hpre : exists r0, (if scale s
                    then centred <- lift_result (np_broadcast np_sub test0 (x_mean s)) ;;
                         lift_result (np_broadcast np_div centred (x_std s))
                    else ret test0) (s, w) = (r0, (s, w))).
  { destruct (scale s); [|eexists; reflexivity].
    unfold bind, lift_result. destruct (np_broadcast np_sub test0 (x_mean s)); [|eexists; reflexivity].
    destruct (np_broadcast np_div _ (x_std s)); eexists; reflexivity. }
  destruct Hpre as [[test|e] ->]; [|intros Heq; inversion Heq; subst; auto].
  destruct (clf s) as [c|]; [|intros Heq; inversion Heq; subst; auto].
  destruct (estimators_ c) as [trees|]; [|intros Heq; inversion Heq; subst; auto].
  unfold bind at 1, lift_result at 1.
  destruct (mapR _ trees) as [data|e]; [|intros Heq; inversion Heq; subst; auto].
  unfold bind at 1, lift_result at 1.
  destruct (predict_proba c _) as [p|e]; [|intros Heq; inversion Heq; subst; auto].
  unfold bind at 1, lift_result at 1.
  destruct (first_row p) as [prob|e]; [|intros Heq; inversion Heq; subst; auto].
  unfold bind at 1, lift_result at 1.
  destruct (match data with [] => _ | _ => _ end) as [top2|e];
    [|intros Heq; inversion Heq; subst; auto].
  unfold bind at 1, lift at 1. cbn [fst snd].
  destruct (_bootstrap top2 200 w) as [[pv|e] w1] eqn:Eboot;
    apply bootstrap_frame in Eboot; [|intros Heq; inversion Heq; subst; tauto].
  destruct (float_ge pv (Fin sig_level)); unfold bind, lift_result, ret;
    destruct (take (classes_ c) _); try (intros Heq; inversion Heq; subst; tauto);
    destruct (take prob _); intros Heq; inversion Heq; subst; tauto.
Qed.

(** X23.  On a selector whose classifier is no forest (it has no
    [estimators_]), [pred_fuzzy] fails with an AttributeError once the
    features are scaled; it does not tell that the method is for random
    forests only. *)
Theorem pred_fuzzy_without_forest (s : t) (c : classifier) w ts ts_scale sig_level test :
  clf s = Some c -> estimators_ c = None ->
  standardized s (fuzzy_features ts ts_scale) = Ok test ->
  exists msg,
    pred_fuzzy ts ts_scale sig_level (s, w) = (Raise (AttributeError msg), (s, w)).
Proof.
  intros Hclf Hest Hstd. unfold pred_fuzzy.
  change (fill_nan (Arr1 (map snd (TsFeatures_transform
            (if ts_scale then ts_div_max (ts_copy ts) else ts_copy ts)))))
    with (fuzzy_features ts ts_scale).
  unfold bind at 1. unfold get_self at 1. cbn [fst snd].
  assert (Hpre : (if scale s
                  then centred <- lift_result (np_broadcast np_sub (fuzzy_features ts ts_scale) (x_mean s)) ;;
                       lift_result (np_broadcast np_div centred (x_std s))
                  else ret (fuzzy_features ts ts_scale)) (s, w)
                 = (Ok test, (s, w))).
  { unfold standardized in Hstd. destruct (scale s); [|inversion Hstd; reflexivity].
    unfold bind, lift_result.
    destruct (np_broadcast np_sub (fuzzy_features ts ts_scale) (x_mean s));
      simpl in Hstd; [|discriminate]. rewrite Hstd. reflexivity. }
  unfold bind at 1. rewrite Hpre, Hclf, Hest. eexists. reflexivity.
Qed.

(** X24.  On a forest fitted to a single class, [pred_fuzzy] fails with an
    IndexError: there is no second class to compare the first with. *)
Theorem pred_fuzzy_single_class (s : t) (c : classifier) trees w ts ts_scale sig_level
    test p0 rest0 :
  clf s = Some c -> estimators_ c = Some trees -> trees <> [] ->
  standardized s (fuzzy_features ts ts_scale) = Ok test ->
  Forall (fun tr => exists row rest, tree_predict_proba tr (reshape_one_row test) = Ok (row :: rest)
                                     /\ length row = 1) trees ->
  predict_proba c (reshape_one_row test) = Ok ([p0] :: rest0) ->
  exists msg,
    pred_fuzzy ts ts_scale sig_level (s, w) = (Raise (IndexError msg), (s, w)).
Proof.
  intros Hclf Hest Hne Hstd Hall Hprob.
  set (x := reshape_one_row test) in *.
  destruct (@tree_rows trees x 1 Hall) as [data [Hdata [HF2 Hdl]]].
  assert (Hdne : data <> []).
  { intros ->. inversion HF2; subst. congruence. }
  assert (Htop : exists data2, mapR (fun row : list Q => take row [0]) data = Ok data2
                               /\ Forall (fun row => length row = 1) data2
                               /\ data2 <> []).
  { clear -Hdl Hdne. induction Hdl as [|row data Hrow Hrest IH]; [congruence|].
    cbn [mapR]. rewrite (take_one row 0%Q) by lia. cbn [rbind].
    destruct data as [|row' data'].
    - eexists. split; [reflexivity|]. split; [repeat constructor | discriminate].
    - destruct IH as [data2 [-> [Hl _]]]; [discriminate|]. cbn [rbind].
      eexists. split; [reflexivity|]. split; [constructor; [reflexivity | exact Hl] | discriminate]. }
  destruct Htop as [data2 [Htop [Hl2 Hne2]]].
  assert (Hshort : Exists (fun row : list Q => length row < 2) data2).
  { destruct data2 as [|r2 data2]; [congruence|]. left. inversion Hl2; subst. lia. }
  unfold pred_fuzzy.
  change (fill_nan (Arr1 (map snd (TsFeatures_transform
            (if ts_scale then ts_div_max (ts_copy ts) else ts_copy ts)))))
    with (fuzzy_features ts ts_scale).
  unfold bind at 1. unfold get_self at 1. cbn [fst snd].
  assert (Hpre : (if scale s
                  then centred <- lift_result (np_broadcast np_sub (fuzzy_features ts ts_scale) (x_mean s)) ;;
                       lift_result (np_broadcast np_div centred (x_std s))
                  else ret (fuzzy_features ts ts_scale)) (s, w)
                 = (Ok test, (s, w))).
  { unfold standardized in Hstd. destruct (scale s); [|inversion Hstd; reflexivity].
    unfold bind, lift_result.
    destruct (np_broadcast np_sub (fuzzy_features ts ts_scale) (x_mean s));
      simpl in Hstd; [|discriminate]. rewrite Hstd. reflexivity. }
  unfold bind at 1. rewrite Hpre. fold x. rewrite Hclf, Hest.
  unfold bind at 1. unfold lift_result at 1. rewrite Hdata.
  unfold bind at 1. unfold lift_result at 1. rewrite Hprob.
  unfold bind at 1. unfold lift_result at 1. cbn [first_row].
  change (firstn 2 (argsort (map Qopp [p0]))) with [0]. cbn [firstn].
  unfold bind at 1. unfold lift_result at 1.
  destruct data as [|d0 data']; [congruence|]. rewrite Htop.
  unfold bind at 1. unfold lift at 1. cbn [fst snd].
  rewrite (bootstrap_short_rows 200 w Hshort). eexists. reflexivity.
Qed.
End FuzzyMore.

Section BootstrapEdges.
Context `{Collaborators}.
Hypothesis choice_ok : choice_with_replacement.
Import MetaLearnModelSelect.

(** X25.  The edges of [_bootstrap].  A table with a row of fewer than two
    entries gives an IndexError.  On an (n x 2) table with n >= 1, a
    negative [rep] gives a ValueError before anything is drawn, and
    [rep = 0] gives a sample without rows, on which the average along
    axis 1 fails with a ZeroDivisionError: no p-value is returned. *)
Theorem bootstrap_edges (data : list (list Q)) (rep : Z) (w : world) :
  (Exists (fun row => length row < 2) data ->
   exists msg, _bootstrap data rep w = (Raise (IndexError msg), w))
  /\ (data <> [] -> Forall (fun row => length row = 2) data -> (rep < 0)%Z ->
      exists msg, _bootstrap data rep w = (Raise (ValueError msg), w))
  /\ (data <> [] -> Forall (fun row => length row = 2) data -> rep = 0%Z ->
      exists msg w', _bootstrap data rep w = (Raise (ZeroDivisionError msg), w')
                     /\ heap w' = heap w /\ trace w' = trace w).
Proof.
  split; [|split].
  - intros Hex. eexists. apply bootstrap_short_rows. exact Hex.
  - intros Hne Hrows Hrep.
    assert (Hn : 0 < length data) by (destruct data; [congruence | simpl; lia]).
    assert (Hc0 : column 0 data = Ok (map (fun row => nth 0 row 0%Q) data)).
    { apply column_ok. eapply Forall_impl; [|exact Hrows]. simpl. intros; lia. }
    assert (Hc1 : column 1 data = Ok (map (fun row => nth 1 row 0%Q) data)).
    { apply column_ok. eapply Forall_impl; [|exact Hrows]. simpl. intros; lia. }
    eexists. unfold _bootstrap, bind, lift_result, raise.
    rewrite Hc0, Hc1, !map_map, zip_with_map, length_map.
    replace (Z.of_nat (length data) * rep <? 0)%Z with true by (symmetry; apply Z.ltb_lt; nia).
    reflexivity.
  - intros Hne Hrows ->.
    assert (Hn : 0 < length data) by (destruct data; [congruence | simpl; lia]).
    assert (Hc0 : column 0 data = Ok (map (fun row => nth 0 row 0%Q) data)).
    { apply column_ok. eapply Forall_impl; [|exact Hrows]. simpl. intros; lia. }
    assert (Hc1 : column 1 data = Ok (map (fun row => nth 1 row 0%Q) data)).
    { apply column_ok. eapply Forall_impl; [|exact Hrows]. simpl. intros; lia. }
    assert (Hseq : seq 0 (length data) <> []) by (destruct (length data); [lia | discriminate]).
    destruct (choice_ok (rng w) (length data * Z.to_nat 0) Hseq) as [idx [g' [Hch [Hil _]]]].
    assert (Hidx : idx = []).
    { destruct idx; [reflexivity|]. simpl in Hil. rewrite Nat.mul_0_r in Hil. discriminate. }
    subst idx.
    eexists; eexists. unfold _bootstrap, bind, lift_result, raise, ret.
    rewrite Hc0, Hc1, !map_map, zip_with_map, length_map.
    replace (Z.of_nat (length data) * 0 <? 0)%Z with false by (symmetry; apply Z.ltb_ge; lia).
    unfold random_choice. rewrite Hch. cbn [take mapR].
    replace (length data =? 0) with false by (symmetry; apply Nat.eqb_neq; lia).
    unfold reshape_rows. cbn [length]. rewrite Nat.Div0.mod_0_l, Nat.Div0.div_0_l.
    cbn. auto.
Qed.
End BootstrapEdges.

(** * Pre-processing twice *)

Section ScaleTwice.
Context `{Collaborators}.
Hypothesis choice_ok : choice_without_replacement.
Import MetaLearnModelSelect.

(** X29.  Scaling is not guarded by the flag [scale]: a second call of
    [preprocess] with [scale] scales the scaled rows once more, with the
    same means and standard deviations. *)
Theorem preprocess_scale_twice (s : t) w :
  reachable s ->
  exists s1 w1 s2 w2,
    preprocess false true (s, w) = (Ok tt, (s1, w1))
    /\ preprocess false true (s1, w1) = (Ok tt, (s2, w2))
    /\ x_mean s2 = x_mean s /\ x_std s2 = x_std s /\ scale s2 = true
    /\ values (metadataX s2)
       = scaled_rows (x_mean s) (x_std s)
           (scaled_rows (x_mean s) (x_std s) (values (metadataX s))).
Proof.
  intros Hreach.
  pose proof (reachable_well_formed choice_ok Hreach) as Hwf.
  destruct (@preprocess_fields _ choice_ok s w false true Hwf)
    as [s1 [w1 [X1 [Hrun1 [_ [_ [_ [_ [_ [Hv1 [[HX1 [Hm1 [Hsd1 _]]] _]]]]]]]]]]].
  assert (Hreach1 : reachable s1) by (eapply reachable_preprocess; eassumption).
  pose proof (reachable_well_formed choice_ok Hreach1) as Hwf1.
  destruct (@preprocess_fields _ choice_ok s1 w1 false true Hwf1)
    as [s2 [w2 [X2 [Hrun2 [_ [_ [_ [Hsc2 [_ [Hv2 [[HX2 [Hm2 [Hsd2 _]]] _]]]]]]]]]]].
  exists s1, w1, s2, w2. split; [exact Hrun1|]. split; [exact Hrun2|].
  split; [congruence|]. split; [congruence|]. split; [exact Hsc2|].
  rewrite Hv2, HX2, Hv1, HX1, Hm2, Hsd2, Hm1, Hsd1. reflexivity.
Qed.
End ScaleTwice.

(** * Saving and loading *)

Section PersistenceFacts.
Context `{Collaborators} `{Joblib}.
Import MetaLearnModelSelect.
Import Persistence.

(** X26.  [save_model] on a selector without classifier writes nothing:
    it logs and raises the ValueError that no model has been trained, and
    joblib is not called. *)
Theorem save_model_untrained (st : store) (s : t) file_name :
  self st = Some s -> clf s = None ->
  save_model file_name st
  = (Raise (ValueError "Haven't trained a model."),
     {| self := self st;
        outside := logged_error (outside st) "Haven't trained a model.";
        disk := disk st |}).
Proof.
  intros Hself Hclf. unfold save_model, bind, log, logging, raise, logged_error.
  rewrite Hself, Hclf. reflexivity.
Qed.

(** X27.  Whatever goes wrong when the file is read, [load_model] turns it
    into one ValueError, which it logs; the object keeps the attributes it
    had, and no file is changed. *)
Theorem load_model_failure (st : store) file_name :
  joblib_load (disk st) file_name = None ->
  load_model file_name st
  = (Raise (ValueError "No existing pre-trained model. Please change file path or train a model first!"),
     {| self := self st;
        outside := logged_error (outside st)
                     "No existing pre-trained model. Please change file path or train a model first!";
        disk := disk st |}).
Proof.
  intros Hload. unfold load_model, bind, log, logging, raise, logged_error.
  rewrite Hload. reflexivity.
Qed.

(** X28.  What [save_model] wrote, [load_model] reads back: when joblib
    returns what it was given and the dump succeeds, saving a trained
    selector and loading the file into any object, with or without
    attributes of its own, gives that object all the attributes of the
    saved selector, its classifier included.  Each of the two calls logs
    one line at level INFO. *)
Theorem save_then_load (st : store) (s : t) (c : classifier) file_name fs' :
  joblib_round_trip ->
  self st = Some s -> clf s = Some c ->
  joblib_dump (disk st) s file_name = (Ok tt, fs') ->
  save_model file_name st
  = (Ok tt, {| self := Some s;
               outside := logged_info (outside st) "Successfully saved the trained model!";
               disk := fs' |})
  /\ forall obj w,
       load_model file_name {| self := obj; outside := w; disk := fs' |}
       = (Ok tt, {| self := Some s;
                    outside := logged_info w "Successfully loaded a pre-trained model!";
                    disk := fs' |}).
Proof.
  intros Hjoblib Hself Hclf Hdump. split.
  - unfold save_model, bind, dump, log, logging, logged_info.
    rewrite Hself, Hclf, Hdump. reflexivity.
  - intros obj w. unfold load_model. cbn [disk].
    rewrite (Hjoblib _ _ _ _ Hdump). reflexivity.
Qed.
End PersistenceFacts.

(** ** Examples in the world of [Demo] *)

Lemma demo_untrained_reachable : @reachable Demo.demo Demo.untrained.
Proof.
  apply (@reachable_init Demo.demo Demo.records Demo.w0 Demo.untrained
           (snd (@MetaLearnModelSelect.__init__ Demo.demo (Some Demo.records) false Demo.w0))).
  vm_compute. reflexivity.
Qed.

Lemma demo_round_trip : @joblib_round_trip DemoMore.demo_joblib.
Proof.
  intros fs s name fs' Hdump. inversion Hdump; subst. cbn. rewrite String.eqb_refl. reflexivity.
Qed.

(** The selector built from the thirty-two records. *)
Lemma reachable_statistics_witness :
  @reachable Demo.demo Demo.untrained
  /\ Forall (fun v => float_is_zero v = false) (MetaLearnModelSelect.x_std Demo.untrained)
  /\ columns (MetaLearnModelSelect.metadataX Demo.untrained)
     = MetaLearnModelSelect.col_namesX Demo.untrained
  /\ length (MetaLearnModelSelect.x_mean Demo.untrained)
     = length (MetaLearnModelSelect.col_namesX Demo.untrained)
  /\ length (MetaLearnModelSelect.x_std Demo.untrained)
     = length (MetaLearnModelSelect.col_namesX Demo.untrained)
  /\ 30 < length (MetaLearnModelSelect.metadata Demo.untrained)
  /\ 1 <= length (MetaLearnModelSelect.metadataY Demo.untrained)
     <= length (MetaLearnModelSelect.metadata Demo.untrained).
Proof.
  refine ((fun H1 =>
             conj H1 (@reachable_statistics Demo.demo demo_choice_without_replacement
                        Demo.untrained H1)) _).
  exact demo_untrained_reachable.
Defined.

(** Three rows, two of one class. *)
Lemma fit_resample_distinct_witness :
  length Demo.hpt3 = length Demo.Y3
  /\ length (values Demo.X3) = length Demo.Y3
  /\ rectangular Demo.X3
  /\ Demo.Y3 <> []
  /\ exists js rh rx ry w',
       @RandomDownSampler.fit_resample Demo.demo
         (RandomDownSampler.__init__ Demo.hpt3 Demo.X3 Demo.Y3) Demo.w0
       = (Ok (rh, rx, ry), w')
       /\ NoDup js /\ Forall (fun j => j < length Demo.Y3) js
       /\ iloc Demo.hpt3 js = Ok rh /\ iloc (values Demo.X3) js = Ok (values rx)
       /\ iloc Demo.Y3 js = Ok ry
       /\ columns rx = columns Demo.X3
       /\ length ry <= length Demo.Y3.
Proof.
  refine ((fun H1 H2 H3 H4 =>
             conj H1 (conj H2 (conj H3 (conj H4
               (@fit_resample_distinct Demo.demo demo_choice_without_replacement
                  Demo.hpt3 Demo.X3 Demo.Y3 Demo.w0 H1 H2 H3 H4))))) _ _ _ _).
  - reflexivity.
  - reflexivity.
  - repeat constructor.
  - discriminate.
Defined.

Lemma fit_resample_succeeds_iff_witness :
  length Demo.hpt3 = length Demo.Y3
  /\ length (values Demo.X3) = length Demo.Y3
  /\ rectangular Demo.X3
  /\ (Demo.Y3 <> [] ->
      exists out w', @RandomDownSampler.fit_resample Demo.demo
                       (RandomDownSampler.__init__ Demo.hpt3 Demo.X3 Demo.Y3) Demo.w0
                     = (Ok out, w'))
  /\ (Demo.Y3 = [] ->
      @RandomDownSampler.fit_resample Demo.demo
        (RandomDownSampler.__init__ Demo.hpt3 Demo.X3 Demo.Y3) Demo.w0
      = (Raise (ValueError "min() arg is an empty sequence"), Demo.w0)).
Proof.
  refine ((fun H1 H2 H3 =>
             conj H1 (conj H2 (conj H3
               (@fit_resample_succeeds_iff Demo.demo demo_choice_without_replacement
                  Demo.hpt3 Demo.X3 Demo.Y3 Demo.w0 H1 H2 H3)))) _ _ _).
  - reflexivity.
  - reflexivity.
  - repeat constructor.
Defined.

(** Downsampling the selector of [Demo]. *)
Lemma preprocess_balances_witness :
  @reachable Demo.demo Demo.untrained
  /\ exists m s' w',
       @MetaLearnModelSelect.preprocess Demo.demo true false (Demo.untrained, Demo.w0)
       = (Ok tt, (s', w'))
       /\ is_min_count (MetaLearnModelSelect.metadataY Demo.untrained) m
       /\ MetaLearnModelSelect.count_category s'
          = map (fun c => (c, m)) (unique (MetaLearnModelSelect.metadataY Demo.untrained)).
Proof.
  refine ((fun H1 =>
             conj H1 (@preprocess_balances Demo.demo demo_choice_without_replacement
                        Demo.untrained Demo.w0 false H1)) _).
  exact demo_untrained_reachable.
Defined.

(** Downsampling and scaling the selector of [Demo]. *)
Lemma preprocess_effects_witness :
  @reachable Demo.demo Demo.untrained
  /\ exists s' w' X1,
       @MetaLearnModelSelect.preprocess Demo.demo true true (Demo.untrained, Demo.w0)
       = (Ok tt, (s', w'))
       /\ MetaLearnModelSelect.metadata s' = MetaLearnModelSelect.metadata Demo.untrained
       /\ MetaLearnModelSelect.col_namesX s' = MetaLearnModelSelect.col_namesX Demo.untrained
       /\ MetaLearnModelSelect.clf s' = MetaLearnModelSelect.clf Demo.untrained
       /\ MetaLearnModelSelect.scale s'
          = (true || MetaLearnModelSelect.scale Demo.untrained)%bool
       /\ columns (MetaLearnModelSelect.metadataX s')
          = columns (MetaLearnModelSelect.metadataX Demo.untrained)
       /\ values (MetaLearnModelSelect.metadataX s')
          = @scaled_rows Demo.demo (MetaLearnModelSelect.x_mean s')
              (MetaLearnModelSelect.x_std s') X1
       /\ (MetaLearnModelSelect.x_mean s'
           = @MetaLearnModelSelect.column_means Demo.demo
               {| columns := columns (MetaLearnModelSelect.metadataX Demo.untrained);
                  values := X1 |}
           /\ MetaLearnModelSelect.x_std s'
              = @MetaLearnModelSelect.column_stds Demo.demo
                  {| columns := columns (MetaLearnModelSelect.metadataX Demo.untrained);
                     values := X1 |})
       /\ length (MetaLearnModelSelect.metadataY s')
          <= length (MetaLearnModelSelect.metadataY Demo.untrained)
       /\ heap w' = heap Demo.w0
       /\ trace w'
          = trace Demo.w0
            ++ [Log INFO "Successfully applied random downsampling!"]
            ++ [Log INFO "Successfully scaled data by centering to the mean and component-wise scaling to unit variance!"].
Proof.
  refine ((fun H1 =>
             conj H1 (@preprocess_effects Demo.demo demo_choice_without_replacement
                        Demo.untrained Demo.w0 true true H1)) _).
  exact demo_untrained_reachable.
Defined.

(** Scaling the selector of [Demo] twice. *)
Lemma preprocess_scale_twice_witness :
  @reachable Demo.demo Demo.untrained
  /\ exists s1 w1 s2 w2,
       @MetaLearnModelSelect.preprocess Demo.demo false true (Demo.untrained, Demo.w0)
       = (Ok tt, (s1, w1))
       /\ @MetaLearnModelSelect.preprocess Demo.demo false true (s1, w1) = (Ok tt, (s2, w2))
       /\ MetaLearnModelSelect.x_mean s2 = MetaLearnModelSelect.x_mean Demo.untrained
       /\ MetaLearnModelSelect.x_std s2 = MetaLearnModelSelect.x_std Demo.untrained
       /\ MetaLearnModelSelect.scale s2 = true
       /\ values (MetaLearnModelSelect.metadataX s2)
          = @scaled_rows Demo.demo (MetaLearnModelSelect.x_mean Demo.untrained)
              (MetaLearnModelSelect.x_std Demo.untrained)
              (@scaled_rows Demo.demo (MetaLearnModelSelect.x_mean Demo.untrained)
                 (MetaLearnModelSelect.x_std Demo.untrained)
                 (values (MetaLearnModelSelect.metadataX Demo.untrained))).
Proof.
  refine ((fun H1 =>
             conj H1 (@preprocess_scale_twice Demo.demo demo_choice_without_replacement
                        Demo.untrained Demo.w0 H1)) _).
  exact demo_untrained_reachable.
Defined.


(** The selector built from the records of [Demo], in a world where the
    fitted classifier predicts no label: the call fails when the accuracy
    is computed, and the selector keeps the classifier. *)
Lemma train_failure_witness :
  @reachable DemoMore.demo_mute Demo.untrained
  /\ MetaLearnModelSelect.clf Demo.untrained = None
  /\ @MetaLearnModelSelect.train DemoMore.demo_mute "NaiveBayes" "mean" (Fin (1 # 5)) 500 5
       (Demo.untrained, DemoMore.w_mute)
     = (Raise (ValueError "Found input variables with inconsistent numbers of samples"),
        (MetaLearnModelSelect.set_clf Demo.untrained (Some DemoMore.mute),
         DemoMore.w_mute_fitted))
  /\ MetaLearnModelSelect.set_clf Demo.untrained (Some DemoMore.mute) <> Demo.untrained
  /\ heap DemoMore.w_mute_fitted = heap DemoMore.w_mute
  /\ (MetaLearnModelSelect.set_clf Demo.untrained (Some DemoMore.mute) = Demo.untrained
      \/ exists c e X y g g' x_test y_pred,
           MetaLearnModelSelect.set_clf Demo.untrained (Some DemoMore.mute)
           = MetaLearnModelSelect.set_clf Demo.untrained (Some c)
           /\ @sk_fit DemoMore.demo_mute g e X y = (Ok c, g')
           /\ predict c (Arr2 x_test) = Ok y_pred
           /\ length y_pred <> length x_test).
Proof.
  refine ((fun H1 H2 H3 H4 =>
             conj H1 (conj H2 (conj H3 (conj H4
               (@train_failure DemoMore.demo_mute "NaiveBayes" "mean" (Fin (1 # 5)) 500 5
                  Demo.untrained DemoMore.w_mute _
                  (MetaLearnModelSelect.set_clf Demo.untrained (Some DemoMore.mute))
                  DemoMore.w_mute_fitted H3))))) _ _ _ _).
  - apply (@reachable_init DemoMore.demo_mute Demo.records DemoMore.w_mute Demo.untrained
             (snd (@MetaLearnModelSelect.__init__ DemoMore.demo_mute (Some Demo.records) false
                     DemoMore.w_mute))).
    vm_compute. reflexivity.
  - vm_compute. reflexivity.
  - vm_compute. reflexivity.
  - intros Heq. apply (f_equal MetaLearnModelSelect.clf) in Heq. vm_compute in Heq.
    discriminate.
Defined.

(** Training the selector of [Demo] with NaN for the share of the test
    set: the split is called and raises. *)
Lemma train_nan_test_size_witness :
  In "RandomForest" ["RandomForest"; "GBDT"; "SVM"; "KNN"; "NaiveBayes"]
  /\ In "mean" ["mean"; "median"]
  /\ @MetaLearnModelSelect.train Demo.demo "RandomForest" "mean" NaN 500 5
       (Demo.untrained, Demo.w0)
     = (Raise (ValueError "cannot convert float NaN to integer"),
        (Demo.untrained, DemoMore.w_nan))
  /\ exists events,
       trace DemoMore.w_nan = trace Demo.w0 ++ CallSplit :: events
       /\ Forall (fun ev => forall lvl msg, ev <> Log lvl msg) events
       /\ (forall e g,
             length (MetaLearnModelSelect.metadataY Demo.untrained)
             = length (values (MetaLearnModelSelect.metadataX Demo.untrained)) ->
             length (MetaLearnModelSelect.hpt Demo.untrained)
             = length (values (MetaLearnModelSelect.metadataX Demo.untrained)) ->
             @train_test_split Demo.demo (rng Demo.w0)
               (length (values (MetaLearnModelSelect.metadataX Demo.untrained))) NaN
             = (Raise e, g) ->
             @Raise MetaLearnModelSelect.train_result
               (ValueError "cannot convert float NaN to integer") = Raise e
             /\ Demo.untrained = Demo.untrained /\ events = [] /\ rng DemoMore.w_nan = g).
Proof.
  refine ((fun H1 H2 H3 =>
             conj H1 (conj H2 (conj H3
               (@train_nan_test_size Demo.demo "RandomForest" "mean" 500 5
                  Demo.untrained Demo.w0 _ Demo.untrained DemoMore.w_nan H1 H2 H3)))) _ _ _).
  - simpl. auto.
  - simpl. auto.
  - vm_compute. reflexivity.
Defined.

(** The selector of [Demo] before training, asked about a data frame. *)
Lemma predictions_need_classifier_witness :
  MetaLearnModelSelect.clf Demo.untrained = None
  /\ @MetaLearnModelSelect.pred Demo.demo [Fin 1; NaN] true 1 (Demo.untrained, Demo.w0)
     = (Raise (ValueError MetaLearnModelSelect.not_trained),
        (Demo.untrained, logged_error Demo.w0 MetaLearnModelSelect.not_trained))
  /\ @MetaLearnModelSelect.pred_by_feature Demo.demo
       (MetaLearnModelSelect.SrcDataFrame Demo.X3) 1 (Demo.untrained, Demo.w0)
     = (Raise (ValueError MetaLearnModelSelect.not_trained),
        (Demo.untrained, logged_error Demo.w0 MetaLearnModelSelect.not_trained)).
Proof.
  refine ((fun H1 =>
             conj H1 (@predictions_need_classifier Demo.demo Demo.untrained Demo.w0
                        [Fin 1; NaN] true (MetaLearnModelSelect.SrcDataFrame Demo.X3) 1 H1)) _).
  vm_compute. reflexivity.
Defined.

(** The table on the heap, given as itself and as a list of one array. *)
Lemma pred_by_feature_same_array_witness :
  MetaLearnModelSelect.clf Demo.trained = Some Demo.forest
  /\ @source_array (heap Demo.w0) (MetaLearnModelSelect.SrcList [0])
     = Ok (Arr2 [[Fin 1; Fin 2]; [NaN; Fin 4]])
  /\ @source_array (heap Demo.w0) (MetaLearnModelSelect.SrcNdarray 0)
     = Ok (Arr2 [[Fin 1; Fin 2]; [NaN; Fin 4]])
  /\ @MetaLearnModelSelect.pred_by_feature Demo.demo (MetaLearnModelSelect.SrcList [0]) 2
       (Demo.trained, Demo.w0)
     = @MetaLearnModelSelect.pred_by_feature Demo.demo (MetaLearnModelSelect.SrcNdarray 0) 2
         (Demo.trained, Demo.w0).
Proof.
  refine ((fun H1 H2 H3 =>
             conj H1 (conj H2 (conj H3
               (@pred_by_feature_same_array Demo.demo Demo.trained Demo.forest Demo.w0
                  (MetaLearnModelSelect.SrcList [0]) (MetaLearnModelSelect.SrcNdarray 0) 2
                  _ H1 H2 H3)))) _ _ _).
  - reflexivity.
  - reflexivity.
  - reflexivity.
Defined.

(** All but the last of the two classes, for the two rows of the table. *)
Lemma pred_by_feature_no_top_witness :
  MetaLearnModelSelect.clf Demo.trained = Some Demo.forest
  /\ @source_array (heap Demo.w0) (MetaLearnModelSelect.SrcNdarray 0)
     = Ok (Arr2 [[Fin 1; Fin 2]; [NaN; Fin 4]])
  /\ @standardized Demo.demo Demo.trained (Arr2 [[Fin 1; Fin 2]; [NaN; Fin 4]])
     = Ok (Arr2 [[Fin 1; Fin 2]; [NaN; Fin 4]])
  /\ fill_nan (Arr2 [[Fin 1; Fin 2]; [NaN; Fin 4]]) = Arr2 [[Fin 1; Fin 2]; [Fin 0; Fin 4]]
  /\ (-1 <= 0)%Z
  /\ predict_proba_ok Demo.forest [[Fin 1; Fin 2]; [Fin 0; Fin 4]]
  /\ exists out w',
       @MetaLearnModelSelect.pred_by_feature Demo.demo (MetaLearnModelSelect.SrcNdarray 0) (-1)
         (Demo.trained, Demo.w0) = (Ok (MetaLearnModelSelect.Labels2 out), (Demo.trained, w'))
       /\ length out = length [[Fin 1; Fin 2]; [Fin 0; Fin 4]]
       /\ Forall (fun row : list string =>
                    length row = if (-1 =? 0)%Z then 0
                                 else length (classes_ Demo.forest) - Z.to_nat (- -1)) out
       /\ exists P,
            predict_proba Demo.forest (Arr2 [[Fin 1; Fin 2]; [Fin 0; Fin 4]]) = Ok P
            /\ Forall2 (fun p row =>
                          top_ranked (classes_ Demo.forest) p
                            (if (-1 =? 0)%Z then 0
                             else length (classes_ Demo.forest) - Z.to_nat (- -1)) row
                          /\ exists full,
                               take (classes_ Demo.forest) (argsort (map Qopp p)) = Ok full
                               /\ row = slice_to (-1) full)
                       P out.
Proof.
  refine ((fun H1 H2 H3 H4 H5 H6 =>
             conj H1 (conj H2 (conj H3 (conj H4 (conj H5 (conj H6
               (@pred_by_feature_no_top Demo.demo Demo.trained Demo.forest Demo.w0
                  (MetaLearnModelSelect.SrcNdarray 0) (-1) _ _ _ H1 H2 H3 H4 H5 H6)))))))
            _ _ _ _ _ _).
  - reflexivity.
  - reflexivity.
  - unfold standardized. rewrite demo_trained_scale. reflexivity.
  - reflexivity.
  - lia.
  - exists [[1 # 3; 2 # 3]; [1 # 3; 2 # 3]]%Q. split; [reflexivity|].
    split; [reflexivity | repeat constructor].
Defined.

(** The best model for a series of two values, one of them NaN. *)
Lemma pred_is_pred_by_feature_witness :
  MetaLearnModelSelect.clf Demo.trained = Some Demo.forest
  /\ @standardized Demo.demo Demo.trained (Arr2 [@series_features Demo.demo [Fin 1; NaN] true])
     = Ok (Arr2 [[Fin 1; NaN]])
  /\ @MetaLearnModelSelect.pred Demo.demo [Fin 1; NaN] true 1 (Demo.trained, Demo.w0)
     = (match MetaLearnModelSelect.predicted_labels Demo.forest
                (fill_nan (Arr2 [[Fin 1; NaN]])) 1 with
        | Ok (MetaLearnModelSelect.Labels1 (y :: _)) => Ok (MetaLearnModelSelect.OneLabel y)
        | Ok (MetaLearnModelSelect.Labels2 (row :: _)) => Ok (MetaLearnModelSelect.TopLabels row)
        | Ok _ => Raise (IndexError "index 0 is out of bounds for axis 0 with size 0")
        | Raise e => Raise e
        end,
        (Demo.trained,
         {| heap := heap Demo.w0
                    ++ Arr1 (@series_features Demo.demo [Fin 1; NaN] true)
                       :: @fresh_arrays Demo.trained
                            (Arr2 [@series_features Demo.demo [Fin 1; NaN] true])
                            (Arr2 [[Fin 1; NaN]]);
            trace := trace Demo.w0
                     ++ (if true
                         then [Log INFO "Successful scaled! Each value of TS has been divided by the max value of TS."]
                         else [])
                     ++ (if existsb isnan (@series_features Demo.demo [Fin 1; NaN] true)
                         then [Log WARNING (@nan_warning Demo.demo [Fin 1; NaN] true)]
                         else []);
            rng := rng Demo.w0 |})).
Proof.
  refine ((fun H1 H2 =>
             conj H1 (conj H2
               (@pred_is_pred_by_feature Demo.demo Demo.trained Demo.forest Demo.w0
                  [Fin 1; NaN] true 1 (Arr2 [[Fin 1; NaN]]) H1 H2))) _ _).
  - reflexivity.
  - unfold standardized. rewrite demo_trained_scale. reflexivity.
Defined.

(** The selector of [Demo] with a classifier that has no trees. *)
Lemma pred_fuzzy_without_forest_witness :
  MetaLearnModelSelect.clf (MetaLearnModelSelect.set_clf Demo.untrained (Some DemoMore.bayes))
  = Some DemoMore.bayes
  /\ estimators_ DemoMore.bayes = None
  /\ @standardized Demo.demo
       (MetaLearnModelSelect.set_clf Demo.untrained (Some DemoMore.bayes))
       (@fuzzy_features Demo.demo [Fin 1; NaN] true)
     = Ok (Arr1 [Fin 1; Fin 0])
  /\ exists msg,
       @MetaLearnModelSelect.pred_fuzzy Demo.demo [Fin 1; NaN] true (1 # 5)%Q
         (MetaLearnModelSelect.set_clf Demo.untrained (Some DemoMore.bayes), Demo.w0)
       = (Raise (AttributeError msg),
          (MetaLearnModelSelect.set_clf Demo.untrained (Some DemoMore.bayes), Demo.w0)).
Proof.
  refine ((fun H1 H2 H3 =>
             conj H1 (conj H2 (conj H3
               (@pred_fuzzy_without_forest Demo.demo
                  (MetaLearnModelSelect.set_clf Demo.untrained (Some DemoMore.bayes))
                  DemoMore.bayes Demo.w0 [Fin 1; NaN] true (1 # 5)%Q _ H1 H2 H3)))) _ _ _).
  - reflexivity.
  - reflexivity.
  - vm_compute. reflexivity.
Defined.

(** The selector of [Demo] with a forest that knows one class. *)
Lemma pred_fuzzy_single_class_witness :
  MetaLearnModelSelect.clf
    (MetaLearnModelSelect.set_clf Demo.untrained (Some DemoMore.lone_forest))
  = Some DemoMore.lone_forest
  /\ estimators_ DemoMore.lone_forest = Some [Demo.stump [1]%Q; Demo.stump [1]%Q]
  /\ [Demo.stump [1]%Q; Demo.stump [1]%Q] <> []
  /\ @standardized Demo.demo
       (MetaLearnModelSelect.set_clf Demo.untrained (Some DemoMore.lone_forest))
       (@fuzzy_features Demo.demo [Fin 1; NaN] true)
     = Ok (Arr1 [Fin 1; Fin 0])
  /\ Forall (fun tr => exists row rest,
                         tree_predict_proba tr (reshape_one_row (Arr1 [Fin 1; Fin 0]))
                         = Ok (row :: rest) /\ length row = 1)
            [Demo.stump [1]%Q; Demo.stump [1]%Q]
  /\ predict_proba DemoMore.lone_forest (reshape_one_row (Arr1 [Fin 1; Fin 0]))
     = Ok ([1%Q] :: [])
  /\ exists msg,
       @MetaLearnModelSelect.pred_fuzzy Demo.demo [Fin 1; NaN] true (1 # 5)%Q
         (MetaLearnModelSelect.set_clf Demo.untrained (Some DemoMore.lone_forest), Demo.w0)
       = (Raise (IndexError msg),
          (MetaLearnModelSelect.set_clf Demo.untrained (Some DemoMore.lone_forest), Demo.w0)).
Proof.
  refine ((fun H1 H2 H3 H4 H5 H6 =>
             conj H1 (conj H2 (conj H3 (conj H4 (conj H5 (conj H6
               (@pred_fuzzy_single_class Demo.demo
                  (MetaLearnModelSelect.set_clf Demo.untrained (Some DemoMore.lone_forest))
                  DemoMore.lone_forest _ Demo.w0 [Fin 1; NaN] true (1 # 5)%Q _ _ _
                  H1 H2 H3 H4 H5 H6))))))) _ _ _ _ _ _).
  - reflexivity.
  - reflexivity.
  - discriminate.
  - vm_compute. reflexivity.
  - repeat constructor; eexists; eexists; split; reflexivity.
  - reflexivity.
Defined.

(** A table of two trees: with one column, with a negative number of
    resamples, and with none. *)
Lemma bootstrap_edges_witness :
  (exists msg, @MetaLearnModelSelect._bootstrap Demo.demo [[1 # 2]; [0]]%Q 200 Demo.w0
               = (Raise (IndexError msg), Demo.w0))
  /\ (exists msg, @MetaLearnModelSelect._bootstrap Demo.demo [[1 # 2; 1 # 4]; [0; 1]]%Q (-1)
                    Demo.w0
                  = (Raise (ValueError msg), Demo.w0))
  /\ (exists msg w', @MetaLearnModelSelect._bootstrap Demo.demo [[1 # 2; 1 # 4]; [0; 1]]%Q 0
                       Demo.w0 = (Raise (ZeroDivisionError msg), w')
                     /\ heap w' = heap Demo.w0 /\ trace w' = trace Demo.w0).
Proof.
  split; [|split].
  - apply (@bootstrap_edges Demo.demo demo_choice_with_replacement [[1 # 2]; [0]]%Q 200 Demo.w0).
    left. simpl. lia.
  - apply (@bootstrap_edges Demo.demo demo_choice_with_replacement
             [[1 # 2; 1 # 4]; [0; 1]]%Q (-1) Demo.w0).
    + discriminate.
    + repeat constructor.
    + lia.
  - apply (@bootstrap_edges Demo.demo demo_choice_with_replacement
             [[1 # 2; 1 # 4]; [0; 1]]%Q 0 Demo.w0).
    + discriminate.
    + repeat constructor.
    + reflexivity.
Defined.

(** Saving the selector of [Demo] before it is trained. *)
Lemma save_model_untrained_witness :
  Persistence.self DemoMore.untrained_object = Some Demo.untrained
  /\ MetaLearnModelSelect.clf Demo.untrained = None
  /\ @Persistence.save_model Demo.demo DemoMore.demo_joblib "mlms.pkl" DemoMore.untrained_object
     = (Raise (ValueError "Haven't trained a model."),
        {| Persistence.self := Persistence.self DemoMore.untrained_object;
           Persistence.outside :=
             logged_error (Persistence.outside DemoMore.untrained_object)
               "Haven't trained a model.";
           Persistence.disk := Persistence.disk DemoMore.untrained_object |}).
Proof.
  refine ((fun H1 H2 =>
             conj H1 (conj H2
               (@save_model_untrained Demo.demo DemoMore.demo_joblib
                  DemoMore.untrained_object Demo.untrained "mlms.pkl" H1 H2))) _ _).
  - reflexivity.
  - vm_compute. reflexivity.
Defined.

(** Loading a file that does not exist. *)
Lemma load_model_failure_witness :
  @joblib_load DemoMore.demo_joblib (Persistence.disk DemoMore.trained_object) "mlms.pkl" = None
  /\ @Persistence.load_model Demo.demo DemoMore.demo_joblib "mlms.pkl" DemoMore.trained_object
     = (Raise (ValueError "No existing pre-trained model. Please change file path or train a model first!"),
        {| Persistence.self := Persistence.self DemoMore.trained_object;
           Persistence.outside :=
             logged_error (Persistence.outside DemoMore.trained_object)
               "No existing pre-trained model. Please change file path or train a model first!";
           Persistence.disk := Persistence.disk DemoMore.trained_object |}).
Proof.
  refine ((fun H1 =>
             conj H1 (@load_model_failure Demo.demo DemoMore.demo_joblib
                        DemoMore.trained_object "mlms.pkl" H1)) _).
  reflexivity.
Defined.

(** Saving the trained selector of [Demo] and loading it into an object
    without attributes. *)
Lemma save_then_load_witness :
  Persistence.self DemoMore.trained_object = Some Demo.trained
  /\ MetaLearnModelSelect.clf Demo.trained = Some Demo.forest
  /\ @joblib_dump DemoMore.demo_joblib (Persistence.disk DemoMore.trained_object)
       Demo.trained "mlms.pkl"
     = (Ok tt, DemoMore.saved_files)
  /\ @Persistence.save_model Demo.demo DemoMore.demo_joblib "mlms.pkl" DemoMore.trained_object
     = (Ok tt, {| Persistence.self := Some Demo.trained;
                  Persistence.outside :=
                    logged_info (Persistence.outside DemoMore.trained_object)
                      "Successfully saved the trained model!";
                  Persistence.disk := DemoMore.saved_files |})
  /\ forall obj w,
       @Persistence.load_model Demo.demo DemoMore.demo_joblib "mlms.pkl"
         {| Persistence.self := obj; Persistence.outside := w;
            Persistence.disk := DemoMore.saved_files |}
       = (Ok tt, {| Persistence.self := Some Demo.trained;
                    Persistence.outside :=
                      logged_info w "Successfully loaded a pre-trained model!";
                    Persistence.disk := DemoMore.saved_files |}).
Proof.
  refine ((fun H1 H2 H3 =>
             conj H1 (conj H2 (conj H3
               (@save_then_load Demo.demo DemoMore.demo_joblib DemoMore.trained_object
                  Demo.trained Demo.forest "mlms.pkl" DemoMore.saved_files
                  demo_round_trip H1 H2 H3)))) _ _ _).
  - reflexivity.
  - reflexivity.
  - reflexivity.
Defined.
